(** * ANK backend: RSVP webhooks and the outbound send orchestrator

    A shallow embedding of
      - [Events/views/webhooks.py]  (module [Webhooks])
      - [MessageTemplates/whatsapp_views/send_template.py]  (module [SendTemplate])
    together with the properties of the resolution / messaging-window core.

    Conventions of the embedding.
      - Python [str] values are Rocq [string]s; a character stands for the
        code point of the same number (code points below 256).
      - Instants are integers (microseconds); a [datetime] keeps its
        [tzinfo] so that naive and aware values can be told apart.
      - A table is the list of its rows, in primary-key order; a queryset is
        a list of rows.
      - A JSON body is a record of optional strings: an absent key and a
        JSON [null] are both [None].
      - A view returns an [outcome]: the response it builds, or the
        exception that escapes it. *)

From Stdlib Require Import List String Ascii ZArith NArith Bool Lia.
From Stdlib Require DecimalString.
Import ListNotations.
Local Open Scope string_scope.
Local Open Scope Z_scope.

(** ** Python string primitives used by the views *)

Module PyStr.

Definition code (c : ascii) : N := N_of_ascii c.

(** [str.isdigit] on code points below 256: the decimal digits and the
    superscripts U+00B2, U+00B3, U+00B9. *)
Definition isdigit (c : ascii) : bool :=
  let n := code c in
  (((48 <=? n) && (n <=? 57)) || (n =? 178) || (n =? 179) || (n =? 185))%N.

(** [str.isspace] on code points below 256. *)
Definition isspace (c : ascii) : bool :=
  let n := code c in
  (((9 <=? n) && (n <=? 13)) || ((28 <=? n) && (n <=? 32))
   || (n =? 133) || (n =? 160))%N.

(** [str.lower] on one code point below 256. *)
Definition lower_char (c : ascii) : ascii :=
  let n := code c in
  if (((65 <=? n) && (n <=? 90))
      || ((192 <=? n) && (n <=? 222) && negb (n =? 215)))%N
  then ascii_of_N (n + 32) else c.

Fixpoint filter (f : ascii -> bool) (s : string) : string :=
  match s with
  | EmptyString => EmptyString
  | String c r => if f c then String c (filter f r) else filter f r
  end.

Fixpoint map (f : ascii -> ascii) (s : string) : string :=
  match s with
  | EmptyString => EmptyString
  | String c r => String (f c) (map f r)
  end.

Fixpoint drop (n : nat) (s : string) : string :=
  match n, s with
  | O, _ => s
  | S _, EmptyString => EmptyString
  | S k, String _ r => drop k r
  end.

Fixpoint rev_onto (s acc : string) : string :=
  match s with
  | EmptyString => acc
  | String c r => rev_onto r (String c acc)
  end.

Definition rev (s : string) : string := rev_onto s EmptyString.

Fixpoint lstrip (s : string) : string :=
  match s with
  | EmptyString => EmptyString
  | String c r => if isspace c then lstrip r else s
  end.

Definition rstrip (s : string) : string := rev (lstrip (rev s)).

(** [s.strip()] *)
Definition strip (s : string) : string := rstrip (lstrip s).

(** [s.lower()] *)
Definition lower (s : string) : string := map lower_char s.

(** [s[-n:]] for [n > 0] *)
Definition last_chars (n : nat) (s : string) : string :=
  drop (String.length s - n) s.

(** Truth value of a string: [bool(s)] *)
Definition nonempty (s : string) : bool :=
  match s with EmptyString => false | _ => true end.

(** [all(p(ch) for ch in s)] *)
Fixpoint forallb (p : ascii -> bool) (s : string) : bool :=
  match s with
  | EmptyString => true
  | String c r => p c && forallb p r
  end.

End PyStr.

(** ** JSON bodies and Python truthiness *)

(** [bool(body.get(k))] for a string-or-null entry. *)
Definition truthy (o : option string) : bool :=
  match o with
  | Some s => PyStr.nonempty s
  | None => false
  end.

(** [body.get(k) or ""] *)
Definition or_empty (o : option string) : string :=
  match o with
  | Some s => s
  | None => ""
  end.

(** [body.get(k) or None] *)
Definition or_none (o : option string) : option string :=
  if truthy o then o else None.

Record Body := mkBody {
  wa_id : option string;
  event_id : option string;
  event_registration_id : option string;
  template_wamid : option string;
  rsvp_status : option string;
  responded_on : option string
}.

Record Request := mkRequest {
  headers_token : option string;   (* request.headers.get("X-Webhook-Token") *)
  meta_token : option string;      (* request.META.get("HTTP_X_WEBHOOK_TOKEN") *)
  body : option Body               (* None: decoding or json.loads raises *)
}.

(** ** Instants and datetimes *)

Definition instant := Z.

Record datetime := mkDatetime {
  wall : Z;                (* the clock fields, as microseconds *)
  tzinfo : option Z        (* UTC offset; None for a naive value *)
}.

Definition utc : Z := 0.

(** [datetime.now(tz=tz.utc)] at clock reading [t] *)
Definition datetime_now_utc (t : instant) : datetime := mkDatetime t (Some utc).

Definition aware (dt : datetime) : Prop := tzinfo dt <> None.

(** [timedelta(days=30)] *)
Definition days_30 : Z := 30 * 86400 * 1000000.

(** ** Stored data *)

Record EventRegistration := mkRegistration {
  er_id : string;
  er_event_id : string;
  er_guest_id : string;
  er_created_at : instant;
  er_rsvp_status : string;
  er_responded_on : option datetime;
  er_estimated_pax : option Z;
  er_additional_guest_count : option Z
}.

Record WaSendMap := mkSendMap {
  m_id : N;
  m_wa_id : string;
  m_event_id : string;
  m_event_registration : string;
  m_template_wamid : option string;
  m_created_at : instant;
  m_expires_at : instant;
  m_consumed_at : option instant
}.

Record DB := mkDB {
  registrations : list EventRegistration;
  send_maps : list WaSendMap
}.

(** ** Responses *)

Inductive HttpResponse :=
| HttpResponseForbidden (content : string)
| HttpResponseBadRequest (content : string)
| JsonTrackSend (map_id : N)
    (* JsonResponse({"ok": True, "map_id": ...}) *)
| JsonRsvp (id event guest status : string) (responded : option datetime).
    (* JsonResponse({"ok": True, "id", "event", "guest", "rsvp_status",
                     "responded_on"}) *)

Definition status_code (r : HttpResponse) : Z :=
  match r with
  | HttpResponseForbidden _ => 403
  | HttpResponseBadRequest _ => 400
  | JsonTrackSend _ => 200
  | JsonRsvp _ _ _ _ _ => 200
  end.

Definition client_error (code : Z) : Prop := 400 <= code < 500.
Definition server_error (code : Z) : Prop := 500 <= code < 600.

Inductive exn :=
| MultipleObjectsReturned (num : nat)    (* the rows [get] found *)
| DoesNotExist
| ValueError
| StorageError
| ChannelError.

(** [str(num)] *)
Definition decimal (n : nat) : string :=
  DecimalString.NilEmpty.string_of_uint (Nat.to_uint n).

(** [str(e)].  [get] fetches at most 21 rows, and says "more than 20" when
    it has fetched that many. *)
Definition exn_text (e : exn) : string :=
  match e with
  | MultipleObjectsReturned num =>
      "get() returned more than one WaSendMap -- it returned "
      ++ (if (num <? 21)%nat then decimal num else "more than 20") ++ "!"
  | DoesNotExist => "EventRegistration matching query does not exist."
  | ValueError => "invalid datetime"
  | StorageError => "storage error"
  | ChannelError => "channel layer error"
  end.

Inductive outcome :=
| Returns (r : HttpResponse)
| Raises (e : exn).      (* escapes the view: the framework answers 500 *)

(** ** What surrounds one request

    The readings of the clock, the configured secret, and whether the
    storage or the channel layer fails at the points where the views call
    them. *)

Record Env := mkEnv {
  secret_env : option string;   (* os.getenv("DJANGO_RSVP_SECRET") *)
  now_upsert : instant;         (* dj_tz.now() in track_send's defaults *)
  now_auto : instant;           (* created_at of a row inserted by track_send *)
  now_default : instant;        (* datetime.now(tz=tz.utc) in whatsapp_rsvp *)
  now_filter : instant;         (* dj_tz.now() in base_qs *)
  now_consumed : instant;       (* dj_tz.now() in qs.update *)
  upsert_fault : bool;          (* the storage raises during update_or_create *)
  save_fault : bool;            (* er.save raises *)
  publish_fault : bool;         (* group_send raises *)
  consume_fault : bool          (* the consumed_at update raises *)
}.

(** The message handed to [channel_layer.group_send]. *)
Record Notification := mkNotification {
  n_group : string;
  n_type : string;
  n_data_type : string;
  n_action : string;
  n_reg_id : string;
  n_reg_event : string;
  n_reg_rsvp_status : string;
  n_reg_estimated_pax : option Z;
  n_reg_additional_guest_count : option Z
}.

(** Django's [parse_datetime]: a datetime, [None] when the text is not well
    formatted, or a [ValueError] when it is well formatted but not a date. *)
Inductive parse_result :=
| Parsed (dt : datetime)
| NotWellFormatted
| ParseRaises.

Module Webhooks.

Import PyStr.

Definition _get_header_token (request : Request) : string :=
  if truthy (headers_token request) then or_empty (headers_token request)
  else if truthy (meta_token request) then or_empty (meta_token request)
  else "".

Definition _get_secret (env : Env) : string :=
  match secret_env env with
  | Some s => s
  | None => ""
  end.

Definition _norm_digits (s : string) : string :=
  let d := PyStr.filter isdigit s in
  last_chars 15 d.

Definition _ensure_aware (dt : datetime) : datetime :=
  match tzinfo dt with
  | None => mkDatetime (wall dt) (Some utc)
  | Some _ => dt
  end.

(** [not secret or hdr != secret] *)
Definition token_rejected (env : Env) (request : Request) : bool :=
  let hdr := strip (_get_header_token request) in
  let secret := strip (_get_secret env) in
  negb (nonempty secret) || negb (hdr =? secret)%string.

(** *** Querysets *)

(** [EventRegistration.objects.get(pk=pk)]; [None] is [DoesNotExist]. *)
Definition get_registration (db : DB) (pk : string) : option EventRegistration :=
  find (fun er => (er_id er =? pk)%string) (registrations db).

(** [qs.order_by("-created_at").first()]: a row no other row of [qs] is
    newer than.  Which of several equally new rows comes first is left to
    the database; here it is the earliest of them in [qs], and the
    statements about the row returned say only that none is newer. *)
Fixpoint newest {A : Type} (created : A -> instant) (qs : list A) : option A :=
  match qs with
  | [] => None
  | x :: rest =>
      match newest created rest with
      | Some y => if created x <? created y then Some y else Some x
      | None => Some x
      end
  end.

(** [qs.first()] *)
Definition first {A : Type} (qs : list A) : option A := hd_error qs.

Definition template_is (t : string) (m : WaSendMap) : bool :=
  match m_template_wamid m with
  | Some t' => (t' =? t)%string
  | None => false
  end.

Definition wa_event_is (wa ev : string) (m : WaSendMap) : bool :=
  (m_wa_id m =? wa)%string && (m_event_id m =? ev)%string.

Definition fresh_id (maps : list WaSendMap) : N :=
  N.succ (fold_right N.max 0%N (List.map m_id maps)).

(** [setattr] of the [defaults] on a stored row. *)
Definition apply_defaults (wa ev reg : string) (expires : instant)
  (m : WaSendMap) : WaSendMap :=
  mkSendMap (m_id m) wa ev reg (m_template_wamid m) (m_created_at m)
            expires (m_consumed_at m).

(** [WaSendMap.objects.update_or_create(<key>, defaults=defaults)].
    [key] is the lookup; [template] is the correlator a created row gets
    (the lookup's, when it is the key).  With exactly one row matching, that
    row receives the defaults; with none a row is inserted; with several
    [get] raises. *)
Definition update_or_create (key : WaSendMap -> bool) (template : option string)
  (wa ev reg : string) (expires created : instant) (maps : list WaSendMap)
  : exn + (N * list WaSendMap) :=
  match List.filter key maps with
  | [] =>
      let obj := mkSendMap (fresh_id maps) wa ev reg template created expires None in
      inr (m_id obj, (maps ++ [obj])%list)
  | [obj] =>
      inr (m_id obj,
           List.map (fun m => if key m then apply_defaults wa ev reg expires m else m)
                    maps)
  | obj :: obj' :: rest =>
      inl (MultipleObjectsReturned (List.length (obj :: obj' :: rest)))
  end.

(** *** [track_send] *)

Definition track_send (env : Env) (db : DB) (request : Request) : outcome * DB :=
  if token_rejected env request then
    (Returns (HttpResponseForbidden "invalid token"), db)
  else
  match body request with
  | None => (Returns (HttpResponseBadRequest "invalid json"), db)
  | Some body =>
  let wa := _norm_digits (or_empty (wa_id body)) in
  let reg_id := event_registration_id body in
  let template := or_none (template_wamid body) in
  if negb (nonempty wa) || negb (truthy (event_id body)) then
    (Returns (HttpResponseBadRequest "missing wa_id or event_id"), db)
  else
  let ev := or_empty (event_id body) in
  let explicit :=
    if truthy reg_id then
      match get_registration db (or_empty reg_id) with
      | Some er => inr (Some er)
      | None => inl (HttpResponseBadRequest "registration not found")
      end
    else inr None in
  match explicit with
  | inl resp => (Returns resp, db)
  | inr er0 =>
  let resolved :=
    match er0 with
    | Some er => Some er
    | None =>
        newest er_created_at
          (List.filter (fun er => (er_event_id er =? ev)%string) (registrations db))
    end in
  match resolved with
  | None => (Returns (HttpResponseBadRequest "could not resolve registration"), db)
  | Some er =>
  let expires := now_upsert env + days_30 in
  let upsert :=
    if upsert_fault env then inl StorageError
    else
      match template with
      | Some t =>
          update_or_create (template_is t) (Some t)
            wa (er_event_id er) (er_id er) expires (now_auto env) (send_maps db)
      | None =>
          update_or_create (wa_event_is wa (er_event_id er)) None
            wa (er_event_id er) (er_id er) expires (now_auto env) (send_maps db)
      end in
  match upsert with
  | inl e =>
      (Returns (HttpResponseBadRequest ("track_send error: " ++ exn_text e)), db)
  | inr (map_id, maps') =>
      (Returns (JsonTrackSend map_id), mkDB (registrations db) maps')
  end
  end
  end
  end.

(** *** [whatsapp_rsvp] *)

Section Rsvp.

Variable parse_datetime : string -> parse_result.

(** [(body.get("rsvp_status") or "").strip().lower()] *)
Definition normalized_status (body : Body) : string :=
  lower (strip (or_empty (rsvp_status body))).

(** [rsvp in {"yes", "no", "maybe"}] *)
Definition valid_status (rsvp : string) : bool :=
  (rsvp =? "yes")%string || (rsvp =? "no")%string || (rsvp =? "maybe")%string.

(** Lines 137-142: the timestamp to store, or the exception of the parser. *)
Definition responded_on_of (env : Env) (body : Body) : exn + datetime :=
  if truthy (responded_on body) then
    match parse_datetime (or_empty (responded_on body)) with
    | Parsed parsed => inr (_ensure_aware parsed)
    | NotWellFormatted => inr (datetime_now_utc (now_default env))
    | ParseRaises => inl ValueError
    end
  else inr (datetime_now_utc (now_default env)).

(** [WaSendMap.objects.filter(wa_id=wa_id, expires_at__gt=now)] *)
Definition base_qs (now : instant) (wa : string) (maps : list WaSendMap)
  : list WaSendMap :=
  List.filter (fun m => (m_wa_id m =? wa)%string && (now <? m_expires_at m)) maps.

(** [rid = <row>.event_registration; if rid: er = EventRegistration.objects.get(pk=rid)] *)
Definition registration_of (db : DB) (row : option WaSendMap)
  : exn + option EventRegistration :=
  match row with
  | Some m =>
      let rid := m_event_registration m in
      if nonempty rid then
        match get_registration db rid with
        | Some er => inr (Some er)
        | None => inl DoesNotExist
        end
      else inr None
  | None => inr None
  end.

(** Lines 153-194: resolution through the send mappings. *)
Definition resolve_by_mapping (env : Env) (db : DB) (body : Body)
  : outcome + EventRegistration :=
  let wa := _norm_digits (or_empty (wa_id body)) in
  let template := or_none (template_wamid body) in
  let event := or_none (event_id body) in
  if negb (nonempty wa) then
    inl (Returns (HttpResponseBadRequest "missing wa_id"))
  else
  let base := base_qs (now_filter env) wa (send_maps db) in
  (* Priority 1: template_wamid match *)
  let p1 :=
    match template with
    | Some t => registration_of db (first (List.filter (template_is t) base))
    | None => inr None
    end in
  match p1 with
  | inl e => inl (Raises e)
  | inr er1 =>
  (* Priority 2: wa_id + event_id *)
  let p2 :=
    match er1, event with
    | None, Some ev =>
        registration_of db
          (newest m_created_at
             (List.filter (fun m => (m_event_id m =? ev)%string) base))
    | _, _ => inr er1
    end in
  match p2 with
  | inl e => inl (Raises e)
  | inr er2 =>
  (* Priority 3: latest mapping for this wa_id *)
  let p3 :=
    match er2 with
    | None => registration_of db (newest m_created_at base)
    | Some _ => inr er2
    end in
  match p3 with
  | inl e => inl (Raises e)
  | inr None => inl (Returns (HttpResponseBadRequest "no mapping found for wa_id"))
  | inr (Some er) => inr er
  end
  end
  end.

(** Lines 144-194. *)
Definition resolve_registration (env : Env) (db : DB) (body : Body)
  : outcome + EventRegistration :=
  let reg_id := event_registration_id body in
  if truthy reg_id then
    match get_registration db (or_empty reg_id) with
    | Some er => inr er
    | None => inl (Returns (HttpResponseBadRequest "registration not found"))
    end
  else resolve_by_mapping env db body.

(** [er.rsvp_status = rsvp; er.responded_on = responded_on] *)
Definition set_rsvp (rsvp : string) (responded : datetime)
  (er : EventRegistration) : EventRegistration :=
  mkRegistration (er_id er) (er_event_id er) (er_guest_id er) (er_created_at er)
                 rsvp (Some responded)
                 (er_estimated_pax er) (er_additional_guest_count er).

(** [er.save(update_fields=["rsvp_status", "responded_on"])]: the two
    columns of the row whose primary key is [er.id]. *)
Definition save_rsvp (er : EventRegistration) (regs : list EventRegistration)
  : list EventRegistration :=
  List.map (fun r =>
              if (er_id r =? er_id er)%string then
                match er_responded_on er with
                | Some responded => set_rsvp (er_rsvp_status er) responded r
                | None => r
                end
              else r) regs.

(** The argument of [group_send]. *)
Definition rsvp_notification (er : EventRegistration) : Notification :=
  mkNotification ("event_" ++ er_event_id er) "rsvp_update" "rsvp_changed" "updated"
                 (er_id er) (er_event_id er) (er_rsvp_status er)
                 (er_estimated_pax er) (er_additional_guest_count er).

(** Lines 228-238: the rows that [qs.update] touches. *)
Definition consumed_qs (er : EventRegistration) (body : Body) (m : WaSendMap) : bool :=
  let wa := _norm_digits (or_empty (wa_id body)) in
  let template := or_none (template_wamid body) in
  let event := or_none (event_id body) in
  (m_event_registration m =? er_id er)%string &&
  match template with
  | Some t => template_is t m
  | None =>
      if nonempty wa then
        match event with
        | Some ev => (m_wa_id m =? wa)%string && (m_event_id m =? ev)%string
        | None => (m_wa_id m =? wa)%string
        end
      else true
  end.

Definition set_consumed (t : instant) (m : WaSendMap) : WaSendMap :=
  mkSendMap (m_id m) (m_wa_id m) (m_event_id m) (m_event_registration m)
            (m_template_wamid m) (m_created_at m) (m_expires_at m) (Some t).

(** Lines 226-242: the guarded bookkeeping step. *)
Definition mark_consumed (env : Env) (er : EventRegistration) (body : Body)
  (maps : list WaSendMap) : list WaSendMap :=
  if consume_fault env then maps      (* except Exception: log.warning(...) *)
  else
    List.map (fun m => if consumed_qs er body m
                       then set_consumed (now_consumed env) m else m) maps.

(** The response, the stored data when the view ends, and what reached the
    channel layer. *)
Definition whatsapp_rsvp (env : Env) (db : DB) (request : Request)
  : outcome * DB * list Notification :=
  if token_rejected env request then
    (Returns (HttpResponseForbidden "invalid token"), db, [])
  else
  match body request with
  | None => (Returns (HttpResponseBadRequest "invalid json"), db, [])
  | Some body =>
  let rsvp := normalized_status body in
  if negb (valid_status rsvp) then
    (Returns (HttpResponseBadRequest "invalid rsvp_status"), db, [])
  else
  match responded_on_of env body with
  | inl e => (Raises e, db, [])
  | inr responded =>
  match resolve_registration env db body with
  | inl out => (out, db, [])
  | inr er0 =>
  (* Update RSVP *)
  let er := set_rsvp rsvp responded er0 in
  if save_fault env then (Raises StorageError, db, [])
  else
  let db1 := mkDB (save_rsvp er (registrations db)) (send_maps db) in
  if publish_fault env then (Raises ChannelError, db1, [])
  else
  let sent := [rsvp_notification er] in
  (* Mark WaSendMap consumed (non-fatal if it fails) *)
  let db2 := mkDB (registrations db1) (mark_consumed env er body (send_maps db1)) in
  (Returns (JsonRsvp (er_id er) (er_event_id er) (er_guest_id er)
                     (er_rsvp_status er) (er_responded_on er)),
   db2, sent)
  end
  end
  end.

End Rsvp.

End Webhooks.

(** ** The outbound send orchestrator *)

Module SendTemplate.

Import PyStr.

Record Guest := mkGuest {
  g_name : option string;
  g_phone : option string
}.

Record Registration := mkReg {
  reg_id : string;
  reg_event_id : string;
  reg_guest : Guest;
  reg_responded_on : option datetime
}.

Record MessageTemplate := mkTemplate {
  tmpl_id : string;
  tmpl_body : string
}.

Record QueuedMessage := mkQueued {
  q_event : string;
  q_registration : string;
  q_template : string;
  q_rendered_text : string
}.

Record Store := mkStore {
  st_registrations : list Registration;
  st_templates : list MessageTemplate;
  st_queued : list QueuedMessage
}.

(** The validated body of the request; [None] when the serializer rejects it. *)
Record SendTemplateInput := mkInput {
  template_id : string;
  variables : list (string * string)
}.

Inductive ResponseData :=
| SentData (message_id : string)          (* {"ok": True, "status": "sent", ...} *)
| QueuedData (opener_message_id : string) (* {"ok": True, "status": "queued", ...} *)
| ErrorData (error : string)              (* {"ok": False, "error": ...} *)
| DetailData (detail : string).           (* built by the framework *)

Record Response := mkResponse {
  data : ResponseData;
  status : Z
}.

Definition HTTP_200_OK : Z := 200.
Definition HTTP_400_BAD_REQUEST : Z := 400.
Definition HTTP_404_NOT_FOUND : Z := 404.
Definition HTTP_500_INTERNAL_SERVER_ERROR : Z := 500.
Definition HTTP_502_BAD_GATEWAY : Z := 502.

(** Calls made to the collaborators, in the order they are made. *)
Inductive Call :=
| CallQueueCreate (q : QueuedMessage)
| CallFreeformText (to_wa text : string)
| CallResumeOpener (to_wa registration : string).

Definition is_send (c : Call) : bool :=
  match c with
  | CallQueueCreate _ => false
  | CallFreeformText _ _ => true
  | CallResumeOpener _ _ => true
  end.

Section Post.

(** The collaborators imported by the view.  A [string + string] result is
    the text of the raised exception on the left, the returned value on the
    right. *)
Variable Ctx : Type.
Variable build_registration_context : Registration -> Ctx.
Variable render_template_with_vars : MessageTemplate -> Ctx -> string + string.
Variable within_24h_window : option datetime -> bool.
Variable send_freeform_text : string -> string -> string + string.
Variable send_resume_opener : string -> string -> string + string.
(** [QueuedMessage.objects.create]: [Some e] when the insert raises [e]. *)
Variable queue_create_error : QueuedMessage -> option string.

(** [get_object_or_404(EventRegistration..., id=registration_id, event_id=event_id)] *)
Definition get_registration (st : Store) (registration_id event_id : string)
  : option Registration :=
  find (fun r => (reg_id r =? registration_id)%string
                 && (reg_event_id r =? event_id)%string)
       (st_registrations st).

(** [get_object_or_404(MessageTemplate..., id=template_id)] *)
Definition get_template (st : Store) (template_id : string) : option MessageTemplate :=
  find (fun t => (tmpl_id t =? template_id)%string) (st_templates st).

(** [variables.get(k)] *)
Definition variables_get (k : string) (vars : list (string * string)) : option string :=
  option_map snd (find (fun kv => (fst kv =? k)%string) vars).

Definition post (st : Store) (input : option SendTemplateInput)
  (event_id registration_id : string) : Response * Store * list Call :=
  match input with
  | None => (mkResponse (DetailData "invalid") HTTP_400_BAD_REQUEST, st, [])
  | Some input =>
  match get_registration st registration_id event_id with
  | None => (mkResponse (DetailData "not found") HTTP_404_NOT_FOUND, st, [])
  | Some reg =>
  match get_template st (template_id input) with
  | None => (mkResponse (DetailData "not found") HTTP_404_NOT_FOUND, st, [])
  | Some tmpl =>
  let ctx := build_registration_context reg in
  match render_template_with_vars tmpl ctx with
  | inl e => (mkResponse (ErrorData ("render_failed: " ++ e)) HTTP_400_BAD_REQUEST, st, [])
  | inr text =>
  let to_wa := g_phone (reg_guest reg) in
  if negb (truthy to_wa) then
    (mkResponse (ErrorData "guest_has_no_phone") HTTP_400_BAD_REQUEST, st, [])
  else
  let to_wa := or_empty to_wa in
  let in_window := within_24h_window (reg_responded_on reg) in
  if in_window then
    (* Send immediately (free-form) *)
    match send_freeform_text to_wa text with
    | inr msg_id =>
        (mkResponse (SentData msg_id) HTTP_200_OK, st, [CallFreeformText to_wa text])
    | inl e =>
        (mkResponse (ErrorData ("send_failed: " ++ e)) HTTP_502_BAD_GATEWAY,
         st, [CallFreeformText to_wa text])
    end
  else
  (* Outside 24h: queue + send opener *)
  let q := mkQueued (reg_event_id reg) (reg_id reg) (tmpl_id tmpl) text in
  match queue_create_error q with
  | Some e =>
      (mkResponse (ErrorData ("queue_failed: " ++ e)) HTTP_500_INTERNAL_SERVER_ERROR,
       st, [CallQueueCreate q])
  | None =>
  let st1 := mkStore (st_registrations st) (st_templates st)
                     (st_queued st ++ [q])%list in
  let opener_param :=
    if truthy (variables_get "guest_name" (variables input))
    then or_empty (variables_get "guest_name" (variables input))
    else if truthy (g_name (reg_guest reg)) then or_empty (g_name (reg_guest reg))
    else "Guest" in
  match send_resume_opener to_wa (reg_id reg) with
  | inr opener_id =>
      (mkResponse (QueuedData opener_id) HTTP_200_OK, st1,
       [CallQueueCreate q; CallResumeOpener to_wa (reg_id reg)])
  | inl e =>
      (mkResponse (ErrorData ("opener_failed: " ++ e)) HTTP_502_BAD_GATEWAY, st1,
       [CallQueueCreate q; CallResumeOpener to_wa (reg_id reg)])
  end
  end
  end
  end
  end
  end.

(** The request passes validation, lookup, rendering and the recipient
    check: [post] reaches the window decision with [reg], [tmpl], the
    rendered [text] and the recipient [to_wa]. *)
Definition reaches_window (st : Store) (input : SendTemplateInput)
  (event_id registration_id : string)
  (reg : Registration) (tmpl : MessageTemplate) (text to_wa : string) : Prop :=
  get_registration st registration_id event_id = Some reg
  /\ get_template st (template_id input) = Some tmpl
  /\ render_template_with_vars tmpl (build_registration_context reg) = inr text
  /\ truthy (g_phone (reg_guest reg)) = true
  /\ or_empty (g_phone (reg_guest reg)) = to_wa.

End Post.

End SendTemplate.

(** ** The travel-detail resource ([Logistics/views/travel_details_views.py])

    The model and its serializer are collaborators: a row is any value with
    a primary key, and the serializer is given by what it returns or
    raises.  A [string + X] result is the text of the raised exception on
    the left, the returned value on the right. *)

Module TravelDetails.

Definition HTTP_200_OK : Z := 200.
Definition HTTP_201_CREATED : Z := 201.
Definition HTTP_204_NO_CONTENT : Z := 204.
Definition HTTP_400_BAD_REQUEST : Z := 400.
Definition HTTP_404_NOT_FOUND : Z := 404.
Definition HTTP_500_INTERNAL_SERVER_ERROR : Z := 500.

(** [str(e)] for the [Http404] of [get_object_or_404]. *)
Definition http404_text : string := "No TravelDetail matches the given query.".

Section Views.

Variable TravelDetail : Type.
Variable Data : Type.        (* request.data and serializer.data *)
Variable Validated : Type.   (* serializer.validated_data *)
Variable Detail : Type.      (* ValidationError.detail *)

(** What a collaborator raises: the framework's [ValidationError], or any
    other exception, given by its text. *)
Inductive raised :=
| ValidationError (detail : Detail)
| OtherException (e : string).

Variable detail_text : Detail -> string.   (* str(ve) *)

(** [str(e)] *)
Definition raised_text (r : raised) : string :=
  match r with
  | ValidationError d => detail_text d
  | OtherException e => e
  end.

Variable pk_of : TravelDetail -> string.

(** [TravelDetailSerializer(td).data] *)
Variable to_representation : TravelDetail -> raised + Data.

(** [ser.is_valid(raise_exception=True)], on the instance being updated if any. *)
Variable is_valid : option TravelDetail -> Data -> raised + Validated.

(** [ser.save()]: the saved row and the table after the write. *)
Variable save_new : list TravelDetail -> Validated
                    -> raised + (TravelDetail * list TravelDetail).
Variable save_update : list TravelDetail -> TravelDetail -> Validated
                       -> raised + (TravelDetail * list TravelDetail).

(** [td.delete()]: [Some r] when the delete raises [r]. *)
Variable delete_error : TravelDetail -> option raised.

Inductive ResponseData :=
| Representation (d : Data)
| RepresentationList (l : list Data)
| ValidationDetail (d : Detail)         (* ve.detail *)
| ErrorDetail (detail error : string)   (* {"detail": ..., "error": str(e)} *)
| NoData.

Record Response := mkResponse {
  data : ResponseData;
  status : Z
}.

(** [except Exception as e] *)
Definition server_error_response (label : string) (r : raised) : Response :=
  mkResponse (ErrorDetail label (raised_text r)) HTTP_500_INTERNAL_SERVER_ERROR.

(** [except ValidationError as ve] followed by [except Exception as e] *)
Definition write_error_response (label : string) (r : raised) : Response :=
  match r with
  | ValidationError d => mkResponse (ValidationDetail d) HTTP_400_BAD_REQUEST
  | OtherException _ => server_error_response label r
  end.

(** [TravelDetailSerializer(qs, many=True).data] *)
Fixpoint to_representation_many (qs : list TravelDetail) : raised + list Data :=
  match qs with
  | [] => inr []
  | td :: rest =>
      match to_representation td with
      | inl r => inl r
      | inr d =>
          match to_representation_many rest with
          | inl r => inl r
          | inr ds => inr (d :: ds)
          end
      end
  end.

(** [get_object_or_404(TravelDetail, pk=pk)]; [None] is the raised [Http404],
    an [Exception] that is not a [ValidationError]. *)
Definition get_object (table : list TravelDetail) (pk : string) : option TravelDetail :=
  find (fun td => (pk_of td =? pk)%string) table.

(** The rows left by [td.delete()]. *)
Definition delete_row (td : TravelDetail) (table : list TravelDetail)
  : list TravelDetail :=
  List.filter (fun r => negb (pk_of r =? pk_of td)%string) table.

(** [TravelDetailList.get] *)
Definition list_get (table : list TravelDetail) : Response :=
  match to_representation_many table with
  | inr ds => mkResponse (RepresentationList ds) HTTP_200_OK
  | inl r => server_error_response "Error fetching travel details" r
  end.

(** [TravelDetailList.post] *)
Definition list_post (table : list TravelDetail) (request_data : Data)
  : Response * list TravelDetail :=
  let label := "Error creating travel detail" in
  match is_valid None request_data with
  | inl r => (write_error_response label r, table)
  | inr v =>
      match save_new table v with
      | inl r => (write_error_response label r, table)
      | inr (td, table') =>
          match to_representation td with
          | inr d => (mkResponse (Representation d) HTTP_201_CREATED, table')
          | inl r => (write_error_response label r, table')
          end
      end
  end.

(** [TravelDetailDetail.get] *)
Definition detail_get (table : list TravelDetail) (pk : string) : Response :=
  let label := "Error fetching travel detail" in
  match get_object table pk with
  | None => server_error_response label (OtherException http404_text)
  | Some td =>
      match to_representation td with
      | inr d => mkResponse (Representation d) HTTP_200_OK
      | inl r => server_error_response label r
      end
  end.

(** [TravelDetailDetail.put] *)
Definition detail_put (table : list TravelDetail) (pk : string) (request_data : Data)
  : Response * list TravelDetail :=
  let label := "Error updating travel detail" in
  match get_object table pk with
  | None => (write_error_response label (OtherException http404_text), table)
  | Some td =>
      match is_valid (Some td) request_data with
      | inl r => (write_error_response label r, table)
      | inr v =>
          match save_update table td v with
          | inl r => (write_error_response label r, table)
          | inr (td', table') =>
              match to_representation td' with
              | inr d => (mkResponse (Representation d) HTTP_200_OK, table')
              | inl r => (write_error_response label r, table')
              end
          end
      end
  end.

(** [TravelDetailDetail.delete] *)
Definition detail_delete (table : list TravelDetail) (pk : string)
  : Response * list TravelDetail :=
  let label := "Error deleting travel detail" in
  match get_object table pk with
  | None => (server_error_response label (OtherException http404_text), table)
  | Some td =>
      match delete_error td with
      | Some r => (server_error_response label r, table)
      | None => (mkResponse NoData HTTP_204_NO_CONTENT, delete_row td table)
      end
  end.

End Views.

End TravelDetails.

(** ** Vocabulary of the specification *)

Import PyStr Webhooks.

(** A mapping is live at [now] when its expiry is strictly in the future. *)
Definition live (now : instant) (m : WaSendMap) : bool := now <? m_expires_at m.

Definition no_correlator (m : WaSendMap) : bool :=
  match m_template_wamid m with
  | None => true
  | Some _ => false
  end.

Definition at_most_one {A : Type} (p : A -> bool) (l : list A) : Prop :=
  (List.length (List.filter p l) <= 1)%nat.

(** The invariant of the SendMapping data model, at the instant [now]. *)
Definition live_mapping_invariant (now : instant) (maps : list WaSendMap) : Prop :=
  (forall wa ev,
      at_most_one (fun m => live now m && (no_correlator m && wa_event_is wa ev m)) maps)
  /\ (forall t, at_most_one (fun m => live now m && template_is t m) maps).

(** The same, counting expired rows too: what the upsert maintains. *)
Definition key_invariant (maps : list WaSendMap) : Prop :=
  (forall wa ev, at_most_one (fun m => no_correlator m && wa_event_is wa ev m) maps)
  /\ (forall t, at_most_one (template_is t) maps).

(** The lookup of the upsert: the correlator when present, else identity
    and event. *)
Definition upsert_key (template : option string) (wa ev : string)
  : WaSendMap -> bool :=
  match template with
  | Some t => template_is t
  | None => wa_event_is wa ev
  end.

(** Referential integrity: primary keys are not empty and every mapping
    points to a stored registration. *)
Definition db_wf (db : DB) : Prop :=
  (forall er, In er (registrations db) -> nonempty (er_id er) = true)
  /\ (forall m, In m (send_maps db) ->
        exists er, In er (registrations db) /\ er_id er = m_event_registration m).

(** States the two webhooks can produce, starting without mappings;
    registrations are also created by flows outside this core. *)
Inductive reachable : DB -> Prop :=
| reach_init : forall regs,
    (forall er, In er regs -> nonempty (er_id er) = true) ->
    reachable (mkDB regs [])
| reach_register : forall db er,
    reachable db -> nonempty (er_id er) = true ->
    reachable (mkDB (registrations db ++ [er])%list (send_maps db))
| reach_track_send : forall env db request,
    reachable db -> reachable (snd (track_send env db request))
| reach_whatsapp_rsvp : forall parse env db request,
    reachable db -> reachable (snd (fst (whatsapp_rsvp parse env db request))).

(** The resolver as the specification words it, over the candidate set:
    the registration of the single candidate carrying the correlator, else
    of the most recent candidate of the event, else of the most recent
    candidate. *)
Definition spec_resolve (candidates : list WaSendMap)
  (correlator event : option string) : option string :=
  let priority1 :=
    match correlator with
    | Some t =>
        match List.filter (template_is t) candidates with
        | [c] => Some c
        | _ => None
        end
    | None => None
    end in
  let priority2 :=
    match event with
    | Some ev =>
        newest m_created_at
          (List.filter (fun m => (m_event_id m =? ev)%string) candidates)
    | None => None
    end in
  let priority3 := newest m_created_at candidates in
  match priority1, priority2, priority3 with
  | Some c, _, _ => Some (m_event_registration c)
  | None, Some c, _ => Some (m_event_registration c)
  | None, None, Some c => Some (m_event_registration c)
  | None, None, None => None
  end.

(** The mapping the three queries of [resolve_by_mapping] select from the
    candidate set, when every stored mapping points to a registration. *)
Definition chosen_mapping (candidates : list WaSendMap)
  (correlator event : option string) : option WaSendMap :=
  let by_correlator :=
    match correlator with
    | Some t => first (List.filter (template_is t) candidates)
    | None => None
    end in
  let by_event :=
    match event with
    | Some ev =>
        newest m_created_at
          (List.filter (fun m => (m_event_id m =? ev)%string) candidates)
    | None => None
    end in
  match by_correlator, by_event with
  | Some c, _ => Some c
  | None, Some c => Some c
  | None, None => newest m_created_at candidates
  end.

(** The filter of the consumption step as the specification words it: the
    mappings of the registration, narrowed by the most specific key the
    request carries. *)
Definition most_specific_key (correlator : option string) (identity : string)
  (event : option string) (m : WaSendMap) : bool :=
  match correlator, nonempty identity, event with
  | Some t, _, _ => template_is t m
  | None, true, Some ev => (m_wa_id m =? identity)%string && (m_event_id m =? ev)%string
  | None, true, None => (m_wa_id m =? identity)%string
  | None, false, _ => true
  end.

(** A mapping with its consumption marker blanked: two mappings with the
    same image differ at most in [consumed_at]. *)
Definition forget_consumed (m : WaSendMap) : WaSendMap :=
  mkSendMap (m_id m) (m_wa_id m) (m_event_id m) (m_event_registration m)
            (m_template_wamid m) (m_created_at m) (m_expires_at m) None.

(** A registration with its two RSVP columns blanked. *)
Definition forget_rsvp (er : EventRegistration) : EventRegistration :=
  mkRegistration (er_id er) (er_event_id er) (er_guest_id er) (er_created_at er)
                 "" None (er_estimated_pax er) (er_additional_guest_count er).

(** [body] with another [event_id]. *)
Definition with_event_id (ev : option string) (b : Body) : Body :=
  mkBody (wa_id b) ev (event_registration_id b) (template_wamid b)
         (rsvp_status b) (responded_on b).

Definition with_body (b : Body) (request : Request) : Request :=
  mkRequest (headers_token request) (meta_token request) (Some b).

(** The request reaches the resolution step of [whatsapp_rsvp]. *)
Definition rsvp_admitted (parse : string -> parse_result) (env : Env)
  (request : Request) (b : Body) (responded : datetime) : Prop :=
  token_rejected env request = false
  /\ body request = Some b
  /\ valid_status (normalized_status b) = true
  /\ responded_on_of parse env b = inr responded.

(** ** Sample data *)

Definition sample_secret : string := "s3cret".

Definition sample_env : Env :=
  mkEnv (Some sample_secret) 1000 1000 5000 5000 5000 false false false false.

Definition sample_parse (s : string) : parse_result :=
  if (s =? "2024-05-01T10:00:00")%string then Parsed (mkDatetime 77 None)
  else if (s =? "2024-05-01T10:00:00+02:00")%string
       then Parsed (mkDatetime 77 (Some 7200000000))
  else if (s =? "2024-02-30T10:00:00")%string then ParseRaises
  else NotWellFormatted.

Definition R1 : EventRegistration :=
  mkRegistration "R1" "E1" "G1" 10 "" None (Some 2) None.
Definition R2 : EventRegistration :=
  mkRegistration "R2" "E1" "G2" 20 "" None None (Some 1).
Definition R3 : EventRegistration :=
  mkRegistration "R3" "E2" "G1" 30 "" None None None.

Definition sample_regs : list EventRegistration := [R1; R2; R3].

Definition db_empty : DB := mkDB sample_regs [].

Definition sample_body (wa ev reg tmpl rsvp resp : option string) : Body :=
  mkBody wa ev reg tmpl rsvp resp.

Definition signed (b : Body) : Request :=
  mkRequest (Some sample_secret) None (Some b).

Definition env_with_faults (publish consume : bool) : Env :=
  mkEnv (Some sample_secret) 1000 1000 5000 5000 5000 false false publish consume.

(** One mapping: identity 15551234567, event E1, registration R1. *)
Definition db_sent : DB :=
  snd (track_send sample_env db_empty
         (signed (sample_body (Some "15551234567") (Some "E1") (Some "R1")
                              None None None))).

(** A second mapping for the same identity and event, with correlator T1. *)
Definition db_sent_twice : DB :=
  snd (track_send sample_env db_sent
         (signed (sample_body (Some "15551234567") (Some "E1") (Some "R1")
                              (Some "T1") None None))).

(** Two mappings of one identity: event E1 for R1, then event E2 for R3
    with correlator T9. *)
Definition db_campaigns : DB :=
  snd (track_send
         (mkEnv (Some sample_secret) 2000 2000 0 0 0 false false false false)
         db_sent
         (signed (sample_body (Some "15551234567") (Some "E2") (Some "R3")
                              (Some "T9") None None))).

Definition rsvp_request (wa ev reg tmpl : option string) (status : string) : Request :=
  signed (sample_body wa ev reg tmpl (Some status) None).

(** ** Authentication *)

Lemma token_rejected_without_secret :
  forall env request,
    secret_env env = None \/ secret_env env = Some "" ->
    token_rejected env request = true.
Proof.
  intros env request [H | H]; unfold token_rejected, _get_secret;
    rewrite H; reflexivity.
Qed.

(** C10. With the shared secret unset or empty, both webhooks answer every
    request, whatever its token header and whatever its body, with the
    forbidden response, and leave the stored data untouched: the check
    precedes the parsing of the body and an empty header does not match an
    empty secret. *)
Theorem empty_secret_rejects_every_request :
  forall parse env db request,
    secret_env env = None \/ secret_env env = Some "" ->
    track_send env db request
      = (Returns (HttpResponseForbidden "invalid token"), db)
    /\ whatsapp_rsvp parse env db request
      = (Returns (HttpResponseForbidden "invalid token"), db, []).
Proof.
  intros parse env db request H.
  apply token_rejected_without_secret with (request := request) in H.
  unfold track_send, whatsapp_rsvp.
  rewrite H. split; reflexivity.
Qed.

Lemma empty_secret_rejects_every_request_witness :
  let env := mkEnv (Some "") 0 0 0 0 0 false false false false in
  let request :=
    mkRequest (Some "") None
      (Some (sample_body (Some "15551234567") (Some "E1") (Some "R1") None
                         (Some "yes") None)) in
  track_send env db_empty request
    = (Returns (HttpResponseForbidden "invalid token"), db_empty)
  /\ whatsapp_rsvp sample_parse env db_empty request
    = (Returns (HttpResponseForbidden "invalid token"), db_empty, []).
Proof.
  intros env request.
  apply (empty_secret_rejects_every_request sample_parse env db_empty request).
  right. reflexivity.
Defined.

(** ** Resolution errors *)

Lemma whatsapp_rsvp_admitted :
  forall parse env db request b responded,
    rsvp_admitted parse env request b responded ->
    whatsapp_rsvp parse env db request =
      match resolve_registration env db b with
      | inl out => (out, db, [])
      | inr er0 =>
          let er := set_rsvp (normalized_status b) responded er0 in
          if save_fault env then (Raises StorageError, db, [])
          else
            let db1 := mkDB (save_rsvp er (registrations db)) (send_maps db) in
            if publish_fault env then (Raises ChannelError, db1, [])
            else
              (Returns (JsonRsvp (er_id er) (er_event_id er) (er_guest_id er)
                                 (er_rsvp_status er) (er_responded_on er)),
               mkDB (registrations db1) (mark_consumed env er b (send_maps db1)),
               [rsvp_notification er])
      end.
Proof.
  intros parse env db request b responded (Htok & Hbody & Hst & Hresp).
  unfold whatsapp_rsvp.
  rewrite Htok, Hbody, Hst, Hresp. reflexivity.
Qed.

Lemma resolve_by_mapping_no_candidate :
  forall env db b,
    nonempty (_norm_digits (or_empty (wa_id b))) = true ->
    base_qs (now_filter env) (_norm_digits (or_empty (wa_id b))) (send_maps db) = [] ->
    resolve_by_mapping env db b
      = inl (Returns (HttpResponseBadRequest "no mapping found for wa_id")).
Proof.
  intros env db b Hwa Hbase.
  unfold resolve_by_mapping.
  rewrite Hwa, Hbase. simpl.
  destruct (or_none (template_wamid b)); simpl;
    destruct (or_none (event_id b)); reflexivity.
Qed.

(** C8. A request that supplies [event_registration_id] is resolved by
    that id alone: an absent registration is a client error ("registration
    not found") whatever mappings exist, a present one is the resolved
    registration.  Without the id, an identity that normalizes to nothing
    is a client error ("missing wa_id"), and an empty candidate set is a
    client error ("no mapping found for wa_id").  None of these changes the
    stored data. *)
Theorem rsvp_resolution_errors :
  forall parse env db request b responded,
    rsvp_admitted parse env request b responded ->
    (truthy (event_registration_id b) = true ->
       (get_registration db (or_empty (event_registration_id b)) = None ->
          whatsapp_rsvp parse env db request
            = (Returns (HttpResponseBadRequest "registration not found"), db, [])
          /\ client_error (status_code (HttpResponseBadRequest "registration not found")))
       /\ (forall er,
             get_registration db (or_empty (event_registration_id b)) = Some er ->
             resolve_registration env db b = inr er))
    /\ (truthy (event_registration_id b) = false ->
          (nonempty (_norm_digits (or_empty (wa_id b))) = false ->
             whatsapp_rsvp parse env db request
               = (Returns (HttpResponseBadRequest "missing wa_id"), db, [])
             /\ client_error (status_code (HttpResponseBadRequest "missing wa_id")))
          /\ (nonempty (_norm_digits (or_empty (wa_id b))) = true ->
              base_qs (now_filter env) (_norm_digits (or_empty (wa_id b)))
                      (send_maps db) = [] ->
              whatsapp_rsvp parse env db request
                = (Returns (HttpResponseBadRequest "no mapping found for wa_id"), db, [])
              /\ client_error
                   (status_code (HttpResponseBadRequest "no mapping found for wa_id")))).
Proof.
  intros parse env db request b responded Hadm.
  rewrite (whatsapp_rsvp_admitted _ _ db _ _ _ Hadm).
  unfold resolve_registration, client_error. simpl status_code.
  split; intros Hreg; rewrite Hreg.
  - split.
    + intros Hget. rewrite Hget. split; [reflexivity | lia].
    + intros er Hget. rewrite Hget. reflexivity.
  - split.
    + intros Hwa. unfold resolve_by_mapping. rewrite Hwa. simpl.
      split; [reflexivity | lia].
    + intros Hwa Hbase.
      rewrite (resolve_by_mapping_no_candidate _ _ _ Hwa Hbase).
      split; [reflexivity | lia].
Qed.

Lemma sample_admitted :
  forall wa ev reg tmpl,
    rsvp_admitted sample_parse sample_env
      (signed (sample_body wa ev reg tmpl (Some "yes") None))
      (sample_body wa ev reg tmpl (Some "yes") None)
      (datetime_now_utc 5000).
Proof. intros. repeat split. Qed.

Lemma rsvp_resolution_errors_witness :
  whatsapp_rsvp sample_parse sample_env db_sent
      (signed (sample_body (Some "15551234567") None (Some "R9") None (Some "yes") None))
    = (Returns (HttpResponseBadRequest "registration not found"), db_sent, [])
  /\ whatsapp_rsvp sample_parse sample_env db_empty
      (signed (sample_body (Some "n/a") None None None (Some "yes") None))
    = (Returns (HttpResponseBadRequest "missing wa_id"), db_empty, [])
  /\ whatsapp_rsvp sample_parse sample_env db_empty
      (signed (sample_body (Some "15551234567") (Some "E1") None (Some "T1")
                           (Some "yes") None))
    = (Returns (HttpResponseBadRequest "no mapping found for wa_id"), db_empty, []).
Proof.
  split; [| split].
  - apply (rsvp_resolution_errors sample_parse sample_env db_sent _ _ _
             (sample_admitted (Some "15551234567") None (Some "R9") None));
      reflexivity.
  - apply (rsvp_resolution_errors sample_parse sample_env db_empty _ _ _
             (sample_admitted (Some "n/a") None None None));
      reflexivity.
  - apply (rsvp_resolution_errors sample_parse sample_env db_empty _ _ _
             (sample_admitted (Some "15551234567") (Some "E1") None (Some "T1")));
      reflexivity.
Defined.

(** ** The outbound send orchestrator *)

(** C3. Outside the window the rendered text is queued first: when the
    insert raises, the answer is 500, nothing is stored and no send is
    attempted; when the insert succeeds and the opener raises, the answer
    is 502 and the queued message stays stored, the opener having been
    called after the insert.  Inside the window a failing free-form send is
    answered with 502 and nothing is stored. *)
Theorem post_failure_policy :
  forall (Ctx : Type)
         (build_registration_context : SendTemplate.Registration -> Ctx)
         (render_template_with_vars :
            SendTemplate.MessageTemplate -> Ctx -> string + string)
         (within_24h_window : option datetime -> bool)
         (send_freeform_text send_resume_opener : string -> string -> string + string)
         (queue_create_error : SendTemplate.QueuedMessage -> option string)
         st input event_id registration_id reg tmpl text to_wa,
    SendTemplate.reaches_window Ctx build_registration_context render_template_with_vars
                   st input event_id registration_id reg tmpl text to_wa ->
    let q := SendTemplate.mkQueued (SendTemplate.reg_event_id reg)
                                  (SendTemplate.reg_id reg)
                                  (SendTemplate.tmpl_id tmpl) text in
    let '(resp, st', calls) :=
      SendTemplate.post Ctx build_registration_context render_template_with_vars
           within_24h_window send_freeform_text send_resume_opener
           queue_create_error st (Some input) event_id registration_id in
    (within_24h_window (SendTemplate.reg_responded_on reg) = false ->
       (forall e, queue_create_error q = Some e ->
          SendTemplate.status resp = SendTemplate.HTTP_500_INTERNAL_SERVER_ERROR
          /\ server_error (SendTemplate.status resp)
          /\ st' = st
          /\ List.filter SendTemplate.is_send calls = [])
       /\ (queue_create_error q = None ->
           SendTemplate.st_queued st' = (SendTemplate.st_queued st ++ [q])%list
           /\ calls = [SendTemplate.CallQueueCreate q;
                      SendTemplate.CallResumeOpener to_wa (SendTemplate.reg_id reg)]
           /\ (forall e, send_resume_opener to_wa (SendTemplate.reg_id reg) = inl e ->
                 SendTemplate.status resp = SendTemplate.HTTP_502_BAD_GATEWAY)
           /\ (forall opener_id, send_resume_opener to_wa (SendTemplate.reg_id reg) = inr opener_id ->
                 resp = SendTemplate.mkResponse (SendTemplate.QueuedData opener_id)
                                                 SendTemplate.HTTP_200_OK)))
    /\ (within_24h_window (SendTemplate.reg_responded_on reg) = true ->
          calls = [SendTemplate.CallFreeformText to_wa text]
          /\ st' = st
          /\ (forall e, send_freeform_text to_wa text = inl e ->
                SendTemplate.status resp = SendTemplate.HTTP_502_BAD_GATEWAY)
          /\ (forall msg_id, send_freeform_text to_wa text = inr msg_id ->
                resp = SendTemplate.mkResponse (SendTemplate.SentData msg_id)
                                               SendTemplate.HTTP_200_OK)).
Proof.
  intros Ctx build_registration_context render_template_with_vars
         within_24h_window send_freeform_text send_resume_opener
         queue_create_error st input event_id registration_id reg tmpl text to_wa
         (Hreg & Htmpl & Hrender & Hphone & Hto) q.
  unfold SendTemplate.post.
  rewrite Hreg, Htmpl, Hrender, Hphone, Hto. cbn [negb].
  fold q.
  destruct (within_24h_window (SendTemplate.reg_responded_on reg)) eqn:Hwin.
  - destruct (send_freeform_text to_wa text) as [e | msg_id] eqn:Hsend;
      (split; [discriminate |]); intros _;
      repeat split; try reflexivity; intros x Hx; inversion Hx; reflexivity.
  - destruct (queue_create_error q) as [e | ] eqn:Hq.
    + split; [| discriminate]. intros _. split; [| discriminate].
      intros e' _. unfold server_error, SendTemplate.HTTP_500_INTERNAL_SERVER_ERROR.
      cbn. repeat split; lia.
    + destruct (send_resume_opener to_wa (SendTemplate.reg_id reg)) as [e | opener_id] eqn:Hop;
        (split; [| discriminate]); intros _; (split; [discriminate |]); intros _;
        repeat split; try reflexivity; intros x Hx; inversion Hx; reflexivity.
Qed.


Lemma post_failure_policy_witness :
  let st :=
    SendTemplate.mkStore
      [SendTemplate.mkReg "R1" "E1"
         (SendTemplate.mkGuest (Some "Ann") (Some "15551234567")) None]
      [SendTemplate.mkTemplate "T" "Hello"] [] in
  let q := SendTemplate.mkQueued "E1" "R1" "T" "Hello" in
  let '(resp, st', calls) :=
    SendTemplate.post unit (fun _ => tt)
      (fun t _ => inr (SendTemplate.tmpl_body t))
      (fun _ => false) (fun _ _ => inr "wamid.1") (fun _ _ => inl "timeout")
      (fun _ => None)
      st (Some (SendTemplate.mkInput "T" [])) "E1" "R1" in
  SendTemplate.status resp = SendTemplate.HTTP_502_BAD_GATEWAY
  /\ SendTemplate.st_queued st' = [q]
  /\ calls = [SendTemplate.CallQueueCreate q;
              SendTemplate.CallResumeOpener "15551234567" "R1"].
Proof.
  pose proof
    (post_failure_policy unit (fun _ => tt)
       (fun t _ => inr (SendTemplate.tmpl_body t))
       (fun _ => false) (fun _ _ => inr "wamid.1") (fun _ _ => inl "timeout")
       (fun _ => None)
       (SendTemplate.mkStore
          [SendTemplate.mkReg "R1" "E1"
             (SendTemplate.mkGuest (Some "Ann") (Some "15551234567")) None]
          [SendTemplate.mkTemplate "T" "Hello"] [])
       (SendTemplate.mkInput "T" []) "E1" "R1"
       (SendTemplate.mkReg "R1" "E1"
          (SendTemplate.mkGuest (Some "Ann") (Some "15551234567")) None)
       (SendTemplate.mkTemplate "T" "Hello") "Hello" "15551234567"
       (conj eq_refl (conj eq_refl (conj eq_refl (conj eq_refl eq_refl))))) as H.
  cbv in H. cbv.
  destruct H as [Hout _].
  destruct (Hout eq_refl) as [_ Hstored].
  destruct (Hstored eq_refl) as (Hq & Hcalls & Hfail & _).
  split; [exact (Hfail _ eq_refl) | split; [exact Hq | exact Hcalls]].
Defined.

(** ** The RSVP update and what follows it *)

Lemma get_registration_id :
  forall db pk er, get_registration db pk = Some er -> er_id er = pk.
Proof.
  intros db pk er H. unfold get_registration in H.
  apply find_some in H. destruct H as [_ H].
  apply String.eqb_eq in H. exact H.
Qed.

Lemma get_registration_In :
  forall db pk er, get_registration db pk = Some er -> In er (registrations db).
Proof.
  intros db pk er H. unfold get_registration in H.
  apply find_some in H. tauto.
Qed.

Lemma registration_of_stored :
  forall db row er,
    registration_of db row = inr (Some er) ->
    exists m, row = Some m /\ er_id er = m_event_registration m
              /\ get_registration db (er_id er) = Some er.
Proof.
  intros db [m |] er H; simpl in H; [| discriminate].
  destruct (nonempty (m_event_registration m)); [| discriminate].
  destruct (get_registration db (m_event_registration m)) as [er' |] eqn:Hget;
    [| discriminate].
  inversion H; subst er'. exists m.
  rewrite (get_registration_id _ _ _ Hget). auto.
Qed.

Lemma resolve_by_mapping_stored :
  forall env db b er,
    resolve_by_mapping env db b = inr er ->
    get_registration db (er_id er) = Some er.
Proof.
  intros env db b er. unfold resolve_by_mapping.
  destruct (negb (nonempty (_norm_digits (or_empty (wa_id b))))); [discriminate |].
  set (base := base_qs _ _ _).
  destruct (or_none (template_wamid b)) as [t |].
  - destruct (registration_of db (first (List.filter (template_is t) base)))
      as [e | [er1 |]] eqn:H1; [discriminate | |].
    + destruct (or_none (event_id b)); intros H; inversion H; subst;
        apply registration_of_stored in H1; destruct H1 as (m & _ & _ & H1); exact H1.
    + destruct (or_none (event_id b)) as [ev |].
      * destruct (registration_of db (newest m_created_at
                    (List.filter (fun m => (m_event_id m =? ev)%string) base)))
          as [e | [er2 |]] eqn:H2; [discriminate | |].
        -- intros H; inversion H; subst.
           apply registration_of_stored in H2; destruct H2 as (m & _ & _ & H2); exact H2.
        -- destruct (registration_of db (newest m_created_at base))
             as [e | [er3 |]] eqn:H3; try discriminate.
           intros H; inversion H; subst.
           apply registration_of_stored in H3; destruct H3 as (m & _ & _ & H3); exact H3.
      * destruct (registration_of db (newest m_created_at base))
          as [e | [er3 |]] eqn:H3; try discriminate.
        intros H; inversion H; subst.
        apply registration_of_stored in H3; destruct H3 as (m & _ & _ & H3); exact H3.
  - destruct (or_none (event_id b)) as [ev |].
    + cbn. destruct (registration_of db (newest m_created_at
                    (List.filter (fun m => (m_event_id m =? ev)%string) base)))
          as [e | [er2 |]] eqn:H2; [discriminate | |].
      * intros H; inversion H; subst.
        apply registration_of_stored in H2; destruct H2 as (m & _ & _ & H2); exact H2.
      * destruct (registration_of db (newest m_created_at base))
          as [e | [er3 |]] eqn:H3; try discriminate.
        intros H; inversion H; subst.
        apply registration_of_stored in H3; destruct H3 as (m & _ & _ & H3); exact H3.
    + cbn. destruct (registration_of db (newest m_created_at base))
          as [e | [er3 |]] eqn:H3; try discriminate.
      intros H; inversion H; subst.
      apply registration_of_stored in H3; destruct H3 as (m & _ & _ & H3); exact H3.
Qed.

Lemma resolve_registration_stored :
  forall env db b er,
    resolve_registration env db b = inr er ->
    get_registration db (er_id er) = Some er.
Proof.
  intros env db b er. unfold resolve_registration.
  destruct (truthy (event_registration_id b)).
  - destruct (get_registration db (or_empty (event_registration_id b)))
      as [er' |] eqn:Hget; [| discriminate].
    intros H; inversion H; subst er'.
    rewrite (get_registration_id _ _ _ Hget). exact Hget.
  - apply resolve_by_mapping_stored.
Qed.

Lemma save_rsvp_get :
  forall regs maps er0 s responded,
    get_registration (mkDB regs maps) (er_id er0) = Some er0 ->
    get_registration (mkDB (save_rsvp (set_rsvp s responded er0) regs) maps) (er_id er0)
      = Some (set_rsvp s responded er0).
Proof.
  unfold get_registration. cbn [registrations].
  intros regs maps er0 s responded.
  induction regs as [| r regs IH]; cbn; [discriminate |].
  destruct (er_id r =? er_id er0)%string eqn:Hid.
  - intros H; inversion H; subst r. cbn. rewrite String.eqb_refl. reflexivity.
  - rewrite Hid. exact IH.
Qed.

Lemma whatsapp_rsvp_saved :
  forall parse env db request b responded er0,
    rsvp_admitted parse env request b responded ->
    resolve_registration env db b = inr er0 ->
    save_fault env = false ->
    whatsapp_rsvp parse env db request =
      let er := set_rsvp (normalized_status b) responded er0 in
      let db1 := mkDB (save_rsvp er (registrations db)) (send_maps db) in
      if publish_fault env then (Raises ChannelError, db1, [])
      else
        (Returns (JsonRsvp (er_id er0) (er_event_id er0) (er_guest_id er0)
                           (normalized_status b) (Some responded)),
         mkDB (registrations db1) (mark_consumed env er b (send_maps db1)),
         [rsvp_notification er]).
Proof.
  intros parse env db request b responded er0 Hadm Hres Hsave.
  rewrite (whatsapp_rsvp_admitted _ _ db _ _ _ Hadm), Hres, Hsave.
  reflexivity.
Qed.

Lemma mapped_rows :
  forall {A : Type} (R : A -> A -> Prop) (g : A -> A) (l : list A),
    (forall x, R x (g x)) -> Forall2 R l (List.map g l).
Proof.
  intros A R g l H. induction l as [| a l IH]; cbn; constructor; auto.
Qed.

Lemma consumed_qs_most_specific :
  forall er b m,
    consumed_qs er b m =
      (m_event_registration m =? er_id er)%string
      && most_specific_key (or_none (template_wamid b))
           (_norm_digits (or_empty (wa_id b))) (or_none (event_id b)) m.
Proof.
  intros er b m. unfold consumed_qs, most_specific_key.
  destruct (or_none (template_wamid b)); [reflexivity |].
  destruct (nonempty (_norm_digits (or_empty (wa_id b))));
    destruct (or_none (event_id b)); reflexivity.
Qed.

(** C7. Once the RSVP is stored and announced, the consumption step cannot
    fail the request: whether or not the update of the mappings raises, the
    webhook returns the successful RSVP result and the registration keeps
    its new status and timestamp.  When the update goes through, every
    mapping of the registration selected by the most specific key present
    (correlator, else identity and event, else identity) has [consumed_at]
    equal to the time of the update and is otherwise as before, and every
    other mapping is unchanged; when it raises, the mappings are as
    before. *)
Theorem consumption_never_fails_the_request :
  forall parse env db request b responded er0,
    rsvp_admitted parse env request b responded ->
    resolve_registration env db b = inr er0 ->
    save_fault env = false ->
    publish_fault env = false ->
    let '(out, db', _) := whatsapp_rsvp parse env db request in
    out = Returns (JsonRsvp (er_id er0) (er_event_id er0) (er_guest_id er0)
                            (normalized_status b) (Some responded))
    /\ get_registration db' (er_id er0)
         = Some (set_rsvp (normalized_status b) responded er0)
    /\ (consume_fault env = true -> send_maps db' = send_maps db)
    /\ (consume_fault env = false ->
        send_maps db' =
          List.map
            (fun m =>
               if (m_event_registration m =? er_id er0)%string
                  && most_specific_key (or_none (template_wamid b))
                       (_norm_digits (or_empty (wa_id b)))
                       (or_none (event_id b)) m
               then set_consumed (now_consumed env) m else m)
            (send_maps db)
        /\ Forall2
             (fun m m' =>
                if (m_event_registration m =? er_id er0)%string
                   && most_specific_key (or_none (template_wamid b))
                        (_norm_digits (or_empty (wa_id b)))
                        (or_none (event_id b)) m
                then m_consumed_at m' = Some (now_consumed env)
                     /\ m_id m' = m_id m
                     /\ m_wa_id m' = m_wa_id m
                     /\ m_event_id m' = m_event_id m
                     /\ m_event_registration m' = m_event_registration m
                     /\ m_template_wamid m' = m_template_wamid m
                     /\ m_created_at m' = m_created_at m
                     /\ m_expires_at m' = m_expires_at m
                else m' = m)
             (send_maps db) (send_maps db')).
Proof.
  intros parse env db request b responded er0 Hadm Hres Hsave Hpub.
  rewrite (whatsapp_rsvp_saved _ _ _ _ _ _ _ Hadm Hres Hsave), Hpub.
  cbv zeta. cbn [registrations send_maps].
  split; [reflexivity |]. split.
  - apply resolve_registration_stored in Hres.
    destruct db as [regs maps].
    unfold get_registration in *. cbn [registrations] in *.
    apply (save_rsvp_get regs maps er0 _ _ Hres).
  - unfold mark_consumed. split; intros Hc; rewrite Hc; [reflexivity |].
    split.
    + apply map_ext. intros m.
      rewrite consumed_qs_most_specific. reflexivity.
    + apply mapped_rows. intros m.
      rewrite consumed_qs_most_specific.
      change (er_id (set_rsvp (normalized_status b) responded er0))
        with (er_id er0).
      destruct ((m_event_registration m =? er_id er0)%string
                && most_specific_key (or_none (template_wamid b))
                     (_norm_digits (or_empty (wa_id b)))
                     (or_none (event_id b)) m).
      * repeat split.
      * reflexivity.
Qed.

Lemma admitted_with_faults :
  forall publish consume wa ev reg tmpl,
    rsvp_admitted sample_parse (env_with_faults publish consume)
      (rsvp_request wa ev reg tmpl "yes")
      (sample_body wa ev reg tmpl (Some "yes") None)
      (datetime_now_utc 5000).
Proof. intros. repeat split. Qed.

Lemma consumption_never_fails_the_request_witness :
  (let '(out, db', _) :=
     whatsapp_rsvp sample_parse (env_with_faults false true) db_sent
       (rsvp_request (Some "+1 (555) 123-4567") (Some "E1") None None "yes") in
   out = Returns (JsonRsvp "R1" "E1" "G1" "yes" (Some (datetime_now_utc 5000)))
   /\ get_registration db' "R1" = Some (set_rsvp "yes" (datetime_now_utc 5000) R1)
   /\ send_maps db' = send_maps db_sent)
  /\ (let '(out, db', _) :=
        whatsapp_rsvp sample_parse (env_with_faults false false) db_sent
          (rsvp_request (Some "+1 (555) 123-4567") (Some "E1") None None "yes") in
      out = Returns (JsonRsvp "R1" "E1" "G1" "yes" (Some (datetime_now_utc 5000)))
      /\ exists m', send_maps db' = [m']
                    /\ m_consumed_at m' = Some 5000
                    /\ m_id m' = 1%N).
Proof.
  split.
  - pose proof
      (consumption_never_fails_the_request sample_parse (env_with_faults false true)
         db_sent _ _ _ R1
         (admitted_with_faults false true (Some "+1 (555) 123-4567") (Some "E1")
                               None None)
         eq_refl eq_refl eq_refl) as H.
    destruct (whatsapp_rsvp sample_parse (env_with_faults false true) db_sent
                (rsvp_request (Some "+1 (555) 123-4567") (Some "E1") None None "yes"))
      as [[out db'] sent].
    destruct H as (Hout & Hget & Hfault & _).
    split; [exact Hout | split; [exact Hget | exact (Hfault eq_refl)]].
  - pose proof
      (consumption_never_fails_the_request sample_parse (env_with_faults false false)
         db_sent _ _ _ R1
         (admitted_with_faults false false (Some "+1 (555) 123-4567") (Some "E1")
                               None None)
         eq_refl eq_refl eq_refl) as H.
    destruct (whatsapp_rsvp sample_parse (env_with_faults false false) db_sent
                (rsvp_request (Some "+1 (555) 123-4567") (Some "E1") None None "yes"))
      as [[out db'] sent].
    destruct H as (Hout & _ & _ & Hdone).
    split; [exact Hout |].
    destruct (Hdone eq_refl) as [_ Hrows].
    destruct db' as [regs' maps']. cbn [send_maps] in Hrows |- *.
    change (send_maps db_sent)
      with [mkSendMap 1 "15551234567" "E1" "R1" None 1000 (1000 + days_30) None]
      in Hrows.
    inversion Hrows as [| m m' l l' Hm Hl]; subst.
    inversion Hl; subst.
    vm_compute in Hm. destruct Hm as (Hc & Hid & _).
    exists m'. split; [reflexivity | split; assumption].
Defined.

(** C4. The code at the input where the claim and the code part: the
    request names the stored registration R1 with a valid status, the save
    goes through, and [group_send] raises.  The call is outside any
    [try], unlike the consumption step after it, so the exception escapes
    the view: no response is returned, let alone the success, and nothing
    is published. *)
Lemma publish_failure_fails_the_request :
  let '(out, _, sent) :=
    whatsapp_rsvp sample_parse (env_with_faults true false) db_empty
      (rsvp_request None None (Some "R1") None "yes") in
  out = Raises ChannelError
  /\ (forall r, out <> Returns r)
  /\ sent = [].
Proof.
  cbv. repeat split. intros r H. discriminate H.
Qed.

Lemma responded_on_of_aware :
  forall parse env b r, responded_on_of parse env b = inr r -> aware r.
Proof.
  intros parse env b r. unfold responded_on_of, aware.
  destruct (truthy (responded_on b)).
  - destruct (parse (or_empty (responded_on b))) as [dt | |].
    + unfold _ensure_aware. destruct (tzinfo dt) eqn:Htz;
        intros H; inversion H; subst; cbn; congruence.
    + intros H; inversion H; cbn; discriminate.
    + discriminate.
  - intros H; inversion H; cbn; discriminate.
Qed.

(** C5, as the code has it.  The status is trimmed and lowercased first; if
    the result is not one of yes, no, maybe, the webhook answers "invalid
    rsvp_status" and neither stores nor publishes anything.  An absent or
    empty [responded_on], or one the parser finds not well formatted, gives
    the current time in UTC; a parsed value without zone is given the UTC
    zone, one with a zone is kept.  Whenever the webhook answers with the
    updated registration, the stored timestamp is the one so computed and it
    is timezone-aware. *)
Theorem rsvp_status_and_timestamp :
  forall parse env db request b,
    token_rejected env request = false ->
    body request = Some b ->
    (valid_status (normalized_status b) = false ->
       whatsapp_rsvp parse env db request
         = (Returns (HttpResponseBadRequest "invalid rsvp_status"), db, []))
    /\ (truthy (responded_on b) = false
        \/ parse (or_empty (responded_on b)) = NotWellFormatted ->
        responded_on_of parse env b = inr (datetime_now_utc (now_default env)))
    /\ (forall dt,
          truthy (responded_on b) = true ->
          parse (or_empty (responded_on b)) = Parsed dt ->
          (tzinfo dt = None ->
             responded_on_of parse env b = inr (mkDatetime (wall dt) (Some utc)))
          /\ (tzinfo dt <> None -> responded_on_of parse env b = inr dt))
    /\ (forall id ev guest st resp db' sent,
          whatsapp_rsvp parse env db request
            = (Returns (JsonRsvp id ev guest st resp), db', sent) ->
          exists r er,
            resp = Some r
            /\ responded_on_of parse env b = inr r
            /\ aware r
            /\ get_registration db' id = Some er
            /\ er_responded_on er = Some r
            /\ er_rsvp_status er = normalized_status b).
Proof.
  intros parse env db request b Htok Hbody.
  split; [| split; [| split]].
  - intros Hst. unfold whatsapp_rsvp. rewrite Htok, Hbody, Hst. reflexivity.
  - unfold responded_on_of. intros [H | H].
    + rewrite H. reflexivity.
    + rewrite H. destruct (truthy (responded_on b)); reflexivity.
  - intros dt Ht Hp. unfold responded_on_of, _ensure_aware. rewrite Ht, Hp.
    split; intros Hz.
    + rewrite Hz. reflexivity.
    + destruct (tzinfo dt); [reflexivity | congruence].
  - intros id ev guest st resp db' sent.
    unfold whatsapp_rsvp. rewrite Htok, Hbody.
    destruct (valid_status (normalized_status b)); cbn [negb]; [| discriminate].
    destruct (responded_on_of parse env b) as [e | r] eqn:Hr; [discriminate |].
    destruct (resolve_registration env db b) as [out | er0] eqn:Hres.
    + intros H; inversion H; subst out.
      unfold resolve_registration in Hres.
      destruct (truthy (event_registration_id b)).
      * destruct (get_registration db _); discriminate.
      * exfalso. revert Hres. unfold resolve_by_mapping.
        destruct (negb _); [discriminate |].
        repeat match goal with
               | |- context [match ?x with _ => _ end] => destruct x
               end; discriminate.
    + destruct (save_fault env); [discriminate |].
      destruct (publish_fault env); [discriminate |].
      cbn [er_id er_event_id er_guest_id er_rsvp_status er_responded_on set_rsvp
           registrations send_maps].
      intros H; inversion H; subst.
      exists r, (set_rsvp (normalized_status b) r er0).
      repeat split; try reflexivity.
      * exact (responded_on_of_aware _ _ _ _ Hr).
      * apply resolve_registration_stored in Hres.
        destruct db as [regs maps].
        apply (save_rsvp_get regs _ er0 _ _ Hres).
Qed.

(** A [responded_on] that the parser refuses by raising is not defaulted:
    the exception escapes the view before anything is stored. *)
Lemma parser_exception_escapes :
  forall parse env db request b,
    token_rejected env request = false ->
    body request = Some b ->
    valid_status (normalized_status b) = true ->
    truthy (responded_on b) = true ->
    parse (or_empty (responded_on b)) = ParseRaises ->
    whatsapp_rsvp parse env db request = (Raises ValueError, db, []).
Proof.
  intros parse env db request b Htok Hbody Hst Ht Hp.
  unfold whatsapp_rsvp, responded_on_of.
  rewrite Htok, Hbody, Hst, Ht, Hp. reflexivity.
Qed.

Lemma rsvp_status_and_timestamp_witness :
  whatsapp_rsvp sample_parse sample_env db_sent
      (rsvp_request None None (Some "R1") None "perhaps")
    = (Returns (HttpResponseBadRequest "invalid rsvp_status"), db_sent, [])
  /\ responded_on_of sample_parse sample_env
       (sample_body None None (Some "R1") None (Some "yes") (Some "tomorrow"))
     = inr (datetime_now_utc 5000)
  /\ responded_on_of sample_parse sample_env
       (sample_body None None (Some "R1") None (Some "yes")
                    (Some "2024-05-01T10:00:00"))
     = inr (mkDatetime 77 (Some utc)).
Proof.
  split; [| split].
  - apply (rsvp_status_and_timestamp sample_parse sample_env db_sent
             (rsvp_request None None (Some "R1") None "perhaps") _ eq_refl eq_refl).
    reflexivity.
  - destruct (rsvp_status_and_timestamp sample_parse sample_env db_sent
                (signed (sample_body None None (Some "R1") None (Some "yes")
                                     (Some "tomorrow"))) _ eq_refl eq_refl)
      as (_ & Hdefault & _).
    apply Hdefault. right. reflexivity.
  - destruct (rsvp_status_and_timestamp sample_parse sample_env db_sent
                (signed (sample_body None None (Some "R1") None (Some "yes")
                                     (Some "2024-05-01T10:00:00"))) _ eq_refl eq_refl)
      as (_ & _ & Hparsed & _).
    destruct (Hparsed (mkDatetime 77 None) eq_refl eq_refl) as [Hnaive _].
    exact (Hnaive eq_refl).
Defined.

(** C5, as stated, fails: "YES" is not one of yes, no, maybe, and the
    webhook accepts it and stores the status "yes". *)
Lemma uppercase_status_is_accepted :
  valid_status "YES" = false
  /\ let '(out, db', _) :=
       whatsapp_rsvp sample_parse sample_env db_empty
         (rsvp_request None None (Some "R1") None "YES") in
     out = Returns (JsonRsvp "R1" "E1" "G1" "yes" (Some (datetime_now_utc 5000)))
     /\ get_registration db' "R1" = Some (set_rsvp "yes" (datetime_now_utc 5000) R1)
     /\ db' <> db_empty.
Proof.
  cbv. repeat split. intros H. discriminate H.
Qed.

(** ** Querysets: filtering and ordering *)

Lemma newest_In :
  forall {A : Type} (created : A -> instant) (qs : list A) (x : A),
    newest created qs = Some x -> In x qs.
Proof.
  intros A created qs. induction qs as [| a qs IH]; intros x H; cbn in H.
  - discriminate.
  - destruct (newest created qs) as [y |].
    + destruct (created a <? created y); inversion H; subst.
      * right. apply IH. reflexivity.
      * left. reflexivity.
    + inversion H. left. reflexivity.
Qed.

Lemma newest_most_recent :
  forall {A : Type} (created : A -> instant) (qs : list A) (x : A),
    newest created qs = Some x ->
    forall y, In y qs -> created y <= created x.
Proof.
  intros A created qs. induction qs as [| a qs IH]; intros x H y Hy; cbn in H.
  - contradiction.
  - destruct (newest created qs) as [z |] eqn:Hz.
    + destruct (created a <? created z) eqn:Hlt; inversion H; subst.
      * apply Z.ltb_lt in Hlt. destruct Hy as [<- | Hy]; [lia |].
        apply (IH x eq_refl y Hy).
      * apply Z.ltb_ge in Hlt. destruct Hy as [<- | Hy]; [lia |].
        specialize (IH z eq_refl y Hy). lia.
    + inversion H; subst. destruct Hy as [<- | Hy]; [lia |].
      destruct qs; [contradiction | cbn in Hz].
      destruct (newest created qs); [destruct (_ <? _) |]; discriminate.
Qed.

Lemma newest_some :
  forall {A : Type} (created : A -> instant) (qs : list A),
    qs <> [] -> exists x, newest created qs = Some x.
Proof.
  intros A created [| a qs] H; [congruence |].
  cbn. destruct (newest created qs) as [y |].
  - destruct (created a <? created y); eauto.
  - eauto.
Qed.

Lemma filter_and :
  forall {A : Type} (p q : A -> bool) (l : list A),
    List.filter q (List.filter p l) = List.filter (fun x => p x && q x) l.
Proof.
  intros A p q l. induction l as [| a l IH]; cbn; [reflexivity |].
  destruct (p a); cbn; [destruct (q a) |]; rewrite IH; reflexivity.
Qed.

Lemma filter_length_le :
  forall {A : Type} (p q : A -> bool) (l : list A),
    (forall x, p x = true -> q x = true) ->
    (List.length (List.filter p l) <= List.length (List.filter q l))%nat.
Proof.
  intros A p q l Hpq. induction l as [| a l IH]; cbn; [lia |].
  destruct (p a) eqn:Hp.
  - rewrite (Hpq a Hp). cbn. lia.
  - destruct (q a); cbn; lia.
Qed.

Lemma filter_map_same :
  forall {A : Type} (p : A -> bool) (g : A -> A) (l : list A),
    (forall x, p (g x) = p x) ->
    List.length (List.filter p (List.map g l)) = List.length (List.filter p l).
Proof.
  intros A p g l Hg. induction l as [| a l IH]; cbn; [reflexivity |].
  rewrite Hg. destruct (p a); cbn; rewrite IH; reflexivity.
Qed.

Lemma filter_map_updated :
  forall {A : Type} (key : A -> bool) (upd : A -> A) (l : list A),
    (forall x, key x = true -> key (upd x) = true) ->
    List.filter key (List.map (fun x => if key x then upd x else x) l)
      = List.map upd (List.filter key l).
Proof.
  intros A key upd l Hk. induction l as [| a l IH]; cbn; [reflexivity |].
  destruct (key a) eqn:Ha.
  - rewrite (Hk a Ha). cbn. rewrite IH. reflexivity.
  - rewrite Ha. exact IH.
Qed.

Lemma filter_nil_none :
  forall {A : Type} (p : A -> bool) (l : list A) (x : A),
    List.filter p l = [] -> In x l -> p x = false.
Proof.
  intros A p l x Hnil Hin.
  destruct (p x) eqn:Hp; [| reflexivity].
  assert (Hx : In x (List.filter p l)) by (apply filter_In; auto).
  rewrite Hnil in Hx. contradiction.
Qed.

Lemma find_present :
  forall {A : Type} (p : A -> bool) (l : list A) (x : A),
    In x l -> p x = true -> exists y, find p l = Some y.
Proof.
  intros A p l x Hin Hp. induction l as [| a l IH]; [contradiction |].
  cbn. destruct (p a) eqn:Ha; [eauto |].
  destruct Hin as [-> | Hin]; [congruence | auto].
Qed.

(** ** The upsert *)

Lemma update_or_create_cases :
  forall key template wa ev reg expires created maps mid maps',
    update_or_create key template wa ev reg expires created maps = inr (mid, maps') ->
    (List.filter key maps = []
     /\ mid = fresh_id maps
     /\ maps' = (maps ++ [mkSendMap (fresh_id maps) wa ev reg template created
                                     expires None])%list)
    \/ (exists obj,
          List.filter key maps = [obj]
          /\ mid = m_id obj
          /\ maps' = List.map (fun m => if key m
                                        then apply_defaults wa ev reg expires m
                                        else m) maps).
Proof.
  intros key template wa ev reg expires created maps mid maps'.
  unfold update_or_create.
  destruct (List.filter key maps) as [| obj [| obj' rest]].
  - intros H; inversion H; subst. left. auto.
  - intros H; inversion H; subst. right. exists obj. auto.
  - discriminate.
Qed.

Lemma upsert_key_defaults :
  forall template wa ev reg expires m,
    upsert_key template wa ev m = true ->
    upsert_key template wa ev (apply_defaults wa ev reg expires m) = true.
Proof.
  intros [t |] wa ev reg expires m; cbn; unfold template_is, wa_event_is; cbn.
  - auto.
  - intros _. rewrite !String.eqb_refl. reflexivity.
Qed.

Lemma upsert_key_created :
  forall template wa ev reg expires created id,
    upsert_key template wa ev
      (mkSendMap id wa ev reg template created expires None) = true.
Proof.
  intros [t |] wa ev reg expires created id; cbn;
    unfold template_is, wa_event_is; cbn; rewrite ?String.eqb_refl; reflexivity.
Qed.

(** After a successful upsert exactly one row matches the lookup: the row
    returned, carrying the defaults. *)
Lemma update_or_create_row :
  forall template wa ev reg expires created maps mid maps',
    update_or_create (upsert_key template wa ev) template wa ev reg expires created maps
      = inr (mid, maps') ->
    exists m,
      List.filter (upsert_key template wa ev) maps' = [m]
      /\ m_id m = mid
      /\ m_wa_id m = wa
      /\ m_event_id m = ev
      /\ m_event_registration m = reg
      /\ m_expires_at m = expires
      /\ List.length maps'
         = (List.length maps
            + if existsb (upsert_key template wa ev) maps then 0 else 1)%nat.
Proof.
  intros template wa ev reg expires created maps mid maps' H.
  apply update_or_create_cases in H.
  destruct H as [(Hnone & -> & ->) | (obj & Hone & -> & ->)].
  - exists (mkSendMap (fresh_id maps) wa ev reg template created expires None).
    rewrite filter_app, Hnone. cbn [List.filter app].
    rewrite upsert_key_created. cbn.
    repeat split; try reflexivity.
    rewrite length_app. cbn.
    destruct (existsb (upsert_key template wa ev) maps) eqn:Hex; [| reflexivity].
    apply existsb_exists in Hex. destruct Hex as (x & Hin & Hx).
    rewrite (filter_nil_none _ _ _ Hnone Hin) in Hx. discriminate.
  - exists (apply_defaults wa ev reg expires obj).
    rewrite filter_map_updated by (intros x; apply upsert_key_defaults).
    rewrite Hone. cbn.
    repeat split; try reflexivity.
    rewrite length_map.
    assert (Hex : existsb (upsert_key template wa ev) maps = true).
    { apply existsb_exists. exists obj.
      apply filter_In. rewrite Hone. left. reflexivity. }
    rewrite Hex. lia.
Qed.

(** ** [track_send], case by case *)

Lemma track_send_success :
  forall env db request mid db',
    track_send env db request = (Returns (JsonTrackSend mid), db') ->
    exists b er,
      body request = Some b
      /\ token_rejected env request = false
      /\ nonempty (_norm_digits (or_empty (wa_id b))) = true
      /\ truthy (event_id b) = true
      /\ (if truthy (event_registration_id b)
          then get_registration db (or_empty (event_registration_id b)) = Some er
          else newest er_created_at
                 (List.filter
                    (fun r => (er_event_id r =? or_empty (event_id b))%string)
                    (registrations db)) = Some er)
      /\ upsert_fault env = false
      /\ registrations db' = registrations db
      /\ update_or_create
           (upsert_key (or_none (template_wamid b))
                       (_norm_digits (or_empty (wa_id b))) (er_event_id er))
           (or_none (template_wamid b))
           (_norm_digits (or_empty (wa_id b))) (er_event_id er) (er_id er)
           (now_upsert env + days_30) (now_auto env) (send_maps db)
         = inr (mid, send_maps db').
Proof.
  intros env db request mid db'. unfold track_send.
  destruct (token_rejected env request) eqn:Htok; [discriminate |].
  destruct (body request) as [b |] eqn:Hbody; [| discriminate].
  destruct (nonempty (_norm_digits (or_empty (wa_id b)))) eqn:Hwa; [| discriminate].
  destruct (truthy (event_id b)) eqn:Hev; [| discriminate].
  cbn [negb orb].
  destruct (truthy (event_registration_id b)) eqn:Hreg.
  - destruct (get_registration db (or_empty (event_registration_id b)))
      as [er |] eqn:Hget; [| discriminate].
    destruct (upsert_fault env) eqn:Hfault; [discriminate |].
    destruct (or_none (template_wamid b)) as [t |] eqn:Htmpl;
      match goal with
      | |- context [update_or_create ?k ?t ?w ?e ?r ?x ?c ?m] =>
          destruct (update_or_create k t w e r x c m) as [e0 | [i ms]] eqn:Hu
      end; try discriminate;
      intros H; inversion H; subst; exists b, er;
      rewrite Hreg, Htmpl; cbn; repeat split; auto.
  - destruct (newest er_created_at _) as [er |] eqn:Hnew; [| discriminate].
    destruct (upsert_fault env) eqn:Hfault; [discriminate |].
    destruct (or_none (template_wamid b)) as [t |] eqn:Htmpl;
      match goal with
      | |- context [update_or_create ?k ?t ?w ?e ?r ?x ?c ?m] =>
          destruct (update_or_create k t w e r x c m) as [e0 | [i ms]] eqn:Hu
      end; try discriminate;
      intros H; inversion H; subst; exists b, er;
      rewrite Hreg, Htmpl; cbn; repeat split; auto.
Qed.

Lemma track_send_changes :
  forall env db request,
    snd (track_send env db request) = db
    \/ exists mid, fst (track_send env db request) = Returns (JsonTrackSend mid).
Proof.
  intros env db request. unfold track_send.
  destruct (token_rejected env request); [left; reflexivity |].
  destruct (body request) as [b |]; [| left; reflexivity].
  destruct (negb _ || negb _); [left; reflexivity |].
  destruct (if truthy (event_registration_id b) then _ else _)
    as [resp | er0]; [left; reflexivity |].
  destruct (match er0 with Some er => Some er | None => _ end) as [er |];
    [| left; reflexivity].
  destruct (if upsert_fault env then _ else _) as [e | [mid maps']];
    [left; reflexivity | right; exists mid; reflexivity].
Qed.

(** ** The key invariant *)

Lemma key_invariant_upsert :
  forall template wa ev reg expires created maps mid maps',
    key_invariant maps ->
    update_or_create (upsert_key template wa ev) template wa ev reg expires created maps
      = inr (mid, maps') ->
    key_invariant maps'.
Proof.
  intros template wa ev reg expires created maps mid maps' [Hpair Hcorr] H.
  apply update_or_create_cases in H.
  destruct H as [(Hnone & -> & ->) | (obj & Hone & -> & ->)].
  - (* a row is inserted: no stored row matched the lookup *)
    split.
    + intros wa' ev'. unfold at_most_one. rewrite filter_app, length_app.
      cbn [List.filter]. unfold no_correlator at 2. cbn [m_template_wamid].
      destruct template as [t |]; cbn [andb List.length].
      * specialize (Hpair wa' ev'). unfold at_most_one in Hpair. lia.
      * destruct (wa_event_is wa' ev' _) eqn:Hnew; cbn [List.length];
          [| specialize (Hpair wa' ev'); unfold at_most_one in Hpair; lia].
        unfold wa_event_is in Hnew. cbn in Hnew.
        apply andb_true_iff in Hnew. destruct Hnew as [Hw He].
        apply String.eqb_eq in Hw. apply String.eqb_eq in He. subst wa' ev'.
        assert (Hle := filter_length_le
                         (fun m => no_correlator m && wa_event_is wa ev m)
                         (upsert_key None wa ev) maps).
        rewrite Hnone in Hle. cbn in Hle.
        assert (Hzero : (List.length
                  (List.filter (fun m => no_correlator m && wa_event_is wa ev m) maps)
                  <= 0)%nat).
        { apply Hle. intros x Hx. apply andb_true_iff in Hx. tauto. }
        lia.
    + intros t'. unfold at_most_one. rewrite filter_app, length_app.
      cbn [List.filter]. unfold template_is at 2. cbn [m_template_wamid].
      destruct template as [t |]; cbn [List.length];
        [| specialize (Hcorr t'); unfold at_most_one in Hcorr; lia].
      destruct (t =? t')%string eqn:Ht; cbn [List.length];
        [| specialize (Hcorr t'); unfold at_most_one in Hcorr; lia].
      apply String.eqb_eq in Ht. subst t'.
      cbn in Hnone. rewrite Hnone. cbn. lia.
  - (* the matching row is overwritten: its keys stay *)
    split.
    + intros wa' ev'. unfold at_most_one.
      rewrite filter_map_same; [apply Hpair |].
      intros m. destruct (upsert_key template wa ev m) eqn:Hk; [| reflexivity].
      destruct template as [t |]; cbn in Hk.
      * unfold no_correlator, template_is in *. cbn.
        destruct (m_template_wamid m); [reflexivity | discriminate].
      * unfold wa_event_is in Hk. apply andb_true_iff in Hk.
        destruct Hk as [Hw He].
        apply String.eqb_eq in Hw. apply String.eqb_eq in He.
        unfold no_correlator, wa_event_is. cbn. rewrite Hw, He. reflexivity.
    + intros t'. unfold at_most_one.
      rewrite filter_map_same; [apply Hcorr |].
      intros m. destruct (upsert_key template wa ev m); reflexivity.
Qed.

Lemma key_invariant_consumed :
  forall env er b maps,
    key_invariant maps -> key_invariant (mark_consumed env er b maps).
Proof.
  intros env er b maps [Hpair Hcorr]. unfold mark_consumed.
  destruct (consume_fault env); [split; assumption |].
  split.
  - intros wa ev. unfold at_most_one.
    rewrite filter_map_same; [apply Hpair |].
    intros m. destruct (consumed_qs er b m); reflexivity.
  - intros t. unfold at_most_one.
    rewrite filter_map_same; [apply Hcorr |].
    intros m. destruct (consumed_qs er b m); reflexivity.
Qed.

Lemma key_invariant_track_send :
  forall env db request,
    key_invariant (send_maps db) ->
    key_invariant (send_maps (snd (track_send env db request))).
Proof.
  intros env db request Hinv.
  destruct (track_send_changes env db request) as [Hsame | [mid Hok]].
  - rewrite Hsame. exact Hinv.
  - destruct (track_send env db request) as [out db'] eqn:Hts.
    cbn in Hok. subst out. cbn [snd].
    apply track_send_success in Hts.
    destruct Hts as (b & er & _ & _ & _ & _ & _ & _ & _ & Hu).
    exact (key_invariant_upsert _ _ _ _ _ _ _ _ _ Hinv Hu).
Qed.

Lemma whatsapp_rsvp_maps :
  forall parse env db request,
    send_maps (snd (fst (whatsapp_rsvp parse env db request))) = send_maps db
    \/ exists er b,
         send_maps (snd (fst (whatsapp_rsvp parse env db request)))
           = mark_consumed env er b (send_maps db).
Proof.
  intros parse env db request. unfold whatsapp_rsvp.
  destruct (token_rejected env request); [left; reflexivity |].
  destruct (body request) as [b |]; [| left; reflexivity].
  destruct (negb _); [left; reflexivity |].
  destruct (responded_on_of parse env b); [left; reflexivity |].
  destruct (resolve_registration env db b) as [out | er0]; [left; reflexivity |].
  destruct (save_fault env); [left; reflexivity |].
  destruct (publish_fault env); [left; reflexivity |].
  right. eexists _, b. reflexivity.
Qed.

Lemma reachable_key_invariant :
  forall db, reachable db -> key_invariant (send_maps db).
Proof.
  intros db H. induction H.
  - split; intros; unfold at_most_one; cbn; lia.
  - exact IHreachable.
  - apply key_invariant_track_send. exact IHreachable.
  - destruct (whatsapp_rsvp_maps parse env db request) as [-> | (er & b & ->)].
    + exact IHreachable.
    + apply key_invariant_consumed. exact IHreachable.
Qed.

Lemma key_invariant_live :
  forall maps now, key_invariant maps -> live_mapping_invariant now maps.
Proof.
  intros maps now [Hpair Hcorr]. split.
  - intros wa ev. unfold at_most_one.
    etransitivity; [| apply (Hpair wa ev)].
    apply filter_length_le. intros x Hx. apply andb_true_iff in Hx. tauto.
  - intros t. unfold at_most_one.
    etransitivity; [| apply (Hcorr t)].
    apply filter_length_le. intros x Hx. apply andb_true_iff in Hx. tauto.
Qed.

Lemma sample_regs_nonempty :
  forall er, In er sample_regs -> nonempty (er_id er) = true.
Proof.
  intros er [<- | [<- | [<- | []]]]; reflexivity.
Qed.

Lemma db_sent_reachable : reachable db_sent.
Proof.
  unfold db_sent. apply reach_track_send.
  apply reach_init. exact sample_regs_nonempty.
Qed.

Lemma db_sent_twice_reachable : reachable db_sent_twice.
Proof.
  unfold db_sent_twice. apply reach_track_send. exact db_sent_reachable.
Qed.

(** C6. In every state the webhooks can reach, a [track_send] request
    leaves a state in which, at any instant, at most one live mapping
    without correlator exists per identity and event, and at most one live
    mapping per correlator.  When the request succeeds, exactly one stored
    row matches the lookup of the upsert (the correlator when given, else
    identity and event): the row whose id is returned; its expiry is the
    time of the upsert plus 30 days, whether the row was inserted or
    overwritten, and an overwrite adds no row. *)
Theorem track_send_keeps_one_mapping_per_key :
  forall env db request,
    reachable db ->
    let '(out, db') := track_send env db request in
    reachable db'
    /\ (forall now, live_mapping_invariant now (send_maps db'))
    /\ (forall mid,
          out = Returns (JsonTrackSend mid) ->
          exists b er m,
            body request = Some b
            /\ List.filter
                 (upsert_key (or_none (template_wamid b))
                             (_norm_digits (or_empty (wa_id b))) (er_event_id er))
                 (send_maps db') = [m]
            /\ m_id m = mid
            /\ m_event_registration m = er_id er
            /\ m_expires_at m = now_upsert env + days_30
            /\ List.length (send_maps db')
               = (List.length (send_maps db)
                  + if existsb
                         (upsert_key (or_none (template_wamid b))
                            (_norm_digits (or_empty (wa_id b))) (er_event_id er))
                         (send_maps db)
                    then 0 else 1)%nat).
Proof.
  intros env db request Hreach.
  pose proof (reach_track_send env db request Hreach) as Hreach'.
  destruct (track_send env db request) as [out db'] eqn:Hts.
  cbn [snd] in Hreach'.
  split; [exact Hreach' |]. split.
  - intros now. apply key_invariant_live.
    apply reachable_key_invariant. exact Hreach'.
  - intros mid ->.
    apply track_send_success in Hts.
    destruct Hts as (b & er & Hbody & _ & _ & _ & _ & _ & _ & Hu).
    apply update_or_create_row in Hu.
    destruct Hu as (m & Hone & Hid & _ & _ & Hreg & Hexp & Hlen).
    exists b, er, m. repeat split; assumption.
Qed.

Lemma track_send_keeps_one_mapping_per_key_witness :
  let env := mkEnv (Some sample_secret) 2000 2000 0 0 0 false false false false in
  let request :=
    signed (sample_body (Some "+1 555 123 4567") (Some "E1") (Some "R2")
                        None None None) in
  let '(out, db') := track_send env db_sent request in
  (forall now, live_mapping_invariant now (send_maps db'))
  /\ exists m, send_maps db' = [m]
               /\ m_id m = 1%N
               /\ m_event_registration m = "R2"
               /\ m_expires_at m = 2000 + days_30.
Proof.
  intros env request.
  pose proof (track_send_keeps_one_mapping_per_key env db_sent request
                db_sent_reachable) as H.
  destruct (track_send env db_sent request) as [out db'] eqn:Hts.
  destruct H as (_ & Hlive & Hrow).
  split; [exact Hlive |].
  vm_compute in Hts. inversion Hts; subst out db'.
  destruct (Hrow 1%N eq_refl) as (b & er & m & Hb & Hone & Hid & Hreg & Hexp & _).
  eexists. split; [reflexivity |]. cbn. repeat split.
Defined.

(** ** Send tracking without a registration id *)

Lemma update_or_create_error :
  forall key template wa ev reg expires created maps e,
    update_or_create key template wa ev reg expires created maps = inl e ->
    (2 <= List.length (List.filter key maps))%nat
    /\ e = MultipleObjectsReturned (List.length (List.filter key maps)).
Proof.
  intros key template wa ev reg expires created maps e. unfold update_or_create.
  destruct (List.filter key maps) as [| obj [| obj' rest]]; try discriminate.
  intros H; inversion H. cbn. split; [lia | reflexivity].
Qed.

Lemma update_or_create_ok :
  forall key template wa ev reg expires created maps mid maps',
    update_or_create key template wa ev reg expires created maps = inr (mid, maps') ->
    (List.length (List.filter key maps) <= 1)%nat.
Proof.
  intros key template wa ev reg expires created maps mid maps' H.
  apply update_or_create_cases in H.
  destruct H as [(-> & _) | (obj & -> & _)]; cbn; lia.
Qed.

(** C9, as the code has it.  With [event_registration_id] omitted, a
    request that carries an identity and an event is answered "could not
    resolve registration" when the event has no registration.  Otherwise a
    registration of that event that no other is newer than is taken and the
    upsert is run for it.  When the storage does not fail and at most one
    stored row matches the lookup of the upsert, the request succeeds: the
    registrations are untouched and exactly one row then matches the lookup,
    the one returned, attached to that registration, with the identity, the
    event and an expiry of 30 days.  When the storage fails, or two or more
    stored rows match the lookup, the request is answered with the client
    error "track_send error: ..." and nothing is stored. *)
Theorem track_send_without_registration_id :
  forall env db request b,
    token_rejected env request = false ->
    body request = Some b ->
    truthy (event_registration_id b) = false ->
    nonempty (_norm_digits (or_empty (wa_id b))) = true ->
    truthy (event_id b) = true ->
    let wa := _norm_digits (or_empty (wa_id b)) in
    let ev := or_empty (event_id b) in
    let key := upsert_key (or_none (template_wamid b)) wa ev in
    let of_event :=
      List.filter (fun r => (er_event_id r =? ev)%string) (registrations db) in
    (of_event = [] ->
       track_send env db request
         = (Returns (HttpResponseBadRequest "could not resolve registration"), db))
    /\ (of_event <> [] ->
        exists er,
          In er of_event
          /\ (forall r, In r of_event -> er_created_at r <= er_created_at er)
          /\ (upsert_fault env = false ->
              (List.length (List.filter key (send_maps db)) <= 1)%nat ->
              exists mid db' m,
                track_send env db request = (Returns (JsonTrackSend mid), db')
                /\ registrations db' = registrations db
                /\ List.filter key (send_maps db') = [m]
                /\ m_id m = mid
                /\ m_event_registration m = er_id er
                /\ m_event_id m = ev
                /\ m_wa_id m = wa
                /\ m_expires_at m = now_upsert env + days_30)
          /\ (upsert_fault env = true
              \/ (2 <= List.length (List.filter key (send_maps db)))%nat ->
              exists e,
                track_send env db request
                  = (Returns (HttpResponseBadRequest
                                ("track_send error: " ++ exn_text e)), db))).
Proof.
  intros env db request b Htok Hbody Hreg Hwa Hev wa ev key of_event.
  unfold track_send. rewrite Htok, Hbody, Hwa, Hev, Hreg. cbn [negb orb].
  fold wa ev of_event. split.
  - intros ->. reflexivity.
  - intros Hne.
    destruct (newest_some er_created_at of_event Hne) as [er Hnew].
    rewrite Hnew. exists er.
    pose proof (newest_In _ _ _ Hnew) as Hin.
    split; [exact Hin |]. split; [exact (newest_most_recent _ _ _ Hnew) |].
    assert (Her : er_event_id er = ev).
    { apply filter_In in Hin. destruct Hin as [_ Hin].
      apply String.eqb_eq in Hin. exact Hin. }
    rewrite Her.
    destruct (upsert_fault env).
    { split; [discriminate |]. intros _. exists StorageError. reflexivity. }
    assert (Hcall :
      (match or_none (template_wamid b) with
       | Some t =>
           update_or_create (template_is t) (Some t) wa ev (er_id er)
             (now_upsert env + days_30) (now_auto env) (send_maps db)
       | None =>
           update_or_create (wa_event_is wa ev) None wa ev (er_id er)
             (now_upsert env + days_30) (now_auto env) (send_maps db)
       end)
      = update_or_create key (or_none (template_wamid b)) wa ev (er_id er)
          (now_upsert env + days_30) (now_auto env) (send_maps db)).
    { unfold key. destruct (or_none (template_wamid b)); reflexivity. }
    rewrite Hcall.
    destruct (update_or_create key (or_none (template_wamid b)) wa ev (er_id er)
                (now_upsert env + days_30) (now_auto env) (send_maps db))
      as [e | [mid maps']] eqn:Hu.
    + apply update_or_create_error in Hu. destruct Hu as [Hmany _].
      split; [intros _ Hone; lia |].
      intros _. exists e. reflexivity.
    + pose proof (update_or_create_ok _ _ _ _ _ _ _ _ _ _ Hu) as Hfew.
      split.
      * intros _ _. unfold key in Hu. apply update_or_create_row in Hu.
        destruct Hu as (m & Hone & Hid & Hmwa & Hmev & Hmreg & Hexp & _).
        exists mid, (mkDB (registrations db) maps'), m.
        repeat split; assumption.
      * intros [Hf | Hmany]; [discriminate | lia].
Qed.

Lemma track_send_without_registration_id_witness :
  track_send sample_env (mkDB [R3] [])
      (signed (sample_body (Some "15551234567") (Some "E1") None None None None))
    = (Returns (HttpResponseBadRequest "could not resolve registration"),
       mkDB [R3] [])
  /\ (exists mid db' m,
        track_send sample_env db_empty
          (signed (sample_body (Some "+1 (555) 123-4567") (Some "E1") None None
                               None None))
          = (Returns (JsonTrackSend mid), db')
        /\ send_maps db' = [m]
        /\ m_id m = mid
        /\ m_event_registration m = "R2"
        /\ m_event_id m = "E1"
        /\ m_wa_id m = "15551234567"
        /\ m_expires_at m = 1000 + days_30)
  /\ (exists e,
        track_send sample_env db_sent_twice
          (signed (sample_body (Some "15551234567") (Some "E1") None None
                               None None))
          = (Returns (HttpResponseBadRequest ("track_send error: " ++ exn_text e)),
             db_sent_twice)).
Proof.
  split; [| split].
  - apply (track_send_without_registration_id sample_env (mkDB [R3] [])
             (signed (sample_body (Some "15551234567") (Some "E1") None None
                                  None None))
             (sample_body (Some "15551234567") (Some "E1") None None None None)
             eq_refl eq_refl eq_refl eq_refl eq_refl).
    reflexivity.
  - destruct (track_send_without_registration_id sample_env db_empty
                (signed (sample_body (Some "+1 (555) 123-4567") (Some "E1") None None
                                     None None))
                (sample_body (Some "+1 (555) 123-4567") (Some "E1") None None
                             None None)
                eq_refl eq_refl eq_refl eq_refl eq_refl) as [_ Hsome].
    destruct Hsome as (er & Hin & Hmax & Hok & _); [discriminate |].
    assert (Her : er = R2).
    { destruct Hin as [<- | [<- | []]]; [| reflexivity].
      specialize (Hmax R2 (or_intror (or_introl eq_refl))). cbn in Hmax. lia. }
    subst er.
    destruct (Hok eq_refl) as (mid & db' & m & Hts & _ & Hone & Hid & Hreg & Hmev
                               & Hmwa & Hexp); [cbn; lia |].
    exists mid, db', m. repeat split; try assumption.
    vm_compute in Hts. inversion Hts; subst mid db'.
    vm_compute in Hone. exact Hone.
  - destruct (track_send_without_registration_id sample_env db_sent_twice
                (signed (sample_body (Some "15551234567") (Some "E1") None None
                                     None None))
                (sample_body (Some "15551234567") (Some "E1") None None None None)
                eq_refl eq_refl eq_refl eq_refl eq_refl) as [_ Hsome].
    destruct Hsome as (er & _ & _ & _ & Hfail); [discriminate |].
    apply Hfail. right. vm_compute. lia.
Defined.

(** C9, as stated, fails: the event E1 has registrations, the request
    omits [event_registration_id], and it is answered with a client error,
    because two stored rows match the lookup of the upsert.  The state is
    one two earlier [track_send] requests produce. *)
Lemma upsert_failure_is_a_client_error :
  reachable db_sent_twice
  /\ List.filter (fun r => (er_event_id r =? "E1")%string)
                 (registrations db_sent_twice) = [R1; R2]
  /\ exists r,
       track_send sample_env db_sent_twice
         (signed (sample_body (Some "15551234567") (Some "E1") None None None None))
       = (Returns r, db_sent_twice)
       /\ r = HttpResponseBadRequest
                "track_send error: get() returned more than one WaSendMap -- it returned 2!"
       /\ client_error (status_code r).
Proof.
  split; [exact db_sent_twice_reachable |].
  split; [reflexivity |].
  eexists. split; [reflexivity |]. split; [reflexivity |].
  unfold client_error; cbn; lia.
Qed.

(** ** Record, then resolve *)

Lemma truthy_or_empty :
  forall o, truthy o = true -> nonempty (or_empty o) = true.
Proof. intros [s |] H; [exact H | discriminate]. Qed.

Lemma truthy_or_none :
  forall o, truthy o = true -> or_none o = Some (or_empty o).
Proof.
  intros [s |] H; [| discriminate].
  unfold or_none. rewrite H. reflexivity.
Qed.

Lemma norm_digits_formatting :
  forall s1 s2,
    PyStr.filter isdigit s1 = PyStr.filter isdigit s2 ->
    _norm_digits s1 = _norm_digits s2.
Proof.
  intros s1 s2 H. unfold _norm_digits. rewrite H. reflexivity.
Qed.

Lemma filter_isdigit_app :
  forall s1 s2,
    PyStr.filter isdigit (s1 ++ s2)
      = (PyStr.filter isdigit s1 ++ PyStr.filter isdigit s2)%string.
Proof.
  induction s1 as [| c s1 IH]; intros s2; cbn; [reflexivity |].
  destruct (isdigit c); cbn; rewrite IH; reflexivity.
Qed.

(** Punctuation, spaces and a "+" anywhere in the identity do not change
    its normal form. *)
Lemma norm_digits_ignores_non_digit :
  forall s1 c s2,
    isdigit c = false ->
    _norm_digits (s1 ++ String c s2) = _norm_digits (s1 ++ s2).
Proof.
  intros s1 c s2 Hc. apply norm_digits_formatting.
  rewrite !filter_isdigit_app. cbn. rewrite Hc. reflexivity.
Qed.

(** Resolution right after a successful [track_send] without correlator. *)
Lemma resolve_after_track_send :
  forall env1 env2 db request1 b1 b2 mid db1 er,
    track_send env1 db request1 = (Returns (JsonTrackSend mid), db1) ->
    body request1 = Some b1 ->
    or_none (template_wamid b1) = None ->
    truthy (event_registration_id b1) = true ->
    get_registration db (or_empty (event_registration_id b1)) = Some er ->
    er_event_id er = or_empty (event_id b1) ->
    truthy (event_registration_id b2) = false ->
    or_none (template_wamid b2) = None ->
    event_id b2 = event_id b1 ->
    _norm_digits (or_empty (wa_id b2)) = _norm_digits (or_empty (wa_id b1)) ->
    now_filter env2 < now_upsert env1 + days_30 ->
    resolve_registration env2 db1 b2 = inr er
    /\ er_id er = or_empty (event_registration_id b1).
Proof.
  intros env1 env2 db request1 b1 b2 mid db1 er
         Hts Hbody Htmpl Hreg Hget Hevent Hreg2 Htmpl2 Hev2 Hnorm Hnow.
  apply track_send_success in Hts.
  destruct Hts as (b & er' & Hbody' & _ & Hwa & Hev & Hres & _ & Hregs & Hu).
  rewrite Hbody in Hbody'. inversion Hbody'; subst b. clear Hbody'.
  rewrite Hreg, Hget in Hres. inversion Hres; subst er'. clear Hres.
  rewrite Htmpl in Hu. apply update_or_create_row in Hu.
  destruct Hu as (m & Hone & _ & _ & _ & Hmreg & Hmexp & _).
  pose proof (get_registration_id _ _ _ Hget) as Hid.
  split; [| exact Hid].
  unfold resolve_registration. rewrite Hreg2.
  unfold resolve_by_mapping.
  rewrite Hnorm, Hwa, Htmpl2, Hev2, (truthy_or_none _ Hev). cbn [negb].
  unfold base_qs. rewrite filter_and.
  set (wa := _norm_digits (or_empty (wa_id b1))) in *.
  set (ev := or_empty (event_id b1)) in *.
  assert (Hcand :
    List.filter
      (fun x => (m_wa_id x =? wa)%string && (now_filter env2 <? m_expires_at x)
                && (m_event_id x =? ev)%string) (send_maps db1) = [m]).
  { rewrite (filter_ext _
               (fun x => upsert_key None wa (er_event_id er) x
                         && (now_filter env2 <? m_expires_at x))).
    - rewrite <- filter_and, Hone. cbn.
      rewrite Hmexp. apply Z.ltb_lt in Hnow. rewrite Hnow. reflexivity.
    - intros x. cbn. unfold wa_event_is. rewrite Hevent.
      destruct (m_wa_id x =? wa)%string; destruct (now_filter env2 <? m_expires_at x);
        destruct (m_event_id x =? ev)%string; reflexivity. }
  rewrite Hcand. cbn [newest registration_of].
  rewrite Hmreg, Hid, (truthy_or_empty _ Hreg).
  unfold get_registration. rewrite Hregs.
  unfold get_registration in Hget. rewrite Hget. reflexivity.
Qed.

Lemma track_send_succeeds :
  forall env db request b er,
    token_rejected env request = false ->
    body request = Some b ->
    nonempty (_norm_digits (or_empty (wa_id b))) = true ->
    truthy (event_id b) = true ->
    truthy (event_registration_id b) = true ->
    get_registration db (or_empty (event_registration_id b)) = Some er ->
    upsert_fault env = false ->
    (List.length
       (List.filter
          (upsert_key (or_none (template_wamid b))
                      (_norm_digits (or_empty (wa_id b))) (er_event_id er))
          (send_maps db)) <= 1)%nat ->
    exists mid db1,
      track_send env db request = (Returns (JsonTrackSend mid), db1).
Proof.
  intros env db request b er Htok Hbody Hwa Hev Hreg Hget Hfault Hone.
  unfold track_send.
  rewrite Htok, Hbody, Hwa, Hev, Hreg, Hget, Hfault. cbn [negb orb].
  destruct (or_none (template_wamid b)) as [t |]; cbn [upsert_key] in Hone;
    unfold update_or_create;
    match goal with
    | |- context [List.filter ?k ?m] =>
        destruct (List.filter k m) as [| x [| y rest]]
    end; cbn in Hone; try lia; eauto.
Qed.

(** C2, as the code has it.  For an identity, an event and a stored
    registration of that event, a [track_send] without correlator returns a
    mapping whenever the storage does not fail and at most one stored row
    already carries that identity and event.  Whenever it returns one, the
    mapping carries the digits of the identity, the last 15 of them at
    most, and resolving by any identity with the same digits (whatever its
    punctuation, spaces or "+") and the same event, before the 30 days have
    passed, gives that registration. *)
Theorem record_send_then_resolve :
  forall env1 env2 db request1 b1 b2 er,
    token_rejected env1 request1 = false ->
    body request1 = Some b1 ->
    nonempty (_norm_digits (or_empty (wa_id b1))) = true ->
    truthy (event_id b1) = true ->
    or_none (template_wamid b1) = None ->
    truthy (event_registration_id b1) = true ->
    get_registration db (or_empty (event_registration_id b1)) = Some er ->
    er_event_id er = or_empty (event_id b1) ->
    truthy (event_registration_id b2) = false ->
    or_none (template_wamid b2) = None ->
    event_id b2 = event_id b1 ->
    PyStr.filter isdigit (or_empty (wa_id b2))
      = PyStr.filter isdigit (or_empty (wa_id b1)) ->
    now_filter env2 < now_upsert env1 + days_30 ->
    (upsert_fault env1 = false ->
     (List.length
        (List.filter
           (wa_event_is (_norm_digits (or_empty (wa_id b1))) (er_event_id er))
           (send_maps db)) <= 1)%nat ->
     exists mid db1,
       track_send env1 db request1 = (Returns (JsonTrackSend mid), db1))
    /\ (forall mid db1,
          track_send env1 db request1 = (Returns (JsonTrackSend mid), db1) ->
          resolve_registration env2 db1 b2 = inr er
          /\ er_id er = or_empty (event_registration_id b1)
          /\ exists m,
               In m (send_maps db1)
               /\ m_id m = mid
               /\ m_wa_id m
                  = last_chars 15 (PyStr.filter isdigit (or_empty (wa_id b1)))
               /\ m_wa_id m
                  = last_chars 15 (PyStr.filter isdigit (or_empty (wa_id b2)))
               /\ m_event_id m = or_empty (event_id b1)
               /\ m_event_registration m = er_id er).
Proof.
  intros env1 env2 db request1 b1 b2 er
         Htok Hbody Hwa Hev Htmpl Hreg Hget Hevent Hreg2 Htmpl2 Hev2 Hdigits Hnow.
  split.
  - intros Hfault Hone.
    apply (track_send_succeeds env1 db request1 b1 er); try assumption.
    rewrite Htmpl. exact Hone.
  - intros mid db1 Hts.
    destruct (resolve_after_track_send env1 env2 db request1 b1 b2 mid db1 er)
      as [Hres Hid]; try assumption.
    { apply norm_digits_formatting. exact Hdigits. }
    split; [exact Hres |]. split; [exact Hid |].
    apply track_send_success in Hts.
    destruct Hts as (b & er' & Hbody' & _ & _ & _ & Hres' & _ & _ & Hu).
    rewrite Hbody in Hbody'. inversion Hbody'; subst b. clear Hbody'.
    rewrite Hreg, Hget in Hres'. inversion Hres'; subst er'. clear Hres'.
    apply update_or_create_row in Hu.
    destruct Hu as (m & Hone & Hmid & Hmwa & Hmev & Hmreg & _).
    exists m.
    assert (Hin : In m (List.filter
                          (upsert_key (or_none (template_wamid b1))
                                      (_norm_digits (or_empty (wa_id b1)))
                                      (er_event_id er)) (send_maps db1)))
      by (rewrite Hone; left; reflexivity).
    apply filter_In in Hin. destruct Hin as [Hin _].
    split; [exact Hin |]. split; [exact Hmid |].
    split; [exact Hmwa |].
    split; [rewrite Hdigits; exact Hmwa |].
    split; [congruence | exact Hmreg].
Qed.

Lemma record_send_then_resolve_witness :
  track_send sample_env db_empty
      (signed (sample_body (Some "15551234567") (Some "E1") (Some "R1")
                           None None None))
    = (Returns (JsonTrackSend 1), db_sent)
  /\ resolve_registration sample_env db_sent
       (sample_body (Some "+1 (555) 123-4567") (Some "E1") None None (Some "yes") None)
     = inr R1
  /\ er_id R1 = "R1"
  /\ exists m, In m (send_maps db_sent) /\ m_wa_id m = "15551234567".
Proof.
  destruct (record_send_then_resolve sample_env sample_env db_empty
              (signed (sample_body (Some "15551234567") (Some "E1") (Some "R1")
                                   None None None))
              (sample_body (Some "15551234567") (Some "E1") (Some "R1") None None None)
              (sample_body (Some "+1 (555) 123-4567") (Some "E1") None None
                           (Some "yes") None)
              R1 eq_refl eq_refl eq_refl eq_refl eq_refl eq_refl eq_refl eq_refl
              eq_refl eq_refl eq_refl eq_refl eq_refl) as [_ Hresolve].
  split; [reflexivity |].
  destruct (Hresolve 1%N db_sent eq_refl)
    as (Hres & Hid & m & Hin & _ & Hwa1 & _).
  split; [exact Hres |]. split; [exact Hid |].
  exists m. split; [exact Hin | exact Hwa1].
Defined.

(** C2, as stated, fails: R2 is a stored registration of E1, so the triple
    (15551234567, E1, R2) is valid; in a state that two earlier
    [track_send] requests produce, two rows carry that identity and event,
    the send is refused with a client error and nothing is recorded, and the
    resolution that follows gives R1. *)
Lemma record_send_refused_on_two_rows :
  reachable db_sent_twice
  /\ get_registration db_sent_twice "R2" = Some R2
  /\ er_event_id R2 = "E1"
  /\ track_send sample_env db_sent_twice
       (signed (sample_body (Some "15551234567") (Some "E1") (Some "R2")
                            None None None))
     = (Returns (HttpResponseBadRequest
                   "track_send error: get() returned more than one WaSendMap -- it returned 2!"),
        db_sent_twice)
  /\ resolve_registration sample_env db_sent_twice
       (sample_body (Some "15551234567") (Some "E1") None None (Some "yes") None)
     = inr R1
  /\ er_id R1 <> er_id R2.
Proof.
  split; [exact db_sent_twice_reachable |].
  repeat split. discriminate.
Qed.

(** ** Resolution through the mappings *)

Lemma first_In :
  forall {A : Type} (qs : list A) (x : A), first qs = Some x -> In x qs.
Proof.
  intros A [| a qs] x H; cbn in H; [discriminate |].
  inversion H. left. reflexivity.
Qed.

Lemma base_qs_In :
  forall now wa maps m,
    In m (base_qs now wa maps) <->
    In m maps /\ m_wa_id m = wa /\ now < m_expires_at m.
Proof.
  intros now wa maps m. unfold base_qs. rewrite filter_In, andb_true_iff.
  rewrite String.eqb_eq, Z.ltb_lt. tauto.
Qed.

Lemma registration_of_wf :
  forall db c,
    db_wf db -> In c (send_maps db) ->
    exists er,
      registration_of db (Some c) = inr (Some er)
      /\ er_id er = m_event_registration c.
Proof.
  intros db c [Hids Hfk] Hc.
  destruct (Hfk c Hc) as (er0 & Hin & Hid).
  pose proof (Hids er0 Hin) as Hne. rewrite Hid in Hne.
  destruct (find_present (fun er => (er_id er =? m_event_registration c)%string)
              (registrations db) er0 Hin) as [er Hfind].
  { rewrite Hid. apply String.eqb_refl. }
  exists er. cbn. rewrite Hne.
  unfold get_registration. rewrite Hfind.
  split; [reflexivity |].
  apply find_some in Hfind. destruct Hfind as [_ Hfind].
  apply String.eqb_eq in Hfind. exact Hfind.
Qed.

Lemma chosen_mapping_In :
  forall candidates correlator event c,
    chosen_mapping candidates correlator event = Some c -> In c candidates.
Proof.
  intros candidates correlator event c. unfold chosen_mapping.
  destruct correlator as [t |].
  - destruct (first (List.filter (template_is t) candidates)) as [c1 |] eqn:H1.
    + intros H; inversion H; subst.
      apply first_In in H1. apply filter_In in H1. tauto.
    + destruct event as [ev |].
      * destruct (newest m_created_at _) as [c2 |] eqn:H2.
        -- intros H; inversion H; subst.
           apply newest_In in H2. apply filter_In in H2. tauto.
        -- apply newest_In.
      * apply newest_In.
  - destruct event as [ev |].
    + destruct (newest m_created_at _) as [c2 |] eqn:H2.
      * intros H; inversion H; subst.
        apply newest_In in H2. apply filter_In in H2. tauto.
      * apply newest_In.
    + apply newest_In.
Qed.

(** With referential integrity, [resolve_by_mapping] answers with the
    registration of the chosen mapping, or "no mapping" when none is
    chosen. *)
Lemma resolve_by_mapping_chosen :
  forall env db b,
    db_wf db ->
    nonempty (_norm_digits (or_empty (wa_id b))) = true ->
    match chosen_mapping
            (base_qs (now_filter env) (_norm_digits (or_empty (wa_id b)))
                     (send_maps db))
            (or_none (template_wamid b)) (or_none (event_id b)) with
    | Some c =>
        exists er, resolve_by_mapping env db b = inr er
                   /\ er_id er = m_event_registration c
    | None =>
        resolve_by_mapping env db b
          = inl (Returns (HttpResponseBadRequest "no mapping found for wa_id"))
    end.
Proof.
  intros env db b Hwf Hwa.
  destruct (chosen_mapping _ _ _) as [c |] eqn:Hc.
  - pose proof (chosen_mapping_In _ _ _ _ Hc) as Hin.
    apply base_qs_In in Hin. destruct Hin as [Hin _].
    destruct (registration_of_wf db c Hwf Hin) as (er & Her & Hid).
    exists er. split; [| exact Hid].
    revert Hc. unfold chosen_mapping, resolve_by_mapping. rewrite Hwa. cbn [negb].
    set (base := base_qs _ _ _).
    destruct (or_none (template_wamid b)) as [t |].
    + destruct (first (List.filter (template_is t) base)) as [c1 |].
      * intros H; inversion H; subst c1. rewrite Her.
        destruct (or_none (event_id b)); reflexivity.
      * cbn [registration_of].
        destruct (or_none (event_id b)) as [ev |].
        -- destruct (newest m_created_at (List.filter _ base)) as [c2 |].
           ++ intros H; inversion H; subst c2. rewrite Her. reflexivity.
           ++ cbn [registration_of]. intros ->. rewrite Her. reflexivity.
        -- intros ->. rewrite Her. reflexivity.
    + destruct (or_none (event_id b)) as [ev |].
      * destruct (newest m_created_at (List.filter _ base)) as [c2 |].
        -- intros H; inversion H; subst c2. rewrite Her. reflexivity.
        -- cbn [registration_of]. intros ->. rewrite Her. reflexivity.
      * intros ->. rewrite Her. reflexivity.
  - revert Hc. unfold chosen_mapping, resolve_by_mapping. rewrite Hwa. cbn [negb].
    set (base := base_qs _ _ _).
    destruct (or_none (template_wamid b)) as [t |].
    + destruct (first (List.filter (template_is t) base)) as [c1 |]; [discriminate |].
      cbn [registration_of].
      destruct (or_none (event_id b)) as [ev |].
      * destruct (newest m_created_at (List.filter _ base)) as [c2 |]; [discriminate |].
        cbn [registration_of]. intros ->. reflexivity.
      * intros ->. reflexivity.
    + destruct (or_none (event_id b)) as [ev |].
      * destruct (newest m_created_at (List.filter _ base)) as [c2 |]; [discriminate |].
        cbn [registration_of]. intros ->. reflexivity.
      * intros ->. reflexivity.
Qed.

(** With at most one candidate per correlator, the chosen mapping is the
    one the specification names. *)
Lemma spec_resolve_chosen :
  forall candidates correlator event,
    (forall t, at_most_one (template_is t) candidates) ->
    spec_resolve candidates correlator event
      = option_map m_event_registration (chosen_mapping candidates correlator event).
Proof.
  intros candidates correlator event Hone.
  unfold spec_resolve, chosen_mapping.
  destruct correlator as [t |].
  - specialize (Hone t). unfold at_most_one in Hone.
    destruct (List.filter (template_is t) candidates) as [| c [| c' rest]];
      cbn in Hone; [| | lia]; cbn [first hd_error].
    + destruct event as [ev |].
      * destruct (newest m_created_at (List.filter _ candidates)); [reflexivity |].
        destruct (newest m_created_at candidates); reflexivity.
      * destruct (newest m_created_at candidates); reflexivity.
    + reflexivity.
  - destruct event as [ev |].
    + destruct (newest m_created_at (List.filter _ candidates)); [reflexivity |].
      destruct (newest m_created_at candidates); reflexivity.
    + destruct (newest m_created_at candidates); reflexivity.
Qed.

Lemma resolve_registration_chosen :
  forall env db b c,
    db_wf db ->
    truthy (event_registration_id b) = false ->
    nonempty (_norm_digits (or_empty (wa_id b))) = true ->
    chosen_mapping
      (base_qs (now_filter env) (_norm_digits (or_empty (wa_id b))) (send_maps db))
      (or_none (template_wamid b)) (or_none (event_id b)) = Some c ->
    exists er, resolve_registration env db b = inr er
               /\ er_id er = m_event_registration c.
Proof.
  intros env db b c Hwf Hreg Hwa Hc.
  pose proof (resolve_by_mapping_chosen env db b Hwf Hwa) as H.
  rewrite Hc in H. unfold resolve_registration. rewrite Hreg. exact H.
Qed.

(** C1. For a request without [event_registration_id] whose identity
    normalizes to a non-empty string, the candidates are the stored
    mappings of that identity whose expiry is strictly after the time of
    the query.  If exactly one candidate carries the given correlator, its
    registration is resolved (and whenever some candidate carries it, a
    correlator match is what is resolved).  If no correlator is given or no
    candidate carries it, and an event is given for which candidates exist,
    the registration of a candidate of that event that none is newer than is
    resolved.  If neither yields a mapping, the registration of a candidate
    that none is newer than is resolved.  With at most one candidate per
    correlator, as the data model promises, this is the resolver of the
    specification. *)
Theorem rsvp_resolution_priority :
  forall env db b,
    db_wf db ->
    truthy (event_registration_id b) = false ->
    nonempty (_norm_digits (or_empty (wa_id b))) = true ->
    let wa := _norm_digits (or_empty (wa_id b)) in
    let candidates := base_qs (now_filter env) wa (send_maps db) in
    let by_correlator :=
      match or_none (template_wamid b) with
      | Some t => List.filter (template_is t) candidates
      | None => []
      end in
    let by_event :=
      match or_none (event_id b) with
      | Some ev => List.filter (fun m => (m_event_id m =? ev)%string) candidates
      | None => []
      end in
    (forall m, In m candidates <->
               In m (send_maps db) /\ m_wa_id m = wa /\ now_filter env < m_expires_at m)
    /\ (forall c, by_correlator = [c] ->
          exists er, resolve_registration env db b = inr er
                     /\ er_id er = m_event_registration c)
    /\ (by_correlator <> [] ->
          exists c er, In c by_correlator
                       /\ resolve_registration env db b = inr er
                       /\ er_id er = m_event_registration c)
    /\ (by_correlator = [] -> by_event <> [] ->
          exists c er, In c by_event
                       /\ (forall c', In c' by_event -> m_created_at c' <= m_created_at c)
                       /\ resolve_registration env db b = inr er
                       /\ er_id er = m_event_registration c)
    /\ (by_correlator = [] -> by_event = [] -> candidates <> [] ->
          exists c er, In c candidates
                       /\ (forall c', In c' candidates -> m_created_at c' <= m_created_at c)
                       /\ resolve_registration env db b = inr er
                       /\ er_id er = m_event_registration c)
    /\ ((forall t, at_most_one (template_is t) candidates) ->
        match spec_resolve candidates (or_none (template_wamid b))
                           (or_none (event_id b)) with
        | Some rid =>
            exists er, resolve_registration env db b = inr er /\ er_id er = rid
        | None =>
            resolve_registration env db b
              = inl (Returns (HttpResponseBadRequest "no mapping found for wa_id"))
        end).
Proof.
  intros env db b Hwf Hreg Hwa wa candidates by_correlator by_event.
  assert (Hchosen : forall c,
            chosen_mapping candidates (or_none (template_wamid b))
                           (or_none (event_id b)) = Some c ->
            exists er, resolve_registration env db b = inr er
                       /\ er_id er = m_event_registration c).
  { intros c. apply resolve_registration_chosen; assumption. }
  assert (Hfirst : by_correlator = [] ->
            match or_none (template_wamid b) with
            | Some t => first (List.filter (template_is t) candidates)
            | None => None
            end = None).
  { subst by_correlator. destruct (or_none (template_wamid b)); [| reflexivity].
    intros ->. reflexivity. }
  split; [apply base_qs_In |].
  split; [| split; [| split; [| split]]].
  - intros c Hc. apply Hchosen. unfold chosen_mapping.
    subst by_correlator. destruct (or_none (template_wamid b)); [| discriminate].
    rewrite Hc. reflexivity.
  - intros Hne. subst by_correlator.
    destruct (or_none (template_wamid b)) as [t |] eqn:Ht; [| congruence].
    destruct (List.filter (template_is t) candidates) as [| c rest] eqn:Hf;
      [congruence |].
    destruct (Hchosen c) as (er & Her & Hid).
    { unfold chosen_mapping. rewrite ?Ht, Hf. reflexivity. }
    exists c, er. split; [left; reflexivity | auto].
  - intros Hnone Hne. subst by_event.
    destruct (or_none (event_id b)) as [ev |] eqn:Hev; [| congruence].
    destruct (newest_some m_created_at _ Hne) as [c Hc].
    destruct (Hchosen c) as (er & Her & Hid).
    { unfold chosen_mapping. rewrite (Hfirst Hnone), Hc. reflexivity. }
    exists c, er.
    split; [exact (newest_In _ _ _ Hc) |].
    split; [exact (newest_most_recent _ _ _ Hc) | auto].
  - intros Hnone Hnoev Hne.
    destruct (newest_some m_created_at candidates Hne) as [c Hc].
    destruct (Hchosen c) as (er & Her & Hid).
    { unfold chosen_mapping. rewrite (Hfirst Hnone).
      subst by_event. destruct (or_none (event_id b)) as [ev |].
      - rewrite Hnoev. cbn [newest]. exact Hc.
      - exact Hc. }
    exists c, er.
    split; [exact (newest_In _ _ _ Hc) |].
    split; [exact (newest_most_recent _ _ _ Hc) | auto].
  - intros Hone. rewrite (spec_resolve_chosen _ _ _ Hone).
    pose proof (resolve_by_mapping_chosen env db b Hwf Hwa) as H.
    fold wa candidates in H.
    unfold resolve_registration. rewrite Hreg.
    destruct (chosen_mapping candidates _ _) as [c |]; cbn [option_map]; exact H.
Qed.

Lemma db_campaigns_wf : db_wf db_campaigns.
Proof.
  split.
  - exact sample_regs_nonempty.
  - intros m Hm. vm_compute in Hm.
    destruct Hm as [<- | [<- | []]].
    + exists R1. split; [left; reflexivity | reflexivity].
    + exists R3. split; [right; right; left; reflexivity | reflexivity].
Qed.

Lemma rsvp_resolution_priority_witness :
  (exists er,
     resolve_registration sample_env db_campaigns
       (sample_body (Some "+1 (555) 123-4567") (Some "E1") None (Some "T9")
                    (Some "yes") None) = inr er
     /\ er_id er = "R3")
  /\ (exists c er,
        m_event_id c = "E1"
        /\ resolve_registration sample_env db_campaigns
             (sample_body (Some "+1 (555) 123-4567") (Some "E1") None None
                          (Some "yes") None) = inr er
        /\ er_id er = m_event_registration c)
  /\ (exists er,
        resolve_registration sample_env db_campaigns
          (sample_body (Some "+1 (555) 123-4567") None None None
                       (Some "yes") None) = inr er
        /\ er_id er = "R3").
Proof.
  split; [| split].
  - destruct (rsvp_resolution_priority sample_env db_campaigns
                (sample_body (Some "+1 (555) 123-4567") (Some "E1") None (Some "T9")
                             (Some "yes") None)
                db_campaigns_wf eq_refl eq_refl) as (_ & Hp1 & _).
    apply (Hp1 (mkSendMap 2 "15551234567" "E2" "R3" (Some "T9") 2000
                          (2000 + days_30) None)).
    reflexivity.
  - destruct (rsvp_resolution_priority sample_env db_campaigns
                (sample_body (Some "+1 (555) 123-4567") (Some "E1") None None
                             (Some "yes") None)
                db_campaigns_wf eq_refl eq_refl) as (_ & _ & _ & Hp2 & _).
    destruct (Hp2 eq_refl) as (c & er & Hin & _ & Hres & Hid); [discriminate |].
    exists c, er. split; [| split; assumption].
    apply filter_In in Hin. destruct Hin as [_ Hin].
    apply String.eqb_eq in Hin. exact Hin.
  - destruct (rsvp_resolution_priority sample_env db_campaigns
                (sample_body (Some "+1 (555) 123-4567") None None None
                             (Some "yes") None)
                db_campaigns_wf eq_refl eq_refl) as (_ & _ & _ & _ & _ & Hspec).
    apply Hspec. intros t. unfold at_most_one.
    vm_compute List.filter.
    destruct (match t with EmptyString => false | String _ _ => _ end); cbn; lia.
Defined.

(** ** Referential integrity of the reachable states *)

Lemma save_rsvp_ids :
  forall er regs,
    List.map er_id (save_rsvp er regs) = List.map er_id regs.
Proof.
  intros er regs. unfold save_rsvp. rewrite map_map. apply map_ext.
  intros r. destruct (er_id r =? er_id er)%string; [| reflexivity].
  destruct (er_responded_on er); reflexivity.
Qed.

Lemma db_wf_ids :
  forall regs regs' maps,
    List.map er_id regs' = List.map er_id regs ->
    db_wf (mkDB regs maps) -> db_wf (mkDB regs' maps).
Proof.
  intros regs regs' maps Hids [Hne Hfk]. cbn in *. split; cbn.
  - intros er Hin. apply (in_map er_id) in Hin. rewrite Hids in Hin.
    apply in_map_iff in Hin. destruct Hin as (er0 & <- & Hin0). auto.
  - intros m Hm. destruct (Hfk m Hm) as (er0 & Hin0 & Hid).
    apply (in_map er_id) in Hin0. rewrite <- Hids in Hin0.
    apply in_map_iff in Hin0. destruct Hin0 as (er & Heq & Hin).
    exists er. split; [exact Hin | congruence].
Qed.

Lemma db_wf_maps :
  forall regs maps maps',
    (forall m', In m' maps' ->
       In m' maps
       \/ exists er, In er regs /\ er_id er = m_event_registration m') ->
    db_wf (mkDB regs maps) -> db_wf (mkDB regs maps').
Proof.
  intros regs maps maps' Hsub [Hne Hfk]. cbn in *. split; cbn; [exact Hne |].
  intros m' Hm'. destruct (Hsub m' Hm') as [Hold | Hnew]; auto.
Qed.

Lemma db_wf_track_send :
  forall env db request, db_wf db -> db_wf (snd (track_send env db request)).
Proof.
  intros env db request Hwf.
  destruct (track_send_changes env db request) as [-> | [mid Hok]]; [exact Hwf |].
  destruct (track_send env db request) as [out db'] eqn:Hts.
  cbn in Hok. subst out. cbn [snd].
  apply track_send_success in Hts.
  destruct Hts as (b & er & _ & _ & _ & _ & Hres & _ & Hregs & Hu).
  assert (Her : In er (registrations db)).
  { destruct (truthy (event_registration_id b)).
    - exact (get_registration_In _ _ _ Hres).
    - apply newest_In in Hres. apply filter_In in Hres. tauto. }
  destruct db as [regs maps]. destruct db' as [regs' maps'].
  cbn [registrations send_maps] in *. subst regs'.
  apply (db_wf_maps regs maps maps'); [| exact Hwf].
  apply update_or_create_cases in Hu.
  destruct Hu as [(_ & _ & ->) | (obj & _ & _ & ->)]; intros m' Hm'.
  - apply in_app_or in Hm'. destruct Hm' as [Hm' | [<- | []]]; [left; exact Hm' |].
    right. exists er. auto.
  - apply in_map_iff in Hm'. destruct Hm' as (m & <- & Hm).
    destruct (upsert_key _ _ _ m); [| left; exact Hm].
    right. exists er. auto.
Qed.

Lemma db_wf_mark_consumed :
  forall env er b regs maps,
    db_wf (mkDB regs maps) -> db_wf (mkDB regs (mark_consumed env er b maps)).
Proof.
  intros env er b regs maps Hwf.
  apply (db_wf_maps regs maps); [| exact Hwf].
  intros m' Hm'. unfold mark_consumed in Hm'.
  destruct (consume_fault env); [left; exact Hm' |].
  apply in_map_iff in Hm'. destruct Hm' as (m & <- & Hm).
  destruct (consumed_qs er b m); [| left; exact Hm].
  right. destruct Hwf as [_ Hfk]. exact (Hfk m Hm).
Qed.

Lemma db_wf_whatsapp_rsvp :
  forall parse env db request,
    db_wf db -> db_wf (snd (fst (whatsapp_rsvp parse env db request))).
Proof.
  intros parse env db request Hwf. unfold whatsapp_rsvp.
  destruct (token_rejected env request); [exact Hwf |].
  destruct (body request) as [b |]; [| exact Hwf].
  destruct (negb _); [exact Hwf |].
  destruct (responded_on_of parse env b) as [e | d]; [exact Hwf |].
  destruct (resolve_registration env db b) as [out | er0]; [exact Hwf |].
  destruct (save_fault env); [exact Hwf |].
  destruct db as [regs maps]. cbn [registrations send_maps].
  assert (Hsaved : db_wf (mkDB (save_rsvp (set_rsvp (normalized_status b) d er0) regs)
                               maps)).
  { apply (db_wf_ids regs); [apply save_rsvp_ids | exact Hwf]. }
  destruct (publish_fault env); [exact Hsaved |].
  cbn [snd fst]. apply db_wf_mark_consumed. exact Hsaved.
Qed.

Lemma reachable_db_wf : forall db, reachable db -> db_wf db.
Proof.
  intros db H. induction H.
  - split; cbn; [assumption | contradiction].
  - destruct IHreachable as [Hne Hfk]. split; cbn.
    + intros er' Hin. apply in_app_or in Hin.
      destruct Hin as [Hin | [<- | []]]; auto.
    + intros m Hm. destruct (Hfk m Hm) as (er' & Hin & Hid).
      exists er'. split; [apply in_or_app; left; exact Hin | exact Hid].
  - apply db_wf_track_send. exact IHreachable.
  - apply db_wf_whatsapp_rsvp. exact IHreachable.
Qed.

(** In a reachable state the candidates of any identity carry each
    correlator at most once. *)
Lemma reachable_candidates_one_per_correlator :
  forall db now wa t,
    reachable db ->
    at_most_one (template_is t) (base_qs now wa (send_maps db)).
Proof.
  intros db now wa t H.
  destruct (reachable_key_invariant db H) as [_ Hcorr].
  unfold at_most_one, base_qs. rewrite filter_and.
  etransitivity; [| apply (Hcorr t)].
  apply filter_length_le. intros x Hx. apply andb_true_iff in Hx. tauto.
Qed.

(** In a reachable state the resolution through the mappings is the
    resolver of the specification, without further assumption. *)
Lemma reachable_resolution_is_spec :
  forall env db b,
    reachable db ->
    nonempty (_norm_digits (or_empty (wa_id b))) = true ->
    match spec_resolve
            (base_qs (now_filter env) (_norm_digits (or_empty (wa_id b)))
                     (send_maps db))
            (or_none (template_wamid b)) (or_none (event_id b)) with
    | Some rid =>
        exists er, resolve_by_mapping env db b = inr er /\ er_id er = rid
    | None =>
        resolve_by_mapping env db b
          = inl (Returns (HttpResponseBadRequest "no mapping found for wa_id"))
    end.
Proof.
  intros env db b Hreach Hwa.
  rewrite spec_resolve_chosen
    by (intros t; apply reachable_candidates_one_per_correlator; exact Hreach).
  pose proof (resolve_by_mapping_chosen env db b (reachable_db_wf db Hreach) Hwa) as H.
  destruct (chosen_mapping _ _ _) as [c |]; cbn [option_map]; exact H.
Qed.

(** * Further properties of the code *)

(** ** Identity normalization *)

Lemma drop_zero : forall s, PyStr.drop 0 s = s.
Proof. intros [| c s]; reflexivity. Qed.

Lemma drop_length :
  forall n s, String.length (PyStr.drop n s) = (String.length s - n)%nat.
Proof.
  induction n as [| n IH]; intros s.
  - rewrite drop_zero. lia.
  - destruct s as [| c s]; cbn; [reflexivity | apply IH].
Qed.

Lemma forallb_drop :
  forall p n s, PyStr.forallb p s = true -> PyStr.forallb p (PyStr.drop n s) = true.
Proof.
  intros p. induction n as [| n IH]; intros s H.
  - rewrite drop_zero. exact H.
  - destruct s as [| c s]; cbn in *; [reflexivity |].
    apply andb_true_iff in H. apply IH. tauto.
Qed.

Lemma forallb_filter :
  forall p s, PyStr.forallb p (PyStr.filter p s) = true.
Proof.
  intros p. induction s as [| c s IH]; cbn; [reflexivity |].
  destruct (p c) eqn:Hc; cbn; [rewrite Hc |]; exact IH.
Qed.

Lemma filter_all :
  forall p s, PyStr.forallb p s = true -> PyStr.filter p s = s.
Proof.
  intros p. induction s as [| c s IH]; cbn; [reflexivity |].
  intros H. apply andb_true_iff in H. destruct H as [Hc Hs].
  rewrite Hc, (IH Hs). reflexivity.
Qed.

Lemma append_length :
  forall a b, String.length (a ++ b) = (String.length a + String.length b)%nat.
Proof.
  induction a as [| c a IH]; intros b; cbn; [reflexivity | rewrite IH; reflexivity].
Qed.

Lemma drop_append :
  forall a b k, PyStr.drop (String.length a + k) (a ++ b) = PyStr.drop k b.
Proof.
  induction a as [| c a IH]; intros b k; cbn; [reflexivity | apply IH].
Qed.

Lemma norm_digits_all_digits :
  forall s, PyStr.forallb isdigit (_norm_digits s) = true.
Proof.
  intros s. unfold _norm_digits, last_chars.
  apply forallb_drop. apply forallb_filter.
Qed.

Lemma norm_digits_length :
  forall s, (String.length (_norm_digits s) <= 15)%nat.
Proof.
  intros s. unfold _norm_digits, last_chars. rewrite drop_length. lia.
Qed.

(** X1. The normalized identity consists of digit characters only and has
    at most 15 of them. *)
Theorem norm_digits_shape :
  forall s,
    PyStr.forallb isdigit (_norm_digits s) = true
    /\ (String.length (_norm_digits s) <= 15)%nat.
Proof.
  intros s. split.
  - apply norm_digits_all_digits.
  - apply norm_digits_length.
Qed.

(** X2. Normalizing is idempotent: a stored identity is its own normal
    form, so looking it up by its stored value finds it. *)
Theorem norm_digits_idempotent :
  forall s, _norm_digits (_norm_digits s) = _norm_digits s.
Proof.
  intros s.
  pose proof (norm_digits_all_digits s) as Hd.
  pose proof (norm_digits_length s) as Hl.
  unfold _norm_digits at 1. rewrite (filter_all _ _ Hd).
  unfold last_chars.
  replace (String.length (_norm_digits s) - 15)%nat with 0%nat by lia.
  apply drop_zero.
Qed.

(** X3. Only the last 15 digits count: when an identity has 15 digits or
    more, whatever is put in front of it does not change its normal form. *)
Theorem norm_digits_keeps_last_15 :
  forall prefix s,
    (15 <= String.length (PyStr.filter isdigit s))%nat ->
    _norm_digits (prefix ++ s) = _norm_digits s.
Proof.
  intros prefix s H. unfold _norm_digits, last_chars.
  rewrite filter_isdigit_app, append_length.
  replace (String.length (PyStr.filter isdigit prefix)
           + String.length (PyStr.filter isdigit s) - 15)%nat
    with (String.length (PyStr.filter isdigit prefix)
          + (String.length (PyStr.filter isdigit s) - 15))%nat by lia.
  apply drop_append.
Qed.

Lemma norm_digits_keeps_last_15_witness :
  _norm_digits ("0091" ++ "123456789012345") = _norm_digits "123456789012345".
Proof.
  apply (norm_digits_keeps_last_15 "0091" "123456789012345").
  vm_compute. lia.
Defined.

(** ** The shared secret *)

Lemma lstrip_all_space :
  forall s, PyStr.forallb isspace s = true -> lstrip s = "".
Proof.
  induction s as [| c s IH]; cbn; [reflexivity |].
  intros H. apply andb_true_iff in H. destruct H as [Hc Hs].
  rewrite Hc. exact (IH Hs).
Qed.

(** X4. A configured secret made of whitespace only is treated like an
    empty one: both webhooks answer every request with the forbidden
    response and leave the stored data untouched. *)
Theorem blank_secret_rejects_every_request :
  forall parse env db request secret,
    secret_env env = Some secret ->
    PyStr.forallb isspace secret = true ->
    track_send env db request
      = (Returns (HttpResponseForbidden "invalid token"), db)
    /\ whatsapp_rsvp parse env db request
      = (Returns (HttpResponseForbidden "invalid token"), db, []).
Proof.
  intros parse env db request secret Hsecret Hblank.
  assert (Hrej : token_rejected env request = true).
  { unfold token_rejected, _get_secret, strip. rewrite Hsecret.
    rewrite (lstrip_all_space _ Hblank). reflexivity. }
  unfold track_send, whatsapp_rsvp. rewrite Hrej. split; reflexivity.
Qed.

Lemma blank_secret_rejects_every_request_witness :
  let env := mkEnv (Some "   ") 0 0 0 0 0 false false false false in
  let request :=
    mkRequest (Some "   ") None
      (Some (sample_body (Some "15551234567") (Some "E1") (Some "R1") None
                         (Some "yes") None)) in
  track_send env db_empty request
    = (Returns (HttpResponseForbidden "invalid token"), db_empty)
  /\ whatsapp_rsvp sample_parse env db_empty request
    = (Returns (HttpResponseForbidden "invalid token"), db_empty, []).
Proof.
  intros env request.
  apply (blank_secret_rejects_every_request sample_parse env db_empty request "   ");
    reflexivity.
Defined.

(** ** What [track_send] writes *)

Lemma firstn_app_exact :
  forall {A : Type} (l extra : list A),
    firstn (List.length l) (l ++ extra)%list = l.
Proof.
  intros A l extra. induction l as [| a l IH]; cbn.
  - reflexivity.
  - rewrite IH. reflexivity.
Qed.

Lemma Forall2_map_right :
  forall {A : Type} (R : A -> A -> Prop) (g : A -> A) (l : list A),
    (forall x, In x l -> R x (g x)) -> Forall2 R l (List.map g l).
Proof.
  intros A R g l. induction l as [| a l IH]; intros H; cbn; constructor.
  - apply H. left. reflexivity.
  - apply IH. intros x Hx. apply H. right. exact Hx.
Qed.

(** X5. [track_send] never touches the registrations; unless it answers
    200 it leaves the mappings as they were, and when it answers 200 the
    mapping table has the same rows or one more. *)
Theorem track_send_all_or_nothing :
  forall env db request,
    let '(out, db') := track_send env db request in
    registrations db' = registrations db
    /\ (forall r, out = Returns r -> status_code r <> 200 -> db' = db)
    /\ (List.length (send_maps db') = List.length (send_maps db)
        \/ List.length (send_maps db') = S (List.length (send_maps db))).
Proof.
  intros env db request.
  pose proof (track_send_changes env db request) as Hch.
  destruct (track_send env db request) as [out db'] eqn:Hts. cbn [fst snd] in Hch.
  destruct Hch as [-> | [mid ->]].
  - split; [reflexivity |]. split; [reflexivity | left; reflexivity].
  - pose proof (track_send_success _ _ _ _ _ Hts)
      as (b & er & _ & _ & _ & _ & _ & _ & Hregs & Hu).
    apply update_or_create_row in Hu.
    destruct Hu as (m & _ & _ & _ & _ & _ & _ & Hlen).
    split; [exact Hregs |]. split.
    + intros r Hr Hcode. inversion Hr; subst r. cbn in Hcode. congruence.
    + rewrite Hlen. destruct (existsb _ _); [left | right]; lia.
Qed.

(** X6. With [event_registration_id] given, the value of [event_id] in the
    body only has to be present: any other non-empty value gives the same
    answer and the same stored data, and the mapping is filed under the
    event of the registration, not under the event named in the body. *)
Theorem track_send_event_of_registration :
  forall env db request b ev',
    truthy (event_registration_id b) = true ->
    truthy (event_id b) = true ->
    truthy ev' = true ->
    track_send env db (with_body (with_event_id ev' b) request)
      = track_send env db (with_body b request)
    /\ (forall mid db' er,
          track_send env db (with_body b request) = (Returns (JsonTrackSend mid), db') ->
          get_registration db (or_empty (event_registration_id b)) = Some er ->
          exists m, In m (send_maps db')
                    /\ m_id m = mid
                    /\ m_event_registration m = er_id er
                    /\ m_event_id m = er_event_id er).
Proof.
  intros env db request b ev' Hreg Hev Hev'. split.
  - unfold track_send.
    change (token_rejected env (with_body (with_event_id ev' b) request))
      with (token_rejected env (with_body b request)).
    destruct (token_rejected env (with_body b request)); [reflexivity |].
    cbn [body with_body with_event_id wa_id event_id event_registration_id
         template_wamid].
    rewrite Hreg, Hev, Hev'.
    destruct (nonempty (_norm_digits (or_empty (wa_id b)))); [| reflexivity].
    cbn [negb orb].
    destruct (get_registration db (or_empty (event_registration_id b)));
      reflexivity.
  - intros mid db' er Hts Hget.
    apply track_send_success in Hts.
    destruct Hts as (b0 & er0 & Hb & _ & _ & _ & Hres & _ & _ & Hu).
    cbn in Hb. inversion Hb; subst b0. clear Hb.
    rewrite Hreg, Hget in Hres. inversion Hres; subst er0. clear Hres.
    apply update_or_create_row in Hu.
    destruct Hu as (m & Hone & Hid & _ & Hmev & Hmreg & _).
    exists m. repeat split; try assumption.
    assert (Hm : In m (List.filter
                         (upsert_key (or_none (template_wamid b))
                                     (_norm_digits (or_empty (wa_id b)))
                                     (er_event_id er)) (send_maps db')))
      by (rewrite Hone; left; reflexivity).
    apply filter_In in Hm. tauto.
Qed.

Lemma track_send_event_of_registration_witness :
  track_send sample_env db_empty
      (signed (sample_body (Some "15551234567") (Some "E2") (Some "R1")
                           None None None))
    = track_send sample_env db_empty
        (signed (sample_body (Some "15551234567") (Some "E1") (Some "R1")
                             None None None))
  /\ exists m, In m (send_maps db_sent)
               /\ m_id m = 1%N
               /\ m_event_registration m = "R1"
               /\ m_event_id m = "E1".
Proof.
  destruct (track_send_event_of_registration sample_env db_empty
              (signed (sample_body (Some "15551234567") (Some "E1") (Some "R1")
                                   None None None))
              (sample_body (Some "15551234567") (Some "E1") (Some "R1")
                           None None None)
              (Some "E2") eq_refl eq_refl eq_refl) as [Hsame Hrow].
  split; [exact Hsame |].
  exact (Hrow 1%N db_sent R1 eq_refl eq_refl).
Defined.

(** X7. A successful [track_send] keeps every stored mapping in place with
    its id, creation time, consumption marker and correlator; a mapping
    whose id is not the one returned is not changed at all.  So overwriting
    a mapping refreshes it without clearing [consumed_at]. *)
Theorem track_send_keeps_stored_rows :
  forall env db request mid db',
    track_send env db request = (Returns (JsonTrackSend mid), db') ->
    Forall2
      (fun m m' =>
         m_id m' = m_id m
         /\ m_created_at m' = m_created_at m
         /\ m_consumed_at m' = m_consumed_at m
         /\ m_template_wamid m' = m_template_wamid m
         /\ (m_id m <> mid -> m' = m))
      (send_maps db)
      (firstn (List.length (send_maps db)) (send_maps db')).
Proof.
  intros env db request mid db' Hts.
  apply track_send_success in Hts.
  destruct Hts as (b & er & _ & _ & _ & _ & _ & _ & _ & Hu).
  apply update_or_create_cases in Hu.
  destruct Hu as [(_ & _ & ->) | (obj & Hone & -> & ->)].
  - rewrite firstn_app_exact.
    rewrite <- (map_id (send_maps db)) at 2.
    apply Forall2_map_right. intros m _. repeat split; reflexivity.
  - rewrite <- (length_map
                  (fun m => if upsert_key (or_none (template_wamid b))
                                 (_norm_digits (or_empty (wa_id b)))
                                 (er_event_id er) m
                            then apply_defaults (_norm_digits (or_empty (wa_id b)))
                                   (er_event_id er) (er_id er)
                                   (now_upsert env + days_30) m
                            else m) (send_maps db)) at 1.
    rewrite firstn_all.
    apply Forall2_map_right. intros m Hm.
    destruct (upsert_key _ _ _ m) eqn:Hk.
    + cbn. repeat split; try reflexivity.
      intros Hne. exfalso. apply Hne.
      assert (Hin : In m (List.filter
                            (upsert_key (or_none (template_wamid b))
                                        (_norm_digits (or_empty (wa_id b)))
                                        (er_event_id er)) (send_maps db)))
        by (apply filter_In; auto).
      rewrite Hone in Hin. destruct Hin as [<- | []]. reflexivity.
    + repeat split; reflexivity.
Qed.

Lemma track_send_keeps_stored_rows_witness :
  let consumed :=
    mkDB sample_regs
         [mkSendMap 1 "15551234567" "E1" "R1" None 1000 (1000 + days_30) (Some 5000)] in
  let '(out, db') :=
    track_send (mkEnv (Some sample_secret) 9000 9000 0 0 0 false false false false)
      consumed
      (signed (sample_body (Some "15551234567") (Some "E1") (Some "R2")
                           None None None)) in
  out = Returns (JsonTrackSend 1)
  /\ Forall2
       (fun m m' =>
          m_id m' = m_id m
          /\ m_created_at m' = m_created_at m
          /\ m_consumed_at m' = m_consumed_at m
          /\ m_template_wamid m' = m_template_wamid m
          /\ (m_id m <> 1%N -> m' = m))
       (send_maps consumed)
       (firstn (List.length (send_maps consumed)) (send_maps db')).
Proof.
  intros consumed.
  pose proof (track_send_keeps_stored_rows
                (mkEnv (Some sample_secret) 9000 9000 0 0 0 false false false false)
                consumed
                (signed (sample_body (Some "15551234567") (Some "E1") (Some "R2")
                                     None None None)) 1%N) as H.
  destruct (track_send _ consumed _) as [out db'] eqn:Hts.
  vm_compute in Hts. inversion Hts; subst out db'.
  split; [reflexivity |].
  apply H. reflexivity.
Defined.

(** ** Resolution does not read [consumed_at] *)

Lemma Forall2_of_map_eq :
  forall {A B : Type} (f : A -> B) (l l' : list A),
    List.map f l = List.map f l' -> Forall2 (fun x y => f x = f y) l l'.
Proof.
  intros A B f l. induction l as [| a l IH]; intros [| a' l'] H; cbn in H;
    try discriminate; constructor.
  - inversion H. reflexivity.
  - apply IH. inversion H. reflexivity.
Qed.

Lemma Forall2_filter :
  forall {A : Type} (R : A -> A -> Prop) (p : A -> bool) (l l' : list A),
    (forall x y, R x y -> p x = p y) ->
    Forall2 R l l' -> Forall2 R (List.filter p l) (List.filter p l').
Proof.
  intros A R p l l' Hp H. induction H as [| x y l l' Hxy H IH]; cbn.
  - constructor.
  - rewrite (Hp x y Hxy). destruct (p y); [constructor |]; assumption.
Qed.

Lemma Forall2_newest :
  forall {A : Type} (R : A -> A -> Prop) (created : A -> instant) (l l' : list A),
    (forall x y, R x y -> created x = created y) ->
    Forall2 R l l' ->
    match newest created l, newest created l' with
    | Some x, Some y => R x y
    | None, None => True
    | _, _ => False
    end.
Proof.
  intros A R created l l' Hc H. induction H as [| x y l l' Hxy H IH]; cbn.
  - exact I.
  - destruct (newest created l) as [a |]; destruct (newest created l') as [a' |];
      try contradiction.
    + rewrite (Hc x y Hxy), (Hc a a' IH).
      destruct (created y <? created a'); assumption.
    + exact Hxy.
Qed.

Lemma same_but_consumed :
  forall m m',
    forget_consumed m = forget_consumed m' ->
    m_wa_id m = m_wa_id m'
    /\ m_event_id m = m_event_id m'
    /\ m_event_registration m = m_event_registration m'
    /\ m_template_wamid m = m_template_wamid m'
    /\ m_created_at m = m_created_at m'
    /\ m_expires_at m = m_expires_at m'.
Proof.
  intros m m' H. unfold forget_consumed in H. inversion H. repeat split; assumption.
Qed.

Lemma get_registration_map :
  forall (g : EventRegistration -> EventRegistration) regs maps maps' pk,
    (forall r, er_id (g r) = er_id r) ->
    get_registration (mkDB (List.map g regs) maps') pk
      = option_map g (get_registration (mkDB regs maps) pk).
Proof.
  intros g regs maps maps' pk Hg. unfold get_registration. cbn [registrations].
  induction regs as [| r regs IH]; cbn; [reflexivity |].
  rewrite Hg. destruct (er_id r =? pk)%string; [reflexivity | exact IH].
Qed.

Lemma registration_of_related :
  forall (g : EventRegistration -> EventRegistration) regs maps maps' row row',
    (forall r, er_id (g r) = er_id r) ->
    match row, row' with
    | Some m, Some m' => forget_consumed m = forget_consumed m'
    | None, None => True
    | _, _ => False
    end ->
    registration_of (mkDB (List.map g regs) maps') row'
      = match registration_of (mkDB regs maps) row with
        | inl e => inl e
        | inr o => inr (option_map g o)
        end.
Proof.
  intros g regs maps maps' [m |] [m' |] Hg H; try contradiction; [| reflexivity].
  apply same_but_consumed in H. destruct H as (_ & _ & Hreg & _).
  unfold registration_of. rewrite <- Hreg.
  destruct (nonempty (m_event_registration m)); [| reflexivity].
  rewrite (get_registration_map g regs maps maps' _ Hg).
  destruct (get_registration (mkDB regs maps) (m_event_registration m)); reflexivity.
Qed.

Lemma first_related :
  forall (l l' : list WaSendMap),
    Forall2 (fun m m' => forget_consumed m = forget_consumed m') l l' ->
    match first l, first l' with
    | Some m, Some m' => forget_consumed m = forget_consumed m'
    | None, None => True
    | _, _ => False
    end.
Proof.
  intros l l' H. destruct H; cbn; [exact I | assumption].
Qed.

Lemma newest_related :
  forall (l l' : list WaSendMap),
    Forall2 (fun m m' => forget_consumed m = forget_consumed m') l l' ->
    match newest m_created_at l, newest m_created_at l' with
    | Some m, Some m' => forget_consumed m = forget_consumed m'
    | None, None => True
    | _, _ => False
    end.
Proof.
  intros l l' H. apply Forall2_newest; [| exact H].
  intros x y Hxy. apply same_but_consumed in Hxy. tauto.
Qed.

Lemma filter_related :
  forall (p : WaSendMap -> bool) (l l' : list WaSendMap),
    (forall m, p m = p (forget_consumed m)) ->
    Forall2 (fun m m' => forget_consumed m = forget_consumed m') l l' ->
    Forall2 (fun m m' => forget_consumed m = forget_consumed m')
            (List.filter p l) (List.filter p l').
Proof.
  intros p l l' Hp H. apply Forall2_filter; [| exact H].
  intros x y Hxy. rewrite (Hp x), (Hp y), Hxy. reflexivity.
Qed.

(** Resolution after the registrations were rewritten row by row, keeping
    their ids, and the mappings changed at most in [consumed_at]. *)
Lemma resolve_registration_rewritten :
  forall env regs maps maps' (g : EventRegistration -> EventRegistration) b,
    (forall r, er_id (g r) = er_id r) ->
    List.map forget_consumed maps = List.map forget_consumed maps' ->
    resolve_registration env (mkDB (List.map g regs) maps') b
      = match resolve_registration env (mkDB regs maps) b with
        | inl out => inl out
        | inr er => inr (g er)
        end.
Proof.
  intros env regs maps maps' g b Hg Hmaps.
  unfold resolve_registration.
  destruct (truthy (event_registration_id b)).
  - rewrite (get_registration_map g regs maps maps' _ Hg).
    destruct (get_registration (mkDB regs maps) _); reflexivity.
  - unfold resolve_by_mapping. cbn [send_maps].
    destruct (negb _); [reflexivity |].
    set (wa := _norm_digits (or_empty (wa_id b))).
    assert (Hbase : Forall2 (fun m m' => forget_consumed m = forget_consumed m')
                            (base_qs (now_filter env) wa maps)
                            (base_qs (now_filter env) wa maps')).
    { apply filter_related; [reflexivity |].
      apply Forall2_of_map_eq. exact Hmaps. }
    set (base := base_qs (now_filter env) wa maps) in *.
    set (base' := base_qs (now_filter env) wa maps') in *.
    assert (H3 := registration_of_related g regs maps maps' _ _ Hg
                    (newest_related _ _ Hbase)).
    destruct (or_none (template_wamid b)) as [t |].
    + assert (H1 := registration_of_related g regs maps maps' _ _ Hg
                      (first_related _ _
                         (filter_related (template_is t) _ _
                            (fun m => eq_refl) Hbase))).
      rewrite H1.
      destruct (registration_of (mkDB regs maps)
                  (first (List.filter (template_is t) base))) as [e | [er1 |]];
        cbn [option_map]; [reflexivity | |].
      * destruct (or_none (event_id b)); reflexivity.
      * destruct (or_none (event_id b)) as [ev |].
        -- assert (H2 := registration_of_related g regs maps maps' _ _ Hg
                           (newest_related _ _
                              (filter_related
                                 (fun m => (m_event_id m =? ev)%string) _ _
                                 (fun m => eq_refl) Hbase))).
           rewrite H2.
           destruct (registration_of (mkDB regs maps)
                       (newest m_created_at (List.filter _ base)))
             as [e | [er2 |]]; cbn [option_map]; [reflexivity | reflexivity |].
           rewrite H3.
           destruct (registration_of (mkDB regs maps) (newest m_created_at base))
             as [e | [er3 |]]; reflexivity.
        -- rewrite H3.
           destruct (registration_of (mkDB regs maps) (newest m_created_at base))
             as [e | [er3 |]]; reflexivity.
    + destruct (or_none (event_id b)) as [ev |].
      * assert (H2 := registration_of_related g regs maps maps' _ _ Hg
                        (newest_related _ _
                           (filter_related
                              (fun m => (m_event_id m =? ev)%string) _ _
                              (fun m => eq_refl) Hbase))).
        cbn iota. rewrite H2.
        destruct (registration_of (mkDB regs maps)
                    (newest m_created_at (List.filter _ base)))
          as [e | [er2 |]]; cbn [option_map]; [reflexivity | reflexivity |].
        rewrite H3.
        destruct (registration_of (mkDB regs maps) (newest m_created_at base))
          as [e | [er3 |]]; reflexivity.
      * cbn iota. rewrite H3.
        destruct (registration_of (mkDB regs maps) (newest m_created_at base))
          as [e | [er3 |]]; reflexivity.
Qed.

(** X8. Resolution does not read [consumed_at]: two stores with the same
    registrations whose mappings differ at most in their consumption marker
    resolve every request alike.  A mapping that was consumed by an earlier
    RSVP therefore still resolves. *)
Theorem resolution_ignores_consumption :
  forall env db db' b,
    registrations db' = registrations db ->
    List.map forget_consumed (send_maps db') = List.map forget_consumed (send_maps db) ->
    resolve_registration env db' b = resolve_registration env db b.
Proof.
  intros env [regs maps] [regs' maps'] b Hregs Hmaps. cbn in Hregs, Hmaps. subst regs'.
  rewrite <- (map_id regs) at 1.
  rewrite (resolve_registration_rewritten env regs maps maps' (fun r => r) b
             (fun r => eq_refl) (eq_sym Hmaps)).
  destruct (resolve_registration env (mkDB regs maps) b); reflexivity.
Qed.

Lemma resolution_ignores_consumption_witness :
  resolve_registration sample_env
      (mkDB (registrations db_sent) (List.map (set_consumed 5000) (send_maps db_sent)))
      (sample_body (Some "+1 (555) 123-4567") (Some "E1") None None (Some "yes") None)
    = resolve_registration sample_env db_sent
        (sample_body (Some "+1 (555) 123-4567") (Some "E1") None None (Some "yes") None).
Proof.
  apply (resolution_ignores_consumption sample_env db_sent
           (mkDB (registrations db_sent)
                 (List.map (set_consumed 5000) (send_maps db_sent))));
    reflexivity.
Defined.

(** ** What [whatsapp_rsvp] writes *)

Lemma resolve_registration_error_shape :
  forall env db b out,
    resolve_registration env db b = inl out ->
    (exists msg, out = Returns (HttpResponseBadRequest msg)) \/ (exists e, out = Raises e).
Proof.
  intros env db b out. unfold resolve_registration.
  destruct (truthy (event_registration_id b)).
  - destruct (get_registration db _); [discriminate |].
    intros H; inversion H. left. eauto.
  - unfold resolve_by_mapping.
    destruct (negb _); [intros H; inversion H; left; eauto |].
    repeat match goal with
           | |- context [match ?x with _ => _ end] => destruct x
           end;
      intros H; inversion H; eauto.
Qed.

(** Either nothing was stored or published and the answer is not the
    success, or the request was admitted, resolved and saved. *)
Lemma whatsapp_rsvp_unchanged_or_saved :
  forall parse env db request,
    (snd (fst (whatsapp_rsvp parse env db request)) = db
     /\ snd (whatsapp_rsvp parse env db request) = []
     /\ forall id ev guest st resp,
          fst (fst (whatsapp_rsvp parse env db request))
            <> Returns (JsonRsvp id ev guest st resp))
    \/ (exists b responded er0,
          rsvp_admitted parse env request b responded
          /\ resolve_registration env db b = inr er0
          /\ save_fault env = false).
Proof.
  intros parse env db request.
  unfold rsvp_admitted, whatsapp_rsvp.
  destruct (token_rejected env request) eqn:Htok;
    [left; repeat split; cbn; intros; discriminate |].
  destruct (body request) as [b |] eqn:Hbody;
    [| left; repeat split; cbn; intros; discriminate].
  destruct (valid_status (normalized_status b)) eqn:Hst; cbn [negb];
    [| left; repeat split; cbn; intros; discriminate].
  destruct (responded_on_of parse env b) as [e | responded] eqn:Hresp;
    [left; repeat split; cbn; intros; discriminate |].
  destruct (resolve_registration env db b) as [out | er0] eqn:Hres.
  - left. cbn. repeat split.
    intros id ev guest st resp Hout.
    destruct (resolve_registration_error_shape _ _ _ _ Hres) as [[msg ->] | [e ->]];
      discriminate.
  - destruct (save_fault env) eqn:Hsave;
      [left; repeat split; cbn; intros; discriminate |].
    right. exists b, responded, er0. repeat split; assumption.
Qed.

Lemma Forall2_same :
  forall {A : Type} (R : A -> A -> Prop) (l : list A),
    (forall x, R x x) -> Forall2 R l l.
Proof.
  intros A R l H. induction l; constructor; auto.
Qed.

Lemma set_rsvp_id :
  forall s responded er, er_id (set_rsvp s responded er) = er_id er.
Proof. reflexivity. Qed.

(** X9. [whatsapp_rsvp] neither adds nor removes a registration and can
    change only the two RSVP columns: every registration keeps its id,
    event, guest, creation time and party-size fields, and a registration
    whose id is not the resolved one is not changed at all. *)
Theorem whatsapp_rsvp_writes_two_columns :
  forall parse env db request,
    Forall2
      (fun r r' =>
         forget_rsvp r' = forget_rsvp r
         /\ (r' = r
             \/ exists b er0,
                  body request = Some b
                  /\ resolve_registration env db b = inr er0
                  /\ er_id r = er_id er0))
      (registrations db)
      (registrations (snd (fst (whatsapp_rsvp parse env db request)))).
Proof.
  intros parse env db request.
  destruct (whatsapp_rsvp_unchanged_or_saved parse env db request)
    as [(-> & _ & _) | (b & responded & er0 & Hadm & Hres & Hsave)].
  - apply Forall2_same. intros r. split; [reflexivity | left; reflexivity].
  - rewrite (whatsapp_rsvp_saved _ _ _ _ _ _ _ Hadm Hres Hsave). cbv zeta.
    assert (Hsaved :
      Forall2
        (fun r r' =>
           forget_rsvp r' = forget_rsvp r
           /\ (r' = r
               \/ exists b er0,
                    body request = Some b
                    /\ resolve_registration env db b = inr er0
                    /\ er_id r = er_id er0))
        (registrations db)
        (save_rsvp (set_rsvp (normalized_status b) responded er0) (registrations db))).
    { unfold save_rsvp. apply Forall2_map_right. intros r _.
      cbn [er_id er_responded_on er_rsvp_status set_rsvp].
      destruct (er_id r =? er_id er0)%string eqn:Hid.
      - split; [reflexivity |]. right. exists b, er0.
        destruct Hadm as (_ & Hbody & _).
        apply String.eqb_eq in Hid. auto.
      - split; [reflexivity | left; reflexivity]. }
    destruct (publish_fault env); exact Hsaved.
Qed.

Lemma mark_consumed_columns :
  forall env er b maps,
    Forall2
      (fun m m' =>
         forget_consumed m' = forget_consumed m
         /\ (m' = m \/ m_event_registration m = er_id er))
      maps (mark_consumed env er b maps).
Proof.
  intros env er b maps. unfold mark_consumed.
  destruct (consume_fault env).
  - apply Forall2_same. intros m. split; [reflexivity | left; reflexivity].
  - apply Forall2_map_right. intros m _.
    destruct (consumed_qs er b m) eqn:Hq.
    + split; [reflexivity |]. right.
      unfold consumed_qs in Hq. apply andb_true_iff in Hq. destruct Hq as [Hq _].
      apply String.eqb_eq in Hq. exact Hq.
    + split; [reflexivity | left; reflexivity].
Qed.

(** X10. [whatsapp_rsvp] neither adds nor removes a mapping and can change
    only [consumed_at]: identity, event, registration, correlator, creation
    time and expiry of every mapping stay, and a mapping of a registration
    other than the resolved one is not changed at all. *)
Theorem whatsapp_rsvp_writes_consumed_at_only :
  forall parse env db request,
    Forall2
      (fun m m' =>
         forget_consumed m' = forget_consumed m
         /\ (m' = m
             \/ exists b er0,
                  body request = Some b
                  /\ resolve_registration env db b = inr er0
                  /\ m_event_registration m = er_id er0))
      (send_maps db)
      (send_maps (snd (fst (whatsapp_rsvp parse env db request)))).
Proof.
  intros parse env db request.
  destruct (whatsapp_rsvp_unchanged_or_saved parse env db request)
    as [(-> & _ & _) | (b & responded & er0 & Hadm & Hres & Hsave)].
  - apply Forall2_same. intros m. split; [reflexivity | left; reflexivity].
  - rewrite (whatsapp_rsvp_saved _ _ _ _ _ _ _ Hadm Hres Hsave). cbv zeta.
    destruct (publish_fault env); cbn [fst snd send_maps].
    + apply Forall2_same. intros m. split; [reflexivity | left; reflexivity].
    + pose proof (mark_consumed_columns env
                    (set_rsvp (normalized_status b) responded er0) b (send_maps db))
        as Hcols.
      eapply Forall2_impl; [| exact Hcols].
      intros m m' [Hf [-> | Hreg]]; (split; [exact Hf |]).
      * left. reflexivity.
      * right. exists b, er0. destruct Hadm as (_ & Hbody & _). auto.
Qed.

(** ** Replaying an RSVP *)

Lemma save_rsvp_idempotent :
  forall er regs, save_rsvp er (save_rsvp er regs) = save_rsvp er regs.
Proof.
  intros er regs. unfold save_rsvp. rewrite map_map. apply map_ext. intros r.
  destruct (er_id r =? er_id er)%string eqn:Hid; [| rewrite Hid; reflexivity].
  destruct (er_responded_on er) as [responded |]; [| rewrite Hid; reflexivity].
  cbn [er_id set_rsvp]. rewrite Hid. reflexivity.
Qed.

Lemma mark_consumed_idempotent :
  forall env er b maps,
    mark_consumed env er b (mark_consumed env er b maps) = mark_consumed env er b maps.
Proof.
  intros env er b maps. unfold mark_consumed.
  destruct (consume_fault env); [reflexivity |].
  rewrite map_map. apply map_ext. intros m.
  destruct (consumed_qs er b m) eqn:Hq; [| rewrite Hq; reflexivity].
  change (consumed_qs er b (set_consumed (now_consumed env) m))
    with (consumed_qs er b m).
  rewrite Hq. reflexivity.
Qed.

Lemma mark_consumed_forget :
  forall env er b maps,
    List.map forget_consumed maps
      = List.map forget_consumed (mark_consumed env er b maps).
Proof.
  intros env er b maps. unfold mark_consumed.
  destruct (consume_fault env); [reflexivity |].
  rewrite map_map. apply map_ext. intros m.
  destruct (consumed_qs er b m); reflexivity.
Qed.

(** After the save, the same request resolves to the updated registration. *)
Lemma resolve_after_save :
  forall env db b er0 s responded maps',
    resolve_registration env db b = inr er0 ->
    List.map forget_consumed (send_maps db) = List.map forget_consumed maps' ->
    resolve_registration env
      (mkDB (save_rsvp (set_rsvp s responded er0) (registrations db)) maps') b
      = inr (set_rsvp s responded er0).
Proof.
  intros env [regs maps] b er0 s responded maps' Hres Hmaps.
  cbn [registrations send_maps] in *.
  unfold save_rsvp.
  rewrite (resolve_registration_rewritten env regs maps maps' _ b).
  - rewrite Hres. cbn [er_id er_responded_on er_rsvp_status set_rsvp].
    rewrite String.eqb_refl. reflexivity.
  - intros r. cbn [er_id er_responded_on er_rsvp_status set_rsvp].
    destruct (er_id r =? er_id er0)%string; reflexivity.
  - exact Hmaps.
Qed.

(** X11. Replaying a request is harmless: run again on the store it left,
    with the clock and the collaborators behaving as before, [whatsapp_rsvp]
    gives the same answer, leaves the store as it is and publishes the same
    notification again. *)
Theorem whatsapp_rsvp_idempotent :
  forall parse env db request,
    whatsapp_rsvp parse env (snd (fst (whatsapp_rsvp parse env db request))) request
      = whatsapp_rsvp parse env db request.
Proof.
  intros parse env db request.
  destruct (whatsapp_rsvp_unchanged_or_saved parse env db request)
    as [(Hsame & _ & _) | (b & responded & er0 & Hadm & Hres & Hsave)].
  - rewrite Hsame. reflexivity.
  - rewrite (whatsapp_rsvp_saved _ _ db _ _ _ _ Hadm Hres Hsave). cbv zeta.
    set (er := set_rsvp (normalized_status b) responded er0).
    destruct (publish_fault env) eqn:Hpub; cbn [fst snd].
    + assert (Hres1 := resolve_after_save env db b er0 (normalized_status b)
                         responded (send_maps db) Hres eq_refl).
      fold er in Hres1.
      rewrite (whatsapp_rsvp_saved _ _ _ _ _ _ _ Hadm Hres1 Hsave), Hpub.
      cbv zeta. cbn [registrations send_maps].
      change (set_rsvp (normalized_status b) responded er) with er.
      rewrite save_rsvp_idempotent. reflexivity.
    + assert (Hres1 := resolve_after_save env db b er0 (normalized_status b)
                         responded (mark_consumed env er b (send_maps db)) Hres
                         (mark_consumed_forget env er b (send_maps db))).
      fold er in Hres1. cbn [registrations send_maps].
      rewrite (whatsapp_rsvp_saved _ _ _ _ _ _ _ Hadm Hres1 Hsave), Hpub.
      cbv zeta. cbn [registrations send_maps].
      change (set_rsvp (normalized_status b) responded er) with er.
      rewrite save_rsvp_idempotent, mark_consumed_idempotent. reflexivity.
Qed.

(** ** Expired mappings *)

Lemma filter_nothing :
  forall {A : Type} (p : A -> bool) (l : list A),
    (forall x, In x l -> p x = false) -> List.filter p l = [].
Proof.
  intros A p l H. induction l as [| a l IH]; cbn; [reflexivity |].
  rewrite (H a (or_introl eq_refl)). apply IH.
  intros x Hx. apply H. right. exact Hx.
Qed.

(** X12. Expiry is checked when a mapping is read, and the bound is strict:
    if every stored mapping of the identity has an expiry at or before the
    time of the query, a request without [event_registration_id] is answered
    "no mapping found for wa_id" and nothing is stored or published, although
    rows for that identity exist. *)
Theorem expired_mappings_do_not_resolve :
  forall parse env db request b responded,
    rsvp_admitted parse env request b responded ->
    truthy (event_registration_id b) = false ->
    nonempty (_norm_digits (or_empty (wa_id b))) = true ->
    (forall m, In m (send_maps db) ->
               m_wa_id m = _norm_digits (or_empty (wa_id b)) ->
               m_expires_at m <= now_filter env) ->
    whatsapp_rsvp parse env db request
      = (Returns (HttpResponseBadRequest "no mapping found for wa_id"), db, []).
Proof.
  intros parse env db request b responded Hadm Hreg Hwa Hexp.
  rewrite (whatsapp_rsvp_admitted _ _ db _ _ _ Hadm).
  unfold resolve_registration. rewrite Hreg.
  rewrite resolve_by_mapping_no_candidate; [reflexivity | exact Hwa |].
  unfold base_qs. apply filter_nothing. intros m Hm.
  destruct (m_wa_id m =? _norm_digits (or_empty (wa_id b)))%string eqn:Hid;
    [| reflexivity].
  apply String.eqb_eq in Hid. specialize (Hexp m Hm Hid).
  cbn. apply Z.ltb_ge. exact Hexp.
Qed.

Lemma expired_mappings_do_not_resolve_witness :
  let env := mkEnv (Some sample_secret) 0 0 0 (1000 + days_30) 0
                   false false false false in
  whatsapp_rsvp sample_parse env db_sent
      (rsvp_request (Some "15551234567") (Some "E1") None None "yes")
    = (Returns (HttpResponseBadRequest "no mapping found for wa_id"), db_sent, []).
Proof.
  intros env.
  apply (expired_mappings_do_not_resolve sample_parse env db_sent
           (rsvp_request (Some "15551234567") (Some "E1") None None "yes")
           (sample_body (Some "15551234567") (Some "E1") None None (Some "yes") None)
           (datetime_now_utc 0)).
  - repeat split.
  - reflexivity.
  - reflexivity.
  - intros m Hm _. vm_compute in Hm. destruct Hm as [<- | []].
    vm_compute. discriminate.
Defined.

(** ** The notification and the answer *)

(** X13. A notification is published exactly when [whatsapp_rsvp] answers
    with the updated registration, and then it is a single message that
    agrees with the answer and with the stored row: same registration id,
    same event (also in the group name), same status. *)
Theorem notification_matches_answer :
  forall parse env db request,
    let '(out, db', sent) := whatsapp_rsvp parse env db request in
    (sent = []
     /\ forall id ev guest st resp, out <> Returns (JsonRsvp id ev guest st resp))
    \/ (exists id ev guest st responded er,
          out = Returns (JsonRsvp id ev guest st (Some responded))
          /\ get_registration db' id = Some er
          /\ er_event_id er = ev
          /\ er_rsvp_status er = st
          /\ er_responded_on er = Some responded
          /\ sent = [mkNotification ("event_" ++ ev) "rsvp_update" "rsvp_changed"
                       "updated" id ev st
                       (er_estimated_pax er) (er_additional_guest_count er)]).
Proof.
  intros parse env db request.
  destruct (whatsapp_rsvp_unchanged_or_saved parse env db request)
    as [(_ & Hsent & Hout) | (b & responded & er0 & Hadm & Hres & Hsave)].
  - destruct (whatsapp_rsvp parse env db request) as [[out db'] sent].
    cbn in Hsent, Hout. left. auto.
  - rewrite (whatsapp_rsvp_saved _ _ _ _ _ _ _ Hadm Hres Hsave). cbv zeta.
    destruct (publish_fault env).
    + left. split; [reflexivity | intros; discriminate].
    + right.
      exists (er_id er0), (er_event_id er0), (er_guest_id er0),
             (normalized_status b), responded,
             (set_rsvp (normalized_status b) responded er0).
      repeat split; try reflexivity.
      apply resolve_registration_stored in Hres.
      destruct db as [regs maps].
      apply (save_rsvp_get regs _ er0 _ _ Hres).
Qed.

(** ** The outbound send orchestrator, beyond its failure policy *)

(** X14. [post] never changes registrations or templates and makes at most
    one call to the channel.  Any answer with status 400 or 404 (invalid
    body, registration not under the event of the path, unknown template,
    rendering failure, guest without phone) comes with nothing stored and no
    collaborator called.  Otherwise the store is unchanged or has exactly
    one more queued message, whose insert is the first call. *)
Theorem post_side_effects :
  forall (Ctx : Type)
         (build_registration_context : SendTemplate.Registration -> Ctx)
         (render_template_with_vars :
            SendTemplate.MessageTemplate -> Ctx -> string + string)
         (within_24h_window : option datetime -> bool)
         (send_freeform_text send_resume_opener : string -> string -> string + string)
         (queue_create_error : SendTemplate.QueuedMessage -> option string)
         st input event_id registration_id,
    let '(resp, st', calls) :=
      SendTemplate.post Ctx build_registration_context render_template_with_vars
        within_24h_window send_freeform_text send_resume_opener
        queue_create_error st input event_id registration_id in
    SendTemplate.st_registrations st' = SendTemplate.st_registrations st
    /\ SendTemplate.st_templates st' = SendTemplate.st_templates st
    /\ (List.length (List.filter SendTemplate.is_send calls) <= 1)%nat
    /\ (SendTemplate.status resp = 400 \/ SendTemplate.status resp = 404 ->
        st' = st /\ calls = [])
    /\ (st' = st
        \/ exists q,
             SendTemplate.st_queued st' = (SendTemplate.st_queued st ++ [q])%list
             /\ hd_error calls = Some (SendTemplate.CallQueueCreate q)).
Proof.
  intros Ctx build_registration_context render_template_with_vars
         within_24h_window send_freeform_text send_resume_opener
         queue_create_error st input ev rid.
  unfold SendTemplate.post.
  destruct input as [input |]; [| cbn; repeat split; auto].
  destruct (SendTemplate.get_registration st rid ev) as [reg |];
    [| cbn; repeat split; auto].
  destruct (SendTemplate.get_template st (SendTemplate.template_id input)) as [tmpl |];
    [| cbn; repeat split; auto].
  destruct (render_template_with_vars tmpl (build_registration_context reg))
    as [e | text]; [cbn; repeat split; auto |].
  destruct (truthy (SendTemplate.g_phone (SendTemplate.reg_guest reg)));
    cbn [negb]; [| cbn; repeat split; auto].
  destruct (within_24h_window (SendTemplate.reg_responded_on reg)).
  - destruct (send_freeform_text _ text); cbn; repeat split; auto;
      match goal with H : _ \/ _ |- _ => destruct H; discriminate end.
  - destruct (queue_create_error _).
    + cbn. repeat split; auto;
        match goal with H : _ \/ _ |- _ => destruct H; discriminate end.
    + destruct (send_resume_opener _ _); cbn; repeat split; auto;
        try match goal with H : _ \/ _ |- _ => destruct H; discriminate end;
        right; eexists; split; reflexivity.
Qed.

(** X15. A 200 answer is backed by what was done: "sent" means the
    free-form call returned that message id and nothing was queued;
    "queued" means the rendered text was stored as a queued message and the
    opener call returned that id. *)
Theorem post_success_is_backed :
  forall (Ctx : Type)
         (build_registration_context : SendTemplate.Registration -> Ctx)
         (render_template_with_vars :
            SendTemplate.MessageTemplate -> Ctx -> string + string)
         (within_24h_window : option datetime -> bool)
         (send_freeform_text send_resume_opener : string -> string -> string + string)
         (queue_create_error : SendTemplate.QueuedMessage -> option string)
         st input event_id registration_id,
    let '(resp, st', calls) :=
      SendTemplate.post Ctx build_registration_context render_template_with_vars
        within_24h_window send_freeform_text send_resume_opener
        queue_create_error st input event_id registration_id in
    SendTemplate.status resp = 200 ->
    exists i reg tmpl text to_wa,
      input = Some i
      /\ SendTemplate.reaches_window Ctx build_registration_context
           render_template_with_vars st i event_id registration_id
           reg tmpl text to_wa
      /\ ((exists msg_id,
             SendTemplate.data resp = SendTemplate.SentData msg_id
             /\ within_24h_window (SendTemplate.reg_responded_on reg) = true
             /\ send_freeform_text to_wa text = inr msg_id
             /\ calls = [SendTemplate.CallFreeformText to_wa text]
             /\ st' = st)
          \/ (exists opener_id,
                SendTemplate.data resp = SendTemplate.QueuedData opener_id
                /\ within_24h_window (SendTemplate.reg_responded_on reg) = false
                /\ send_resume_opener to_wa (SendTemplate.reg_id reg) = inr opener_id
                /\ SendTemplate.st_queued st'
                   = (SendTemplate.st_queued st
                      ++ [SendTemplate.mkQueued (SendTemplate.reg_event_id reg)
                            (SendTemplate.reg_id reg) (SendTemplate.tmpl_id tmpl)
                            text])%list)).
Proof.
  intros Ctx build_registration_context render_template_with_vars
         within_24h_window send_freeform_text send_resume_opener
         queue_create_error st input ev rid.
  unfold SendTemplate.post, SendTemplate.reaches_window.
  destruct input as [input |]; [| cbn; discriminate].
  destruct (SendTemplate.get_registration st rid ev)
    as [reg |] eqn:Hreg; [| cbn; discriminate].
  destruct (SendTemplate.get_template st (SendTemplate.template_id input))
    as [tmpl |] eqn:Htmpl; [| cbn; discriminate].
  destruct (render_template_with_vars tmpl (build_registration_context reg))
    as [e | text] eqn:Hrender; [cbn; discriminate |].
  destruct (truthy (SendTemplate.g_phone (SendTemplate.reg_guest reg))) eqn:Hphone;
    cbn [negb]; [| cbn; discriminate].
  destruct (within_24h_window (SendTemplate.reg_responded_on reg)) eqn:Hwin.
  - destruct (send_freeform_text _ text) as [e | msg_id] eqn:Hsend;
      [cbn; discriminate |].
    intros _.
    exists input, reg, tmpl, text,
           (or_empty (SendTemplate.g_phone (SendTemplate.reg_guest reg))).
    split; [reflexivity |]. split; [repeat split; auto |].
    left. exists msg_id. repeat split; auto.
  - destruct (queue_create_error _) as [e |] eqn:Hq; [cbn; discriminate |].
    destruct (send_resume_opener _ _) as [e | opener_id] eqn:Hop;
      [cbn; discriminate |].
    intros _.
    exists input, reg, tmpl, text,
           (or_empty (SendTemplate.g_phone (SendTemplate.reg_guest reg))).
    split; [reflexivity |]. split; [repeat split; auto |].
    right. exists opener_id. repeat split; auto.
Qed.

(** X16. The [variables] of the request body have no effect: the text is
    rendered from the registration context alone and the opener is sent
    with the registration id only, so two bodies naming the same template
    give the same answer, the same store and the same calls. *)
Theorem post_ignores_variables :
  forall (Ctx : Type)
         (build_registration_context : SendTemplate.Registration -> Ctx)
         (render_template_with_vars :
            SendTemplate.MessageTemplate -> Ctx -> string + string)
         (within_24h_window : option datetime -> bool)
         (send_freeform_text send_resume_opener : string -> string -> string + string)
         (queue_create_error : SendTemplate.QueuedMessage -> option string)
         st template_id variables variables' event_id registration_id,
    SendTemplate.post Ctx build_registration_context render_template_with_vars
      within_24h_window send_freeform_text send_resume_opener queue_create_error
      st (Some (SendTemplate.mkInput template_id variables)) event_id registration_id
    = SendTemplate.post Ctx build_registration_context render_template_with_vars
        within_24h_window send_freeform_text send_resume_opener queue_create_error
        st (Some (SendTemplate.mkInput template_id variables'))
        event_id registration_id.
Proof.
  intros Ctx build_registration_context render_template_with_vars
         within_24h_window send_freeform_text send_resume_opener
         queue_create_error st tid variables variables' ev rid.
  unfold SendTemplate.post. cbn [SendTemplate.template_id].
  destruct (SendTemplate.get_registration st rid ev) as [reg |];
    [| reflexivity].
  destruct (SendTemplate.get_template st tid) as [tmpl |]; [| reflexivity].
  destruct (render_template_with_vars tmpl (build_registration_context reg));
    [reflexivity |].
  destruct (negb _); [reflexivity |].
  destruct (within_24h_window _); [reflexivity |].
  destruct (queue_create_error _); [reflexivity |].
  cbv zeta. destruct (send_resume_opener _ _); reflexivity.
Qed.

Lemma post_success_is_backed_witness :
  let st :=
    SendTemplate.mkStore
      [SendTemplate.mkReg "R1" "E1"
         (SendTemplate.mkGuest (Some "Ann") (Some "15551234567")) None]
      [SendTemplate.mkTemplate "T" "Hello"] [] in
  let '(resp, st', calls) :=
    SendTemplate.post unit (fun _ => tt)
      (fun t _ => inr (SendTemplate.tmpl_body t))
      (fun _ => true) (fun _ _ => inr "wamid.1") (fun _ _ => inl "timeout")
      (fun _ => None)
      st (Some (SendTemplate.mkInput "T" [])) "E1" "R1" in
  exists msg_id,
    SendTemplate.data resp = SendTemplate.SentData msg_id
    /\ calls = [SendTemplate.CallFreeformText "15551234567" "Hello"]
    /\ st' = st.
Proof.
  intros st.
  pose proof
    (post_success_is_backed unit (fun _ => tt)
       (fun t _ => inr (SendTemplate.tmpl_body t))
       (fun _ => true) (fun _ _ => inr "wamid.1") (fun _ _ => inl "timeout")
       (fun _ => None)
       st (Some (SendTemplate.mkInput "T" [])) "E1" "R1") as H.
  destruct (SendTemplate.post unit _ _ _ _ _ _ st _ "E1" "R1")
    as [[resp st'] calls] eqn:Hpost.
  vm_compute in Hpost. inversion Hpost; subst resp st' calls.
  destruct (H eq_refl) as (i & reg & tmpl & text & to_wa & _ & Hreach & Hcase).
  destruct Hcase as [(msg_id & Hd & _ & _ & _ & _) | (opener_id & Hd & _)];
    [| discriminate Hd].
  exists msg_id. split; [exact Hd | split; reflexivity].
Defined.

(** ** The travel-detail resource *)

Lemma find_after_delete :
  forall {A : Type} (key : A -> string) (pk pk' : string) (l : list A),
    find (fun x => (key x =? pk')%string)
         (List.filter (fun x => negb (key x =? pk)%string) l)
    = if (pk' =? pk)%string then None
      else find (fun x => (key x =? pk')%string) l.
Proof.
  intros A key pk pk' l. induction l as [| a l IH]; cbn.
  - destruct (pk' =? pk)%string; reflexivity.
  - destruct (key a =? pk)%string eqn:Ha; cbn [negb].
    + rewrite IH. destruct (pk' =? pk)%string eqn:Hp; [reflexivity |].
      apply String.eqb_eq in Ha. rewrite Ha, String.eqb_sym, Hp. reflexivity.
    + cbn. destruct (key a =? pk')%string eqn:Ha'.
      * destruct (pk' =? pk)%string eqn:Hp; [| reflexivity].
        apply String.eqb_eq in Ha'. apply String.eqb_eq in Hp.
        rewrite Ha', Hp, String.eqb_refl in Ha. discriminate.
      * exact IH.
Qed.

(** X17. A primary key that is not stored is answered 500 by the get, put
    and delete handlers, with the text of the [Http404] as the error, never
    404: the exception of [get_object_or_404] is caught by the handlers'
    own [except Exception].  The table is left as it was. *)
Theorem travel_detail_missing_pk_is_500 :
  forall (TravelDetail Data Validated Detail : Type)
         (detail_text : Detail -> string)
         (pk_of : TravelDetail -> string)
         (to_representation : TravelDetail -> TravelDetails.raised Detail + Data)
         (is_valid : option TravelDetail -> Data
                     -> TravelDetails.raised Detail + Validated)
         (save_update : list TravelDetail -> TravelDetail -> Validated
                        -> TravelDetails.raised Detail
                           + (TravelDetail * list TravelDetail))
         (delete_error : TravelDetail -> option (TravelDetails.raised Detail))
         (table : list TravelDetail) (pk : string) (request_data : Data),
    TravelDetails.get_object TravelDetail pk_of table pk = None ->
    TravelDetails.detail_get TravelDetail Data Detail detail_text pk_of
        to_representation table pk
      = TravelDetails.mkResponse Data Detail
          (TravelDetails.ErrorDetail Data Detail "Error fetching travel detail"
             TravelDetails.http404_text) 500
    /\ TravelDetails.detail_put TravelDetail Data Validated Detail detail_text pk_of
         to_representation is_valid save_update table pk request_data
       = (TravelDetails.mkResponse Data Detail
            (TravelDetails.ErrorDetail Data Detail "Error updating travel detail"
               TravelDetails.http404_text) 500, table)
    /\ TravelDetails.detail_delete TravelDetail Data Detail detail_text pk_of
         delete_error table pk
       = (TravelDetails.mkResponse Data Detail
            (TravelDetails.ErrorDetail Data Detail "Error deleting travel detail"
               TravelDetails.http404_text) 500, table).
Proof.
  intros TravelDetail Data Validated Detail detail_text pk_of to_representation
         is_valid save_update delete_error table pk request_data Hmissing.
  unfold TravelDetails.detail_get, TravelDetails.detail_put,
    TravelDetails.detail_delete.
  rewrite Hmissing. repeat split.
Qed.

Lemma travel_detail_missing_pk_is_500_witness :
  TravelDetails.status unit unit
    (TravelDetails.detail_get (string * string) unit unit (fun _ => "invalid") fst
       (fun _ => inr tt) [("td-1", "flight")] "td-2") = 500
  /\ snd (TravelDetails.detail_delete (string * string) unit unit
            (fun _ => "invalid") fst (fun _ => None) [("td-1", "flight")] "td-2")
     = [("td-1", "flight")].
Proof.
  destruct (travel_detail_missing_pk_is_500 (string * string) unit unit unit
              (fun _ => "invalid") fst (fun _ => inr tt)
              (fun _ _ => inr tt) (fun t td _ => inr (td, t)) (fun _ => None)
              [("td-1", "flight")] "td-2" tt eq_refl) as (Hget & _ & Hdel).
  split.
  - rewrite Hget. reflexivity.
  - rewrite Hdel. reflexivity.
Defined.

(** X18. Deleting a stored row that the storage lets go is answered 204;
    afterwards that primary key is not found any more (so a further get is
    answered 500), every other key finds what it found before, and the
    table holds exactly the earlier rows with another key. *)
Theorem travel_detail_delete_removes_the_row :
  forall (TravelDetail Data Detail : Type)
         (detail_text : Detail -> string)
         (pk_of : TravelDetail -> string)
         (to_representation : TravelDetail -> TravelDetails.raised Detail + Data)
         (delete_error : TravelDetail -> option (TravelDetails.raised Detail))
         (table : list TravelDetail) (pk : string) (td : TravelDetail),
    TravelDetails.get_object TravelDetail pk_of table pk = Some td ->
    delete_error td = None ->
    let '(resp, table') :=
      TravelDetails.detail_delete TravelDetail Data Detail detail_text pk_of
        delete_error table pk in
    TravelDetails.status Data Detail resp = 204
    /\ TravelDetails.get_object TravelDetail pk_of table' pk = None
    /\ (forall pk', pk' <> pk ->
          TravelDetails.get_object TravelDetail pk_of table' pk'
            = TravelDetails.get_object TravelDetail pk_of table pk')
    /\ (forall row, In row table' <-> In row table /\ pk_of row <> pk)
    /\ TravelDetails.status Data Detail
         (TravelDetails.detail_get TravelDetail Data Detail detail_text pk_of
            to_representation table' pk) = 500.
Proof.
  intros TravelDetail Data Detail detail_text pk_of to_representation delete_error
         table pk td Hfound Hok.
  unfold TravelDetails.detail_delete. rewrite Hfound, Hok.
  assert (Hpk : pk_of td = pk).
  { unfold TravelDetails.get_object in Hfound. apply find_some in Hfound.
    destruct Hfound as [_ H]. apply String.eqb_eq in H. exact H. }
  assert (Hgone : TravelDetails.get_object TravelDetail pk_of
                    (TravelDetails.delete_row TravelDetail pk_of td table) pk = None).
  { unfold TravelDetails.get_object, TravelDetails.delete_row.
    rewrite Hpk, find_after_delete, String.eqb_refl. reflexivity. }
  split; [reflexivity |]. split; [exact Hgone |]. split; [| split].
  - intros pk' Hne.
    unfold TravelDetails.get_object, TravelDetails.delete_row.
    rewrite Hpk, find_after_delete.
    apply String.eqb_neq in Hne. rewrite Hne. reflexivity.
  - intros row. unfold TravelDetails.delete_row. rewrite filter_In, Hpk.
    rewrite negb_true_iff, String.eqb_neq. reflexivity.
  - unfold TravelDetails.detail_get. rewrite Hgone. reflexivity.
Qed.

Lemma travel_detail_delete_removes_the_row_witness :
  let '(resp, table') :=
    TravelDetails.detail_delete (string * string) unit unit (fun _ => "invalid") fst
      (fun _ => None) [("td-1", "flight"); ("td-2", "train")] "td-1" in
  TravelDetails.status unit unit resp = 204
  /\ TravelDetails.get_object (string * string) fst table' "td-1" = None
  /\ TravelDetails.get_object (string * string) fst table' "td-2"
     = Some ("td-2", "train").
Proof.
  pose proof (travel_detail_delete_removes_the_row (string * string) unit unit
                (fun _ => "invalid") fst (fun _ => inr tt) (fun _ => None)
                [("td-1", "flight"); ("td-2", "train")] "td-1" ("td-1", "flight")
                eq_refl eq_refl) as H.
  destruct (TravelDetails.detail_delete _ _ _ _ _ _ _ _) as [resp table'].
  destruct H as (Hstatus & Hgone & Hother & _).
  split; [exact Hstatus |]. split; [exact Hgone |].
  rewrite (Hother "td-2"); [reflexivity | discriminate].
Defined.

(** ** Sending again *)

(** X19. Tracking a second send without correlator for the same identity
    and event, right after a first one went through, overwrites the first:
    unless the storage fails it succeeds, returns the same mapping id, adds
    no row, and the one row of that identity and event now points to the
    second registration with a fresh 30-day expiry. *)
Theorem track_send_again_overwrites :
  forall env1 env2 db request1 request2 b1 b2 mid db1 er1 er2,
    track_send env1 db request1 = (Returns (JsonTrackSend mid), db1) ->
    body request1 = Some b1 ->
    or_none (template_wamid b1) = None ->
    truthy (event_registration_id b1) = true ->
    get_registration db (or_empty (event_registration_id b1)) = Some er1 ->
    token_rejected env2 request2 = false ->
    body request2 = Some b2 ->
    or_none (template_wamid b2) = None ->
    truthy (event_id b2) = true ->
    truthy (event_registration_id b2) = true ->
    get_registration db (or_empty (event_registration_id b2)) = Some er2 ->
    er_event_id er2 = er_event_id er1 ->
    _norm_digits (or_empty (wa_id b2)) = _norm_digits (or_empty (wa_id b1)) ->
    upsert_fault env2 = false ->
    exists db2 m,
      track_send env2 db1 request2 = (Returns (JsonTrackSend mid), db2)
      /\ List.length (send_maps db2) = List.length (send_maps db1)
      /\ List.filter
           (wa_event_is (_norm_digits (or_empty (wa_id b1))) (er_event_id er1))
           (send_maps db2) = [m]
      /\ m_id m = mid
      /\ m_event_registration m = er_id er2
      /\ m_expires_at m = now_upsert env2 + days_30.
Proof.
  intros env1 env2 db request1 request2 b1 b2 mid db1 er1 er2
         Hts Hb1 Ht1 Hr1 Hg1 Htok Hb2 Ht2 Hev2 Hr2 Hg2 Hev Hnorm Hfault.
  apply track_send_success in Hts.
  destruct Hts as (b & er & Hb & _ & Hwa & _ & Hres & _ & Hregs & Hu).
  rewrite Hb1 in Hb. inversion Hb; subst b. clear Hb.
  rewrite Hr1, Hg1 in Hres. inversion Hres; subst er. clear Hres.
  rewrite Ht1 in Hu. apply update_or_create_row in Hu.
  destruct Hu as (m1 & Hone & Hid1 & _).
  cbn [upsert_key] in Hone.
  assert (Hg2' : get_registration db1 (or_empty (event_registration_id b2)) = Some er2).
  { unfold get_registration in *. rewrite Hregs. exact Hg2. }
  destruct (track_send_succeeds env2 db1 request2 b2 er2) as (mid2 & db2 & Hts2);
    try assumption.
  { rewrite Hnorm, Hwa. reflexivity. }
  { rewrite Ht2, Hnorm, Hev. cbn [upsert_key]. rewrite Hone. cbn. lia. }
  exists db2.
  pose proof (track_send_success _ _ _ _ _ Hts2)
    as (b & er & Hb & _ & _ & _ & Hres & _ & _ & Hu).
  rewrite Hb2 in Hb. inversion Hb; subst b. clear Hb.
  rewrite Hr2, Hg2' in Hres. inversion Hres; subst er. clear Hres.
  rewrite Ht2, Hnorm, Hev in Hu. cbn [upsert_key] in Hu.
  assert (Hmid : mid2 = mid).
  { apply update_or_create_cases in Hu.
    destruct Hu as [(Hnone & _) | (obj & Hobj & -> & _)].
    - rewrite Hone in Hnone. discriminate.
    - rewrite Hone in Hobj. inversion Hobj; subst obj. exact Hid1. }
  subst mid2.
  apply (update_or_create_row None) in Hu.
  destruct Hu as (m & Hone2 & Hid & _ & _ & Hreg & Hexp & Hlen).
  exists m. split; [exact Hts2 |].
  cbn [upsert_key] in Hone2, Hlen.
  assert (Hex : existsb (wa_event_is (_norm_digits (or_empty (wa_id b1)))
                                     (er_event_id er1)) (send_maps db1) = true).
  { apply existsb_exists. exists m1.
    apply filter_In. rewrite Hone. left. reflexivity. }
  rewrite Hex in Hlen.
  repeat split; try assumption. lia.
Qed.

Lemma track_send_again_overwrites_witness :
  let env2 := mkEnv (Some sample_secret) 2000 2000 0 0 0 false false false false in
  exists db2 m,
    track_send env2 db_sent
      (signed (sample_body (Some "+1 555 123 4567") (Some "E1") (Some "R2")
                           None None None))
      = (Returns (JsonTrackSend 1), db2)
    /\ List.length (send_maps db2) = List.length (send_maps db_sent)
    /\ List.filter (wa_event_is "15551234567" "E1") (send_maps db2) = [m]
    /\ m_id m = 1%N
    /\ m_event_registration m = "R2"
    /\ m_expires_at m = 2000 + days_30.
Proof.
  intros env2.
  apply (track_send_again_overwrites sample_env env2 db_empty
           (signed (sample_body (Some "15551234567") (Some "E1") (Some "R1")
                                None None None))
           (signed (sample_body (Some "+1 555 123 4567") (Some "E1") (Some "R2")
                                None None None))
           (sample_body (Some "15551234567") (Some "E1") (Some "R1") None None None)
           (sample_body (Some "+1 555 123 4567") (Some "E1") (Some "R2")
                        None None None)
           1%N db_sent R1 R2);
    reflexivity.
Defined.
